(** * kafe: the fit engine of [kafe/fit.py]

    A shallow embedding of [chi2], [round_to_significance] and of the
    parameter lifecycle and x-error iteration of class [Fit].

    Numbers.  Python floats are idealised as exact rationals ([Q]); the
    results that compare numbers are stated up to [Qeq] ([==]).  Rounding
    error, NaN and infinities of IEEE arithmetic are outside the model,
    except in [round_to_significance], where the floor of a quotient of
    logarithms hangs on the last bit: there the logarithm and the division
    are parameters.

    Errors.  A Python call either returns or raises; [result] keeps the
    exception class that the source raises.  The state that a raising call
    leaves behind is not tracked.

    Collaborators.  The minimizer ([minuit.Minuit]), the dataset and the
    [FitFunction] wrapper are other modules of kafe.  The calls that [Fit]
    makes on the minimizer are recorded, the numbers it returns are taken
    as parameters of the development. *)

From Stdlib Require Import QArith Qround Qabs Qpower Lia Lqa.
From stdpp Require Import list strings.

Local Open Scope Q_scope.

(** ** Python runtime *)

Module Py.

Inductive exn : Type :=
| Exception (msg : string)
| ValueError
| TypeError
| IndexError
| AttributeError
| ZeroDivisionError
| LinAlgError.

Inductive result (A : Type) : Type :=
| Ok (a : A)
| Raise (e : exn).

Arguments Ok {A} a.
Arguments Raise {A} e.

Definition bind {A B} (r : result A) (k : A -> result B) : result B :=
  match r with
  | Ok a => k a
  | Raise e => Raise e
  end.

(** [seq[i]] for a list, tuple or numpy array of length [len]: indices
    [0 .. len-1] and, counted from the end, [-len .. -1]. *)
Definition norm_index (len : nat) (i : Z) : option nat :=
  if ((0 <=? i) && (i <? Z.of_nat len))%Z then Some (Z.to_nat i)
  else if ((- Z.of_nat len <=? i) && (i <? 0))%Z
       then Some (Z.to_nat (Z.of_nat len + i))
       else None.

Definition getitem {A} (l : list A) (i : Z) : result A :=
  match norm_index (length l) i with
  | Some n => match l !! n with
              | Some x => Ok x
              | None => Raise IndexError
              end
  | None => Raise IndexError
  end.

Definition setitem {A} (l : list A) (i : Z) (x : A) : result (list A) :=
  match norm_index (length l) i with
  | Some n => Ok (<[n:=x]> l)
  | None => Raise IndexError
  end.

(** [l.index(x)]: position of the first occurrence, [ValueError] if none. *)
Fixpoint index `{EqDecision A} (l : list A) (x : A) : result Z :=
  match l with
  | [] => Raise ValueError
  | y :: l' => if decide (y = x) then Ok 0%Z
               else bind (index l' x) (fun k => Ok (1 + k)%Z)
  end.

(** Truth value of a float: [if x:] holds unless [x == 0]. *)
Definition truthy (x : Q) : bool := negb (Qeq_bool x 0).

End Py.

Import Py.

Notation "'let!' x ':=' c1 'in' c2" := (Py.bind c1 (fun x => c2))
  (at level 10, x name, c1 at level 100, c2 at level 200).

(** ** numpy vectors and matrices *)

Definition vector := list Q.
Definition matrix := list (list Q).

Definition Qsum (l : list Q) : Q := foldr Qplus 0 l.

Definition is_square (n : nat) (M : matrix) : bool :=
  (length M =? n)%nat && forallb (fun row => (length row =? n)%nat) M.

Definition identity (n : nat) : matrix :=
  map (fun i => map (fun j => if (i =? j)%nat then 1 else 0) (seq 0 n))
      (seq 0 n).

(** [a - b] on 1-d arrays: element-wise for equal shapes, an array of
    length one is broadcast, any other pair of shapes raises. *)
Definition np_sub (a b : vector) : result vector :=
  if (length a =? length b)%nat then Ok (zip_with Qminus a b)
  else match a, b with
       | [x], _ => Ok (map (fun y => x - y) b)
       | _, [y] => Ok (map (fun x => x - y) a)
       | _, _ => Raise ValueError
       end.

Definition vec_add (a b : vector) : vector := zip_with Qplus a b.
Definition vec_scale (c : Q) (a : vector) : vector := map (Qmult c) a.

(** Row vector times matrix, [sum_i r_i * M[i]], for [M] with [n] columns. *)
Fixpoint vec_mat (n : nat) (r : vector) (M : matrix) : vector :=
  match r, M with
  | ri :: r', row :: M' => vec_add (vec_scale ri row) (vec_mat n r' M')
  | _, _ => repeat 0 n
  end.

Definition vec_dot (a b : vector) : Q := Qsum (zip_with Qmult a b).

(** [r.T.dot(M).dot(r)[0, 0]] for a 1-d [r] and a matrix [M]: numpy raises
    unless [M] is [n x n] with [n] the length of [r]. *)
Definition quadratic_form (r : vector) (M : matrix) : result Q :=
  if is_square (length r) M then Ok (vec_dot (vec_mat (length r) r M) r)
  else Raise ValueError.

(** ** The default FCN: [chi2] *)

Section Chi2.

(** [cov_mat.I], numpy's matrix inverse; it raises on a singular or
    non-square matrix. *)
Variable mat_inv : matrix -> result matrix.

(** The fit function [f(x, *parameter_values)]. *)
Variable fit_function : Q -> list Q -> Q.

(** The loop [for i, err in enumerate(constrained_parameters[1])], with
    [i] the running index and [chi2val] the accumulator. *)
Fixpoint chi2_constraints (i : nat) (errs : list Q)
    (parameter_values cvals : list Q) (chi2val : Q) : result Q :=
  match errs with
  | [] => Ok chi2val
  | err :: errs' =>
      if truthy err then
        let! v := getitem parameter_values (Z.of_nat i) in
        let! c := getitem cvals (Z.of_nat i) in
        let dchi2 := (v - c) / err in
        let dchi2 := dchi2 * dchi2 in
        chi2_constraints (S i) errs' parameter_values cvals (chi2val + dchi2)
      else
        chi2_constraints (S i) errs' parameter_values cvals chi2val
  end.

Definition chi2 (xdata ydata : vector) (cov_mat : matrix)
    (parameter_values : list Q)
    (constrained_parameters : option (list Q * list Q)) : result Q :=
  let tmp_fit_function := fun x => fit_function x parameter_values in
  let fdata := map tmp_fit_function xdata in
  let! residual := np_sub ydata fdata in
  let! cov_inv := mat_inv cov_mat in
  let! chi2val := quadratic_form residual cov_inv in
  match constrained_parameters with
  | Some (cvals, cerrs) =>
      chi2_constraints 0 cerrs parameter_values cvals chi2val
  | None => Ok chi2val
  end.

End Chi2.

(** *** The objective as the specification words it *)

Definition entry (M : matrix) (i j : nat) : Q := nth j (nth i M []) 0.

(** [r^T M r = sum_i sum_j r_i M_ij r_j] over [n] points. *)
Definition quadratic_form_spec (n : nat) (r : nat -> Q) (M : matrix) : Q :=
  Qsum (map (fun i =>
    Qsum (map (fun j => r i * entry M i j * r j) (seq 0 n)))
    (seq 0 n)).

(** The penalty of parameter [i]: [((p_i - target_i)/sigma_i)^2] when its
    sigma is not zero, nothing otherwise. *)
Definition penalty_term (p cvals cerrs : list Q) (i : nat) : Q :=
  if Qeq_bool (nth i cerrs 0) 0 then 0
  else ((nth i p 0 - nth i cvals 0) / nth i cerrs 0) ^ 2.

Definition penalty_spec (p : list Q) (cp : option (list Q * list Q)) : Q :=
  match cp with
  | None => 0
  | Some (cvals, cerrs) =>
      Qsum (map (penalty_term p cvals cerrs) (seq 0 (length cerrs)))
  end.

(** The residual of point [i]: [y_i - f(x_i; p)]. *)
Definition residual_spec (f : Q -> list Q -> Q) (x y : vector) (p : list Q)
    (i : nat) : Q :=
  nth i y 0 - f (nth i x 0) p.

(** The two arrays of constraints have one entry per parameter, as the
    docstring of [chi2] asks. *)
Definition constraint_shape (p : list Q) (cp : option (list Q * list Q)) : bool :=
  match cp with
  | Some (cvals, cerrs) =>
      (length cvals =? length p)%nat && (length cerrs =? length p)%nat
  | None => true
  end.

(** ** [round_to_significance] *)

(** Python 2 [round(x, ndigits)]: to the nearest multiple of
    [10^-ndigits], a tie going away from zero. *)
Definition round_half_away (q : Q) : Z :=
  if Qle_bool 0 q then Qfloor (q + (1 # 2)) else (- Qfloor (- q + (1 # 2)))%Z.

Definition py_round (x : Q) (ndigits : Z) : Q :=
  inject_Z (round_half_away (x * 10 ^ ndigits)) / 10 ^ ndigits.

Section Rounding.

(** The decade of the error is computed in floating point, and the floor
    of the quotient [log(error)/log(10)] depends on the last bit of it:
    the double that [math.log] returns on a positive argument and the
    double that the division returns are taken as they come. *)
Variable math_log : Q -> Q.
Variable float_div : Q -> Q -> Q.

(** [math.log] raises [ValueError] outside its domain. *)
Definition py_log (x : Q) : result Q :=
  if Qle_bool x 0 then Raise ValueError else Ok (math_log x).

Definition py_truediv (a b : Q) : result Q :=
  if Qeq_bool b 0 then Raise ZeroDivisionError else Ok (float_div a b).

Definition round_to_significance (value error : Q) (significance : Z)
    : result (Q * Q) :=
  if truthy error then
    let! log_error := py_log error in
    let! log_10 := py_log 10 in
    let! quotient := py_truediv log_error log_10 in
    let significant_digits := (- Qfloor quotient + significance - 1)%Z in
    let error := py_round error significant_digits in
    let value := py_round value significant_digits in
    Ok (value, error)
  else Ok (value, error).

(** [floor(log(error)/log(10))] as the code computes it. *)
Definition computed_decade (error : Q) : Z :=
  Qfloor (float_div (math_log error) (math_log 10)).

End Rounding.

(** ** Collaborators of [Fit] *)

(** What [Fit] reads from its [Dataset]: [get_data], [get_cov_mat],
    [has_errors] on both axes and [get_size].  The dataset is never
    written to. *)
Record Dataset : Type := {
  get_data_x : vector;
  get_data_y : vector;
  get_cov_mat_x : matrix;
  get_cov_mat_y : matrix;
  has_errors_x : bool;
  has_errors_y : bool;
  get_size : nat
}.

(** What [Fit] reads from the [FitFunction] wrapper of the model function
    [func(x, *parameters)]. *)
Record FitFunction : Type := {
  func : Q -> list Q -> Q;
  ff_number_of_parameters : nat;
  ff_parameter_names : list string;
  parameter_defaults : list Q
}.

(** The [fit_function] argument of [Fit]: an instance of [FitFunction],
    or a plain function, which [__init__] wraps itself; [wrapped] is then
    the wrapper that [FitFunction(fit_function)] builds. *)
Inductive fit_function_arg : Type :=
| decorated (ff : FitFunction)
| undecorated (wrapped : FitFunction).

Coercion decorated : FitFunction >-> fit_function_arg.

Definition isinstance_FitFunction (fit_function : fit_function_arg) : bool :=
  match fit_function with
  | decorated _ => true
  | undecorated _ => false
  end.

Definition as_FitFunction (fit_function : fit_function_arg) : FitFunction :=
  match fit_function with
  | decorated ff => ff
  | undecorated wrapped => wrapped
  end.

(** The calls [Fit] makes on its minimizer, in the order it makes them;
    [set_parameter_errors None] is the call without an argument. *)
Inductive minuit_call : Type :=
| set_parameter_values (values : list Q)
| set_parameter_errors (errors : option (list Q))
| fix_parameter (par_id : Z)
| release_parameter (par_id : Z)
| minimize (final_fit : bool) (log_print_level : Z).

(** Records of the logger [kafe]. *)
Inductive log_record : Type :=
| warn_starting_errors_not_given
| warn_error_not_given (param_name : string)
| warn_minimizer_not_set
| warn_zero_input_error
| info_silent_cast
| info_no_y_errors
| info_fixed (par_id : Z) (name : string)
| info_released (par_id : Z) (name : string)
| info_released_all
| info_constrained (par_id : Z) (name : string)
| debug_calling_minuit
| debug_iterating_x
| debug_x_iteration (iter_nr : Z)
| debug_converged
| debug_calling_minimizer
| debug_retrieving
| debug_projecting.

(** Blocks written to [out_stream]. *)
Inductive report : Type :=
| out_timestamp
| out_dataset
| out_fit_function
| out_constraints (active : list (string * Q * Q))
| out_fit_results
| out_rounded_fit_parameters
| out_fit_details (ndf : Z).

(** A parameter reference: an ID or a name. *)
Inductive lookup : Type :=
| by_id (i : Z)
| by_name (name : string).

(** A keyword argument of [set_parameters]: a bare float or a sequence. *)
Inductive param_spec : Type :=
| spec_float (v : Q)
| spec_seq (l : list Q).

(** ** The state of a [Fit] *)

Record Fit : Type := {
  dataset : Dataset;
  fit_function : FitFunction;
  number_of_parameters : nat;
  parameter_names : list string;
  current_parameter_values : list Q;
  current_parameter_errors : list Q;
  _fixed_parameters : list bool;
  number_of_fixed_parameters : Z;
  _constrained_parameters : list bool;
  constrained_parameters : option (list Q * list Q);
  number_of_constrained_parameters : Z;
  current_cov_mat : matrix;
  (** [None] while the attribute [minimizer] is not yet set *)
  minimizer : option (list minuit_call);
  logger : list log_record;
  out_stream : list report
}.

Definition with_values (v : list Q) (f : Fit) : Fit :=
  {| dataset := dataset f; fit_function := fit_function f;
     number_of_parameters := number_of_parameters f;
     parameter_names := parameter_names f;
     current_parameter_values := v;
     current_parameter_errors := current_parameter_errors f;
     _fixed_parameters := _fixed_parameters f;
     number_of_fixed_parameters := number_of_fixed_parameters f;
     _constrained_parameters := _constrained_parameters f;
     constrained_parameters := constrained_parameters f;
     number_of_constrained_parameters := number_of_constrained_parameters f;
     current_cov_mat := current_cov_mat f; minimizer := minimizer f;
     logger := logger f; out_stream := out_stream f |}.

Definition with_errors (e : list Q) (f : Fit) : Fit :=
  {| dataset := dataset f; fit_function := fit_function f;
     number_of_parameters := number_of_parameters f;
     parameter_names := parameter_names f;
     current_parameter_values := current_parameter_values f;
     current_parameter_errors := e;
     _fixed_parameters := _fixed_parameters f;
     number_of_fixed_parameters := number_of_fixed_parameters f;
     _constrained_parameters := _constrained_parameters f;
     constrained_parameters := constrained_parameters f;
     number_of_constrained_parameters := number_of_constrained_parameters f;
     current_cov_mat := current_cov_mat f; minimizer := minimizer f;
     logger := logger f; out_stream := out_stream f |}.

Definition with_fixed (flags : list bool) (count : Z) (f : Fit) : Fit :=
  {| dataset := dataset f; fit_function := fit_function f;
     number_of_parameters := number_of_parameters f;
     parameter_names := parameter_names f;
     current_parameter_values := current_parameter_values f;
     current_parameter_errors := current_parameter_errors f;
     _fixed_parameters := flags;
     number_of_fixed_parameters := count;
     _constrained_parameters := _constrained_parameters f;
     constrained_parameters := constrained_parameters f;
     number_of_constrained_parameters := number_of_constrained_parameters f;
     current_cov_mat := current_cov_mat f; minimizer := minimizer f;
     logger := logger f; out_stream := out_stream f |}.

Definition with_constrained (flags : list bool)
    (cp : option (list Q * list Q)) (count : Z) (f : Fit) : Fit :=
  {| dataset := dataset f; fit_function := fit_function f;
     number_of_parameters := number_of_parameters f;
     parameter_names := parameter_names f;
     current_parameter_values := current_parameter_values f;
     current_parameter_errors := current_parameter_errors f;
     _fixed_parameters := _fixed_parameters f;
     number_of_fixed_parameters := number_of_fixed_parameters f;
     _constrained_parameters := flags;
     constrained_parameters := cp;
     number_of_constrained_parameters := count;
     current_cov_mat := current_cov_mat f; minimizer := minimizer f;
     logger := logger f; out_stream := out_stream f |}.

Definition with_cov_mat (m : matrix) (f : Fit) : Fit :=
  {| dataset := dataset f; fit_function := fit_function f;
     number_of_parameters := number_of_parameters f;
     parameter_names := parameter_names f;
     current_parameter_values := current_parameter_values f;
     current_parameter_errors := current_parameter_errors f;
     _fixed_parameters := _fixed_parameters f;
     number_of_fixed_parameters := number_of_fixed_parameters f;
     _constrained_parameters := _constrained_parameters f;
     constrained_parameters := constrained_parameters f;
     number_of_constrained_parameters := number_of_constrained_parameters f;
     current_cov_mat := m; minimizer := minimizer f;
     logger := logger f; out_stream := out_stream f |}.

Definition with_minimizer (m : option (list minuit_call)) (f : Fit) : Fit :=
  {| dataset := dataset f; fit_function := fit_function f;
     number_of_parameters := number_of_parameters f;
     parameter_names := parameter_names f;
     current_parameter_values := current_parameter_values f;
     current_parameter_errors := current_parameter_errors f;
     _fixed_parameters := _fixed_parameters f;
     number_of_fixed_parameters := number_of_fixed_parameters f;
     _constrained_parameters := _constrained_parameters f;
     constrained_parameters := constrained_parameters f;
     number_of_constrained_parameters := number_of_constrained_parameters f;
     current_cov_mat := current_cov_mat f; minimizer := m;
     logger := logger f; out_stream := out_stream f |}.

(** [logger.warn], [logger.info], [logger.debug]: newest record last. *)
Definition log (r : log_record) (f : Fit) : Fit :=
  {| dataset := dataset f; fit_function := fit_function f;
     number_of_parameters := number_of_parameters f;
     parameter_names := parameter_names f;
     current_parameter_values := current_parameter_values f;
     current_parameter_errors := current_parameter_errors f;
     _fixed_parameters := _fixed_parameters f;
     number_of_fixed_parameters := number_of_fixed_parameters f;
     _constrained_parameters := _constrained_parameters f;
     constrained_parameters := constrained_parameters f;
     number_of_constrained_parameters := number_of_constrained_parameters f;
     current_cov_mat := current_cov_mat f; minimizer := minimizer f;
     logger := logger f ++ [r]; out_stream := out_stream f |}.

(** [print >>self.out_stream, ...] *)
Definition print (r : report) (f : Fit) : Fit :=
  {| dataset := dataset f; fit_function := fit_function f;
     number_of_parameters := number_of_parameters f;
     parameter_names := parameter_names f;
     current_parameter_values := current_parameter_values f;
     current_parameter_errors := current_parameter_errors f;
     _fixed_parameters := _fixed_parameters f;
     number_of_fixed_parameters := number_of_fixed_parameters f;
     _constrained_parameters := _constrained_parameters f;
     constrained_parameters := constrained_parameters f;
     number_of_constrained_parameters := number_of_constrained_parameters f;
     current_cov_mat := current_cov_mat f; minimizer := minimizer f;
     logger := logger f; out_stream := out_stream f ++ [r] |}.

(** A method call on [self.minimizer]; the attribute is missing until
    [__init__] has built the minimizer. *)
Definition call_minuit (c : minuit_call) (f : Fit) : result Fit :=
  match minimizer f with
  | Some calls => Ok (with_minimizer (Some (calls ++ [c])) f)
  | None => Raise AttributeError
  end.

(** ** Parameter lookup *)

(** [_find_parameter]: the probe [self.current_parameter_values[lookup]]
    raises [TypeError] for a name, which starts the search by name; for an
    integer it either succeeds, and the lookup itself is returned as the
    ID, or raises [IndexError], which the [try] does not catch. *)
Definition _find_parameter (f : Fit) (lookup_string : lookup)
    : result (option Z) :=
  match lookup_string with
  | by_id i =>
      let! probe := getitem (current_parameter_values f) i in
      Ok (Some i)
  | by_name name =>
      match index (parameter_names f) name with
      | Ok found_id => Ok (Some found_id)
      | Raise ValueError => Ok None
      | Raise e => Raise e
      end
  end.

(** ** [set_parameters] *)

Definition default_error (val : Q) : Q :=
  if truthy val then val / 10 else 0.1.

Definition warn_unless (no_warning : bool) (r : log_record) (f : Fit) : Fit :=
  if no_warning then f else log r f.

(** The branch [if args:], after [par_values, par_errors] are bound. *)
Definition set_positional (par_values par_errors : option (list Q))
    (no_warning : bool) (f : Fit) : result Fit :=
  match par_values with
  | None => Raise TypeError
  | Some values =>
      if (length values =? number_of_parameters f)%nat then
        let f := with_values values f in
        match par_errors with
        | Some errors =>
            if (length values =? number_of_parameters f)%nat
            then Ok (with_errors errors f)
            else Raise (Exception "Cannot set parameter errors.")
        | None =>
            let f := warn_unless no_warning warn_starting_errors_not_given f in
            Ok (with_errors (map default_error (current_parameter_values f)) f)
        end
      else Raise (Exception "Cannot set parameters.")
  end.

(** The branch [else], the loop over [kwargs.iteritems()]. *)
Fixpoint set_keywords (kwargs : list (string * param_spec))
    (no_warning : bool) (f : Fit) : result Fit :=
  match kwargs with
  | [] => Ok f
  | (param_name, spec) :: rest =>
      let! found := _find_parameter f (by_name param_name) in
      match found with
      | None => Raise ValueError
      | Some par_id =>
          let! unpacked :=
            match spec with
            | spec_seq [param_val; param_err] => Ok (f, param_val, param_err)
            | spec_seq _ => Raise ValueError
            | spec_float v =>
                Ok (warn_unless no_warning (warn_error_not_given param_name) f,
                    v, v * 0.1)
            end in
          let '(f, param_val, param_err) := unpacked in
          let! values := setitem (current_parameter_values f) par_id param_val in
          let f := with_values values f in
          let! errors := setitem (current_parameter_errors f) par_id param_err in
          set_keywords rest no_warning (with_errors errors f)
      end
  end.

(** The closing [try ... except AttributeError]. *)
Definition update_minimizer (no_warning : bool) (f : Fit) : Fit :=
  match call_minuit (set_parameter_values (current_parameter_values f)) f with
  | Ok f1 =>
      match call_minuit (set_parameter_errors (Some (current_parameter_errors f1))) f1 with
      | Ok f2 => f2
      | Raise _ => warn_unless no_warning warn_minimizer_not_set f1
      end
  | Raise _ => warn_unless no_warning warn_minimizer_not_set f
  end.

Definition set_parameters (args : list (option (list Q)))
    (kwargs : list (string * param_spec)) (no_warning : bool) (f : Fit)
    : result Fit :=
  let! f :=
    match args with
    | [] => set_keywords kwargs no_warning f
    | [a0] => set_positional a0 None no_warning f
    | [a0; a1] => set_positional a0 a1 no_warning f
    | _ => Raise (Exception "Error setting parameters.")
    end in
  Ok (update_minimizer no_warning f).



(** ** [fix_parameters], [release_parameters], [constrain_parameters] *)

Fixpoint fix_parameters (parameters_to_fix : list lookup) (f : Fit)
    : result Fit :=
  match parameters_to_fix with
  | [] => Ok f
  | parameter :: rest =>
      let! found := _find_parameter f parameter in
      match found with
      | None => Raise ValueError
      | Some par_id =>
          let! f := call_minuit (fix_parameter par_id) f in
          let count := (number_of_fixed_parameters f + 1)%Z in
          let! flags := setitem (_fixed_parameters f) par_id true in
          let f := with_fixed flags count f in
          let! name := getitem (parameter_names f) par_id in
          fix_parameters rest (log (info_fixed par_id name) f)
      end
  end.

Fixpoint release_each (parameters_to_release : list lookup) (f : Fit)
    : result Fit :=
  match parameters_to_release with
  | [] => Ok f
  | parameter :: rest =>
      let! found := _find_parameter f parameter in
      match found with
      | None => Raise ValueError
      | Some par_id =>
          let! f := call_minuit (release_parameter par_id) f in
          let count := (number_of_fixed_parameters f - 1)%Z in
          let! flags := setitem (_fixed_parameters f) par_id false in
          let f := with_fixed flags count f in
          let! name := getitem (parameter_names f) par_id in
          release_each rest (log (info_released par_id name) f)
      end
  end.

(** [for par_id in xrange(self.number_of_parameters)] *)
Fixpoint release_all (par_ids : list nat) (f : Fit) : result Fit :=
  match par_ids with
  | [] => Ok f
  | par_id :: rest =>
      let! f := call_minuit (release_parameter (Z.of_nat par_id)) f in
      release_all rest f
  end.

Definition release_parameters (parameters_to_release : list lookup) (f : Fit)
    : result Fit :=
  match parameters_to_release with
  | _ :: _ => release_each parameters_to_release f
  | [] =>
      let! f := release_all (seq 0 (number_of_parameters f)) f in
      Ok (log info_released_all f)
  end.

(** The loop [for i, parameter in enumerate(parameters)].  The arrays of
    targets and sigmas are of [np.float32] in the source, which rounds a
    number to single precision when it is stored; here it is stored as it
    is given. *)
Fixpoint constrain_from (i : nat) (parameters : list lookup)
    (parvals parerrs : list Q) (f : Fit) : result Fit :=
  match parameters with
  | [] => Ok f
  | parameter :: rest =>
      let! found := _find_parameter f parameter in
      match found with
      | None => Raise ValueError
      | Some par_id =>
          let! val := getitem parvals (Z.of_nat i) in
          match constrained_parameters f with
          | None => Raise TypeError
          | Some (cvals, cerrs) =>
              let! cvals := setitem cvals par_id val in
              let! err := getitem parerrs (Z.of_nat i) in
              let! cerrs := setitem cerrs par_id err in
              let count := (number_of_constrained_parameters f + 1)%Z in
              let! flags := setitem (_constrained_parameters f) par_id true in
              let f := with_constrained flags (Some (cvals, cerrs)) count f in
              let! name := getitem (parameter_names f) par_id in
              constrain_from (S i) rest parvals parerrs
                (log (info_constrained par_id name) f)
          end
      end
  end.

Definition constrain_parameters (parameters : list lookup)
    (parvals parerrs : list Q) (f : Fit) : result Fit :=
  constrain_from 0 parameters parvals parerrs f.

(** ** Degrees of freedom, as [print_fit_details] computes them *)

Definition ndf (f : Fit) : Z :=
  (Z.of_nat (get_size (dataset f)) - Z.of_nat (number_of_parameters f)
   + number_of_fixed_parameters f
   + number_of_constrained_parameters f)%Z.

Definition print_fit_details (f : Fit) : Fit :=
  let _ndf := ndf f in
  print (out_fit_details _ndf) f.

(** How many parameters carry the flag. *)
Definition count_flags (flags : list bool) : Z :=
  Z.of_nat (length (filter (fun b => b = true) flags)).

(** ** numpy helpers of the x-error projection *)

(** [np.diag(M)]: the entries [M[i][i]]. *)
Fixpoint diag_from (i : nat) (M : matrix) : vector :=
  match M with
  | [] => []
  | row :: M' =>
      match row !! i with
      | Some d => d :: diag_from (S i) M'
      | None => []
      end
  end.

Definition np_diag (M : matrix) : vector := diag_from 0 M.

(** The builtin [min] of a sequence: [ValueError] when it is empty. *)
Definition py_min (l : list Q) : result Q :=
  match l with
  | [] => Raise ValueError
  | x :: l' => Ok (foldl (fun m y => if Qle_bool m y then m else y) x l')
  end.

Definition same_shape (A B : matrix) : bool :=
  (length A =? length B)%nat
  && forallb (fun ab => (length (fst ab) =? length (snd ab))%nat) (zip A B).

(** Element-wise [A op B] on two matrices of one shape.  The matrices of
    a fit all have the shape of its data; numpy's broadcasting of an axis
    of length one is not modelled, other shapes raise. *)
Definition np_elementwise (op : Q -> Q -> Q) (A B : matrix) : result matrix :=
  if same_shape A B then Ok (zip_with (zip_with op) A B)
  else Raise ValueError.

(** [np.allclose(a, b, rtol, atol)]: [|a - b| <= atol + rtol * |b|] in
    every entry. *)
Definition isclose (rtol atol a b : Q) : bool :=
  Qle_bool (Qabs (a - b)) (atol + rtol * Qabs b).

Definition np_allclose (A B : matrix) (rtol atol : Q) : result bool :=
  if same_shape A B
  then Ok (forallb (fun ab =>
             forallb (fun xy => isclose rtol atol (fst xy) (snd xy))
                     (zip (fst ab) (snd ab)))
           (zip A B))
  else Raise ValueError.

(** Modelled from the spec: [outer_product] is defined in
    [function_tools.py], which is not among the sources; the projection
    formula [C_x[i][j] * (df/dx)_i * (df/dx)_j] needs the matrix of the
    products [v_i * v_j]. *)
Definition outer_product (v : vector) : matrix :=
  map (fun a => map (fun b => a * b) v) v.

(** ** The fit workflow *)

Definition max_x_iterations : Z := 10.

Section Workflow.

(** What the minimizer reports through [get_parameter_values] and
    [get_parameter_errors] after the [minimize] call that the state
    records last. *)
Variable minuit_result : Fit -> list Q * list Q.

(** [np.sqrt] on one entry. *)
Variable np_sqrt : Q -> Q.

(** [FitFunction.derive_by_x(x_0, precision_list, parameter_list)], the
    derivative [df/dx] at each point of [x_0], the step of point [i] being
    entry [i] of [precision_list]. *)
Variable derive_by_x : FitFunction -> vector -> vector -> list Q -> vector.

Definition call_minimizer (final_fit verbose : bool) (f : Fit) : result Fit :=
  let verbosity := 0%Z in
  let verbosity := if final_fit then 2%Z else verbosity in
  let verbosity := if verbose then 3%Z else verbosity in
  let f := log debug_calling_minimizer f in
  let! f := call_minuit (minimize final_fit verbosity) f in
  let f := log debug_retrieving f in
  let f := with_values (fst (minuit_result f)) f in
  Ok (with_errors (snd (minuit_result f)) f).

(** [0.01 * np.sqrt(np.diag(self.current_cov_mat))] *)
Definition initial_precision_list (f : Fit) : vector :=
  map (fun d => 0.01 * np_sqrt d) (np_diag (current_cov_mat f)).

(** The list of steps handed to [derive_by_x], and whether the warning
    is due: when the smallest entry is zero, [1e-7] takes the place of the
    entries that are zero. *)
Definition precision_steps (f : Fit) : result (vector * bool) :=
  let precision_list := initial_precision_list f in
  let! smallest := py_min precision_list in
  if Qeq_bool smallest 0
  then Ok (map (fun p => if truthy p then p else 1e-7) precision_list, true)
  else Ok (precision_list, false).

Definition project_x_covariance_matrix (f : Fit) : result Fit :=
  let f := log debug_projecting f in
  let! steps := precision_steps f in
  let precision_list := fst steps in
  let f := if snd steps then log warn_zero_input_error f else f in
  let outer_prod :=
    outer_product (derive_by_x (fit_function f) (get_data_x (dataset f))
                               precision_list (current_parameter_values f)) in
  let! proj_xcov_mat := np_elementwise Qmult (get_cov_mat_x (dataset f)) outer_prod in
  let! total := np_elementwise Qplus (get_cov_mat_y (dataset f)) proj_xcov_mat in
  Ok (with_cov_mat total f).

(** One pass through the body of [while iter_nr < max_x_iterations], up
    to the test of [np.allclose]; the flag says whether the test held. *)
Definition x_iteration (verbose : bool) (iter_nr : Z) (f : Fit)
    : result (Fit * bool) :=
  let old_matrix := current_cov_mat f in
  let! f := project_x_covariance_matrix f in
  let f := log (debug_x_iteration iter_nr) f in
  let! f := (if (iter_nr =? 0)%Z then call_minimizer false verbose f
             else call_minimizer true verbose f) in
  let new_matrix := current_cov_mat f in
  let! close := np_allclose old_matrix new_matrix 1e-4 0 in
  Ok (f, close).

(** The [while] loop; [None] when [fuel] passes are not enough. *)
Fixpoint x_loop (fuel : nat) (verbose : bool) (iter_nr : Z) (f : Fit)
    : option (result Fit) :=
  match fuel with
  | O => None
  | S fuel' =>
      if (iter_nr <? max_x_iterations)%Z then
        match x_iteration verbose iter_nr f with
        | Raise e => Some (Raise e)
        | Ok (f', true) => Some (Ok (log debug_converged f'))
        | Ok (f', false) => x_loop fuel' verbose (iter_nr + 1) f'
        end
      else Some (Ok f)
  end.

(** The constraints block of the report. *)
Fixpoint active_constraints (i : nat) (cerrs : list Q) (f : Fit)
    (cvals : list Q) : result (list (string * Q * Q)) :=
  match cerrs with
  | [] => Ok []
  | err :: rest =>
      if truthy err then
        let! name := getitem (parameter_names f) (Z.of_nat i) in
        let! c := getitem cvals (Z.of_nat i) in
        let! more := active_constraints (S i) rest f cvals in
        Ok ((name, c, err) :: more)
      else active_constraints (S i) rest f cvals
  end.

Definition print_header (f : Fit) : result Fit :=
  let f := print out_fit_function (print out_dataset f) in
  if (number_of_constrained_parameters f =? 0)%Z then Ok f
  else match constrained_parameters f with
       | None => Raise TypeError
       | Some (cvals, cerrs) =>
           let! active := active_constraints 0 cerrs f cvals in
           Ok (print (out_constraints active) f)
       end.

Definition print_results (f : Fit) : Fit :=
  print_fit_details (print out_rounded_fit_parameters (print out_fit_results f)).

Definition do_fit (fuel : nat) (quiet verbose : bool) (f : Fit)
    : option (result Fit) :=
  let f := print out_timestamp f in
  match (if quiet then Ok f else print_header f) with
  | Raise e => Some (Raise e)
  | Ok f =>
      let f :=
        if (number_of_constrained_parameters f =? 0)%Z
        then with_constrained (_constrained_parameters f) None
                              (number_of_constrained_parameters f) f
        else f in
      let f := log debug_calling_minuit f in
      match call_minimizer (negb (has_errors_x (dataset f))) verbose f with
      | Raise e => Some (Raise e)
      | Ok f =>
          match (if has_errors_x (dataset f)
                 then x_loop fuel verbose 0 (log debug_iterating_x f)
                 else Some (Ok f)) with
          | None => None
          | Some (Raise e) => Some (Raise e)
          | Some (Ok f) => Some (Ok (if quiet then f else print_results f))
          end
      end
  end.

End Workflow.

(** ** The objective handed to the minimizer, and the constructor *)

(** [call_external_fcn] with the default [external_fcn], [chi2]. *)
Definition call_external_fcn (mat_inv : matrix -> result matrix) (f : Fit)
    (parameter_values : list Q) : result Q :=
  chi2 mat_inv (func (fit_function f))
       (get_data_x (dataset f)) (get_data_y (dataset f)) (current_cov_mat f)
       parameter_values (constrained_parameters f).

(** The attributes before [__init__] has assigned them. *)
Definition blank (ds : Dataset) (ff : FitFunction) : Fit :=
  {| dataset := ds; fit_function := ff;
     number_of_parameters := ff_number_of_parameters ff;
     parameter_names := [];
     current_parameter_values := []; current_parameter_errors := [];
     _fixed_parameters := []; number_of_fixed_parameters := 0;
     _constrained_parameters := []; constrained_parameters := None;
     number_of_constrained_parameters := 0;
     current_cov_mat := []; minimizer := None;
     logger := []; out_stream := [] |}.

(** [Fit.__init__]: a fit function that is not a [FitFunction] is
    wrapped and the cast reported; the parameters start at the defaults of
    the fit function, nothing is fixed or constrained, and the minimizer is
    built last.  The handling of old log files is left out. *)
Definition __init__ (ds : Dataset) (fit_function : fit_function_arg)
    : result Fit :=
  let ff := as_FitFunction fit_function in
  let f := if isinstance_FitFunction fit_function then blank ds ff
           else log info_silent_cast (blank ds ff) in
  let! f := set_parameters [Some (parameter_defaults ff); None] [] true f in
  let n := number_of_parameters f in
  Ok {| dataset := ds; fit_function := ff;
        number_of_parameters := n;
        parameter_names := ff_parameter_names ff;
        current_parameter_values := current_parameter_values f;
        current_parameter_errors := current_parameter_errors f;
        _fixed_parameters := repeat false n;
        number_of_fixed_parameters := 0;
        _constrained_parameters := repeat false n;
        constrained_parameters := Some (repeat 0 n, repeat 0 n);
        number_of_constrained_parameters := 0;
        current_cov_mat :=
          if has_errors_y ds then get_cov_mat_y ds
          else identity (get_size ds);
        minimizer :=
          Some [set_parameter_values (current_parameter_values f);
                set_parameter_errors None];
        logger :=
          logger f ++ (if has_errors_y ds then [] else [info_no_y_errors]);
        out_stream := [] |}.

(** ** Notions used to state the properties *)

(** The arrays of the fit have one entry per parameter and the minimizer
    is built: the state every method finds after [__init__]. *)
Definition well_formed (f : Fit) : bool :=
  let n := number_of_parameters f in
  match minimizer f, constrained_parameters f with
  | Some _, Some (cvals, cerrs) =>
      (length (parameter_names f) =? n)%nat
      && (length (current_parameter_values f) =? n)%nat
      && (length (current_parameter_errors f) =? n)%nat
      && (length (_fixed_parameters f) =? n)%nat
      && (length (_constrained_parameters f) =? n)%nat
      && (length cvals =? n)%nat && (length cerrs =? n)%nat
  | _, _ => false
  end.

(** The reference names a parameter of the fit. *)
Definition resolves (f : Fit) (l : lookup) : bool :=
  match _find_parameter f l with
  | Ok (Some _) => true
  | _ => false
  end.

(** The state the x-error iteration needs: a minimizer, covariance
    matrices of the shape [n x n] of the data, at least one data point. *)
Definition ready (n : nat) (f : Fit) : bool :=
  match minimizer f with
  | Some _ =>
      (0 <? n)%nat
      && (length (get_data_x (dataset f)) =? n)%nat
      && is_square n (get_cov_mat_x (dataset f))
      && is_square n (get_cov_mat_y (dataset f))
      && is_square n (current_cov_mat f)
  | None => false
  end.

(** The covariance matrix changed by no more than the tolerance: every
    entry of the snapshot [old] is within [1e-4 * |new|] of [new]. *)
Definition within_tolerance (n : nat) (old new : matrix) : Prop :=
  forall i j, (i < n)%nat -> (j < n)%nat ->
    Qabs (entry old i j - entry new i j) <= 1e-4 * Qabs (entry new i j).

(** Passes of the loop that the log shows. *)
Definition is_x_iteration (r : log_record) : bool :=
  match r with debug_x_iteration _ => true | _ => false end.

Definition x_iterations_logged (f : Fit) : nat :=
  length (filter (fun r => is_x_iteration r = true) (logger f)).

(** A run of the loop body over [n] points: starting in state [f] with
    [iter_nr = i], the passes [i .. i+k-1] each change the covariance
    matrix by more than the tolerance, and pass [i+k] ends in state
    [f_last], where [met] tells whether the matrix it computed is within
    the tolerance of the snapshot taken when that pass began. *)
Fixpoint x_run (minuit_result : Fit -> list Q * list Q) (np_sqrt : Q -> Q)
    (derive_by_x : FitFunction -> vector -> vector -> list Q -> vector)
    (verbose : bool) (n i k : nat) (f f_last : Fit) (met : bool) : Prop :=
  match k with
  | O =>
      x_iteration minuit_result np_sqrt derive_by_x verbose (Z.of_nat i) f
      = Ok (f_last, met)
      /\ (met = true
          <-> within_tolerance n (current_cov_mat f) (current_cov_mat f_last))
  | S k' =>
      exists f1,
        x_iteration minuit_result np_sqrt derive_by_x verbose (Z.of_nat i) f
        = Ok (f1, false)
        /\ ~ within_tolerance n (current_cov_mat f) (current_cov_mat f1)
        /\ x_run minuit_result np_sqrt derive_by_x verbose n (S i) k'
                 f1 f_last met
  end.


(** The two states describe the same parameters of the same data. *)
Definition same_parameters (f f' : Fit) : Prop :=
  dataset f' = dataset f
  /\ number_of_parameters f' = number_of_parameters f
  /\ parameter_names f' = parameter_names f
  /\ current_parameter_values f' = current_parameter_values f.

(** The state one argument of [fix_parameters] leaves: the minimizer is
    told, the count goes up, the flag of slot [k] is set. *)
Definition fixed_state (par_id : Z) (k : nat) (name : string) (f : Fit) : Fit :=
  log (info_fixed par_id name)
    (with_fixed (<[k:=true]> (_fixed_parameters f))
                (number_of_fixed_parameters f + 1)
                (with_minimizer
                   (option_map (fun calls => calls ++ [fix_parameter par_id])
                               (minimizer f)) f)).

Definition released_state (par_id : Z) (k : nat) (name : string) (f : Fit) : Fit :=
  log (info_released par_id name)
    (with_fixed (<[k:=false]> (_fixed_parameters f))
                (number_of_fixed_parameters f - 1)
                (with_minimizer
                   (option_map (fun calls => calls ++ [release_parameter par_id])
                               (minimizer f)) f)).

Definition constrained_state (par_id : Z) (k : nat) (name : string)
    (val err : Q) (f : Fit) : Fit :=
  log (info_constrained par_id name)
    (with_constrained (<[k:=true]> (_constrained_parameters f))
       (option_map (fun cp => (<[k:=val]> (fst cp), <[k:=err]> (snd cp)))
                   (constrained_parameters f))
       (number_of_constrained_parameters f + 1) f).

(** The constraint of slot [k] is switched off: its sigma is zero. *)
Definition sigma_is_zero (f : Fit) (k : nat) : bool :=
  match constrained_parameters f with
  | Some (_, cerrs) => negb (truthy (nth k cerrs 0))
  | None => true
  end.

(** No parameter of the fit has a constraint with a sigma other than
    zero. *)
Definition no_active_constraint (cp : option (list Q * list Q)) : bool :=
  match cp with
  | Some (_, cerrs) => forallb (fun s => negb (truthy s)) cerrs
  | None => true
  end.

(** ** Sample collaborators and data *)

(** A square root that is exact on the squares of rationals. *)
Definition sqrt_exact (q : Q) : Q :=
  let q := Qred q in
  Qred (Z.sqrt (Qnum q * Zpos (Qden q)) # Qden q).

(** Central differences, one step per point. *)
Definition central_difference (ff : FitFunction)
    (x_0 precision_list parameter_list : vector) : vector :=
  zip_with (fun x dx =>
      Qred ((func ff (x + dx) parameter_list - func ff (x - dx) parameter_list)
            / (2 * dx)))
    x_0 precision_list.

(** [math.log] and the division of two of its results on the arguments
    of the examples, as doubles: [log(10.0)], [log(1000.0)], [log(0.0236)]
    and the quotients [2.9999999999999996] and [-1.6270879970298933]. *)
Definition log_table (x : Q) : Q :=
  if Qeq_bool x 10 then 2592480341699211 # 1125899906842624
  else if Qeq_bool x 1000 then 243045032034301 # 35184372088832
  else if Qeq_bool x 0.0236 then - (8436387293029485 # 2251799813685248)
  else 0.

Definition div_table (a b : Q) : Q :=
  if Qeq_bool b (2592480341699211 # 1125899906842624) then
    if Qeq_bool a (243045032034301 # 35184372088832)
    then 6755399441055743 # 2251799813685248
    else if Qeq_bool a (- (8436387293029485 # 2251799813685248))
    then - (3663876448561417 # 2251799813685248)
    else a / b
  else a / b.

(** A minimizer that reports the values it was started from. *)
Definition minuit_keep (f : Fit) : list Q * list Q :=
  (current_parameter_values f, current_parameter_errors f).

(** A minimizer whose values never settle. *)
Definition minuit_double (f : Fit) : list Q * list Q :=
  (map (Qmult 2) (current_parameter_values f), current_parameter_errors f).

(** Gauss-Jordan elimination on the rows [M[i] ++ identity[i]]. *)
Fixpoint split_pivot (col : nat) (rows : matrix) : option (list Q * matrix) :=
  match rows with
  | [] => None
  | r :: rs =>
      if truthy (nth col r 0) then Some (r, rs)
      else match split_pivot col rs with
           | Some (p, rest) => Some (p, r :: rest)
           | None => None
           end
  end.

Definition eliminate (col : nat) (p r : list Q) : list Q :=
  zip_with (fun a b => Qred (a - nth col r 0 * b)) r p.

Fixpoint gauss_jordan (cols : list nat) (done todo : matrix) : result matrix :=
  match cols with
  | [] => Ok done
  | col :: cols' =>
      match split_pivot col todo with
      | None => Raise LinAlgError
      | Some (p, rest) =>
          let p := map (fun a => Qred (a / nth col p 0)) p in
          gauss_jordan cols' (map (eliminate col p) done ++ [p])
                       (map (eliminate col p) rest)
      end
  end.

Definition mat_inv_gauss (M : matrix) : result matrix :=
  let n := length M in
  if is_square n M then
    let! rows := gauss_jordan (seq 0 n) [] (zip_with app M (identity n)) in
    Ok (map (drop n) rows)
  else Raise LinAlgError.

(** The line of the docstring of [Fit]:
    [linear_2par(x, slope=1., y_intercept=0.)]. *)
Definition linear_2par : FitFunction :=
  {| func := fun x p => nth 0 p 0 * x + nth 1 p 0;
     ff_number_of_parameters := 2;
     ff_parameter_names := ["slope"; "y_intercept"];
     parameter_defaults := [1; 0] |}.

(** Two points with independent errors on both axes. *)
Definition two_points : Dataset :=
  {| get_data_x := [1; 2];
     get_data_y := [1; 2];
     get_cov_mat_x := [[1; 0]; [0; 1]];
     get_cov_mat_y := [[1; 0]; [0; 4]];
     has_errors_x := true;
     has_errors_y := true;
     get_size := 2 |}.

(** [Fit(two_points, linear_2par)] *)
Definition sample_fit : Fit :=
  match __init__ two_points linear_2par with
  | Ok f => f
  | Raise _ => blank two_points linear_2par
  end.


(** [two_points] with no y error on the first point. *)
Definition exact_first_point : Dataset :=
  {| get_data_x := [1; 2];
     get_data_y := [1; 2];
     get_cov_mat_x := [[1; 0]; [0; 1]];
     get_cov_mat_y := [[0; 0]; [0; 4]];
     has_errors_x := true;
     has_errors_y := true;
     get_size := 2 |}.

Definition sample_fit_exact_first : Fit :=
  match __init__ exact_first_point linear_2par with
  | Ok f => f
  | Raise _ => blank exact_first_point linear_2par
  end.

(** ** Further methods of [Fit] *)

Section Getters.

(** The logarithm and the division that [round_to_significance] uses. *)
Variable math_log : Q -> Q.
Variable float_div : Q -> Q -> Q.

(** The constant of [config.py] that [round_to_significance] takes as
    the default of [significance]. *)
Variable FORMAT_ERROR_SIGNIFICANT_PLACES : Z.

(** [get_parameter_errors] and [get_parameter_values], over the triples
    [(name, value, error)] that [minimizer.get_parameter_info()] answers. *)
Fixpoint get_parameter_errors (parameter_info : list (string * Q * Q))
    (rounding : bool) : result (list Q) :=
  match parameter_info with
  | [] => Ok []
  | (name, value, error) :: rest =>
      let! rounded :=
        (if rounding
         then round_to_significance math_log float_div value error
                FORMAT_ERROR_SIGNIFICANT_PLACES
         else Ok (value, error)) in
      let! output := get_parameter_errors rest rounding in
      Ok (snd rounded :: output)
  end.

Fixpoint get_parameter_values (parameter_info : list (string * Q * Q))
    (rounding : bool) : result (list Q) :=
  match parameter_info with
  | [] => Ok []
  | (name, value, error) :: rest =>
      let! rounded :=
        (if rounding
         then round_to_significance math_log float_div value error
                FORMAT_ERROR_SIGNIFICANT_PLACES
         else Ok (value, error)) in
      let! output := get_parameter_values rest rounding in
      Ok (fst rounded :: output)
  end.

(** The decade computed for [error] is not above the decade of [error]
    by more than the last bits of the logarithms can make it:
    [10^d <= 2 * error]. *)
Definition decade_in_reach (error : Q) : Prop :=
  10 ^ computed_decade math_log float_div error <= 2 * error.

End Getters.


(** ** Notions used to state further properties *)

(** [name] is one of the parameter names of the fit. *)
Definition known_name (f : Fit) (name : string) : bool :=
  existsb (String.eqb name) (parameter_names f).

(** What the fit keeps apart from its parameter values, its covariance
    matrix, its minimizer and its log. *)
Definition same_bookkeeping (f f' : Fit) : Prop :=
  dataset f' = dataset f
  /\ fit_function f' = fit_function f
  /\ number_of_parameters f' = number_of_parameters f
  /\ parameter_names f' = parameter_names f
  /\ _fixed_parameters f' = _fixed_parameters f
  /\ number_of_fixed_parameters f' = number_of_fixed_parameters f
  /\ _constrained_parameters f' = _constrained_parameters f
  /\ constrained_parameters f' = constrained_parameters f
  /\ number_of_constrained_parameters f' = number_of_constrained_parameters f.

(** What a fit is set up with: its data and function, its parameters,
    and which of them are fixed or constrained. *)
Definition same_setup (f f' : Fit) : Prop :=
  dataset f' = dataset f
  /\ fit_function f' = fit_function f
  /\ number_of_parameters f' = number_of_parameters f
  /\ parameter_names f' = parameter_names f
  /\ _fixed_parameters f' = _fixed_parameters f
  /\ number_of_fixed_parameters f' = number_of_fixed_parameters f
  /\ _constrained_parameters f' = _constrained_parameters f
  /\ number_of_constrained_parameters f' = number_of_constrained_parameters f.

(** The verbosity [call_minimizer] passes on. *)
Definition log_print_level_of (final_fit verbose : bool) : Z :=
  if verbose then 3%Z else if final_fit then 2%Z else 0%Z.

Definition symmetric (n : nat) (M : matrix) : Prop :=
  forall i j, (i < n)%nat -> (j < n)%nat -> entry M i j == entry M j i.


(** The minimization of pass [iter_nr] of the x-error loop: final from
    the second pass on. *)
Definition pass_minimize (verbose : bool) (iter_nr : nat) : minuit_call :=
  let final_fit := negb (Z.of_nat iter_nr =? 0)%Z in
  minimize final_fit (log_print_level_of final_fit verbose).

(** [two_points] without errors on the x axis. *)
Definition two_points_y_only : Dataset :=
  {| get_data_x := [1; 2];
     get_data_y := [1; 2];
     get_cov_mat_x := [[0; 0]; [0; 0]];
     get_cov_mat_y := [[1; 0]; [0; 4]];
     has_errors_x := false;
     has_errors_y := true;
     get_size := 2 |}.

Definition sample_fit_y_only : Fit :=
  match __init__ two_points_y_only linear_2par with
  | Ok f => f
  | Raise _ => blank two_points_y_only linear_2par
  end.

(** A straight line that starts level: [slope=0., y_intercept=1.]. *)
Definition level_2par : FitFunction :=
  {| func := fun x p => nth 0 p 0 * x + nth 1 p 0;
     ff_number_of_parameters := 2;
     ff_parameter_names := ["slope"; "y_intercept"];
     parameter_defaults := [0; 1] |}.

Definition sample_fit_level : Fit :=
  match __init__ two_points level_2par with
  | Ok f => f
  | Raise _ => blank two_points level_2par
  end.

(** [q] is a finite number of single precision, [m * 2^e] with a
    significand of 24 bits: what the [np.float32] arrays of targets and
    sigmas hold without rounding it. *)
Definition float32_exact (q : Q) : Prop :=
  exists m e : Z,
    (Z.abs m < 2 ^ 24)%Z /\ (-149 <= e <= 104)%Z /\ q == inject_Z m * 2 ^ e.

(** * Properties *)

(** ** Setters keep what they do not set *)

Lemma release_all_keeps (ids : list nat) (f f' : Fit) :
  release_all ids f = Ok f' ->
  _fixed_parameters f' = _fixed_parameters f
  /\ number_of_fixed_parameters f' = number_of_fixed_parameters f.
Proof.
  revert f. induction ids as [|i ids IH]; intros f H; simpl in H.
  - inversion H; subst. split; reflexivity.
  - unfold call_minuit in H. destruct (minimizer f) as [calls|]; simpl in H.
    + apply IH in H. simpl in H. exact H.
    + discriminate H.
Qed.

(** [release_parameters()] tells the minimizer to release every
    parameter and leaves the bookkeeping of the fit as it was. *)
Lemma release_parameters_no_args_keeps (f f' : Fit) :
  release_parameters [] f = Ok f' ->
  _fixed_parameters f' = _fixed_parameters f
  /\ number_of_fixed_parameters f' = number_of_fixed_parameters f.
Proof.
  unfold release_parameters. intros H.
  destruct (release_all (seq 0 (number_of_parameters f)) f) as [g|e] eqn:E;
    simpl in H; [|discriminate H].
  inversion H; subst. simpl. eapply release_all_keeps; eassumption.
Qed.

(** The test that guards the error list looks at the value list again,
    so the branch that rejects an error list is never taken. *)
Lemma set_positional_never_rejects_errors (values errors : list Q)
    (no_warning : bool) (f : Fit) :
  set_positional (Some values) (Some errors) no_warning f
  <> Raise (Exception "Cannot set parameter errors.").
Proof.
  unfold set_positional.
  destruct (length values =? number_of_parameters f)%nat eqn:E; simpl.
  - rewrite E. discriminate.
  - intros H. inversion H.
Qed.

(** With positional values and no errors, every error is a tenth of its
    value, or [0.1] for a value of zero, and the warning is logged unless
    it is suppressed. *)
Lemma set_positional_default_errors (values : list Q) (no_warning : bool)
    (f : Fit) :
  length values = number_of_parameters f ->
  exists f',
    set_positional (Some values) None no_warning f = Ok f'
    /\ current_parameter_values f' = values
    /\ current_parameter_errors f' = map default_error values
    /\ logger f' =
         logger f ++ (if no_warning then [] else [warn_starting_errors_not_given]).
Proof.
  intros Hlen. unfold set_positional.
  apply Nat.eqb_eq in Hlen. rewrite Hlen.
  eexists. split; [reflexivity|].
  destruct no_warning; simpl; rewrite ?app_nil_r; auto.
Qed.

(** ** Three calls on the sample fit *)

(** C5.  [set_parameters([1, 2], [0.1])] on a fit with two parameters
    does not raise: the list of one error is stored as the errors of the
    fit and handed to the minimizer, although its length is not the
    number of parameters. *)
Theorem set_parameters_accepts_short_error_list :
  exists f',
    set_parameters [Some [1; 2]; Some [0.1]] [] false sample_fit = Ok f'
    /\ current_parameter_values f' = [1; 2]
    /\ current_parameter_errors f' = [0.1]
    /\ length (current_parameter_errors f') <> number_of_parameters f'
    /\ minimizer f' =
         Some [set_parameter_values [1; 0]; set_parameter_errors None;
               set_parameter_values [1; 2]; set_parameter_errors (Some [0.1])].
Proof.
  eexists. split; [reflexivity|].
  repeat split; simpl; discriminate.
Qed.

(** C6.  [set_parameters(slope=0.)], a bare value of zero by keyword,
    sets the error of [slope] to [0 * 0.1 = 0], not to [0.1]; the
    positional form sets [0.1] for the same value. *)
Theorem set_parameters_keyword_zero_error :
  exists f' g',
    set_parameters [] [("slope", spec_float 0)] false sample_fit = Ok f'
    /\ current_parameter_values f' = [0; 0]
    /\ nth 0 (current_parameter_errors f') 1 == 0
    /\ ~ nth 0 (current_parameter_errors f') 1 == 0.1
    /\ logger f' = [warn_error_not_given "slope"]
    /\ set_parameters [Some [0; 0]] [] false sample_fit = Ok g'
    /\ nth 0 (current_parameter_errors g') 1 == 0.1.
Proof.
  eexists. eexists. split; [reflexivity|].
  split; [reflexivity|]. split; [reflexivity|].
  split; [intros H; discriminate H|].
  split; [reflexivity|]. split; [reflexivity|]. reflexivity.
Qed.

(** C7.  After [fix_parameters(0)], [release_parameters()] leaves
    parameter 0 flagged as fixed and the count of fixed parameters at 1;
    [release_parameters(0)] clears the flag and brings the count back
    to 0. *)
Theorem release_parameters_no_args_keeps_fixed_count :
  exists f1 f2 f3,
    fix_parameters [by_id 0] sample_fit = Ok f1
    /\ release_parameters [] f1 = Ok f2
    /\ _fixed_parameters sample_fit = [false; false]
    /\ number_of_fixed_parameters sample_fit = 0%Z
    /\ _fixed_parameters f2 = [true; false]
    /\ number_of_fixed_parameters f2 = 1%Z
    /\ ndf f2 = (ndf sample_fit + 1)%Z
    /\ release_parameters [by_id 0] f1 = Ok f3
    /\ _fixed_parameters f3 = [false; false]
    /\ number_of_fixed_parameters f3 = 0%Z.
Proof.
  eexists. eexists. eexists. split; [reflexivity|].
  split; [reflexivity|]. repeat split; reflexivity.
Qed.

(** ** Indexing *)

Lemma norm_index_lt (len : nat) (i : Z) (k : nat) :
  norm_index len i = Some k -> (k < len)%nat.
Proof.
  unfold norm_index. intros H.
  destruct ((0 <=? i) && (i <? Z.of_nat len))%Z eqn:E1.
  - apply andb_prop in E1 as [H1 H2]. inversion H; subst. lia.
  - destruct ((- Z.of_nat len <=? i) && (i <? 0))%Z eqn:E2; [|discriminate H].
    apply andb_prop in E2 as [H1 H2]. inversion H; subst. lia.
Qed.

Lemma norm_index_nonneg (len k : nat) :
  (k < len)%nat -> norm_index len (Z.of_nat k) = Some k.
Proof.
  intros H. unfold norm_index.
  replace ((0 <=? Z.of_nat k) && (Z.of_nat k <? Z.of_nat len))%Z with true.
  - f_equal; lia.
  - symmetry. apply andb_true_intro. split; lia.
Qed.


Lemma getitem_ok {A} (l : list A) (i : Z) (k : nat) :
  norm_index (length l) i = Some k ->
  exists x, getitem l i = Ok x /\ l !! k = Some x.
Proof.
  intros H. unfold getitem. rewrite H.
  destruct (l !! k) as [x|] eqn:E.
  - exists x. split; reflexivity.
  - apply lookup_ge_None in E. apply norm_index_lt in H. lia.
Qed.

Lemma setitem_ok {A} (l : list A) (i : Z) (k : nat) (x : A) :
  norm_index (length l) i = Some k -> setitem l i x = Ok (<[k:=x]> l).
Proof. intros H. unfold setitem. rewrite H. reflexivity. Qed.

Lemma getitem_nth (l : list Q) (k : nat) :
  (k < length l)%nat -> getitem l (Z.of_nat k) = Ok (nth k l 0).
Proof.
  intros H. destruct (getitem_ok l (Z.of_nat k) k) as [x [Hx Hk]].
  - apply norm_index_nonneg. exact H.
  - rewrite Hx. f_equal. symmetry. apply nth_lookup_Some with (d := 0) in Hk.
    exact Hk.
Qed.

Lemma index_bound `{EqDecision A} (l : list A) (x : A) (k : Z) :
  index l x = Ok k -> (0 <= k < Z.of_nat (length l))%Z.
Proof.
  revert k. induction l as [|y l IH]; intros k H; simpl in H.
  - discriminate H.
  - destruct (decide (y = x)).
    + inversion H; subst. simpl. lia.
    + destruct (index l x) as [k'|e]; simpl in H; [|discriminate H].
      inversion H; subst. specialize (IH k' eq_refl). simpl. lia.
Qed.

Lemma index_raises_value_error `{EqDecision A} (l : list A) (x : A) (e : exn) :
  index l x = Raise e -> e = ValueError.
Proof.
  revert e. induction l as [|y l IH]; intros e H; simpl in H.
  - inversion H. reflexivity.
  - destruct (decide (y = x)); [discriminate H|].
    destruct (index l x) as [k'|e']; simpl in H; [discriminate H|].
    inversion H; subst. apply IH. reflexivity.
Qed.

(** ** Resolving a reference in a well-formed fit *)

Lemma well_formed_inv (f : Fit) :
  well_formed f = true ->
  exists calls cvals cerrs,
    minimizer f = Some calls
    /\ constrained_parameters f = Some (cvals, cerrs)
    /\ length (parameter_names f) = number_of_parameters f
    /\ length (current_parameter_values f) = number_of_parameters f
    /\ length (current_parameter_errors f) = number_of_parameters f
    /\ length (_fixed_parameters f) = number_of_parameters f
    /\ length (_constrained_parameters f) = number_of_parameters f
    /\ length cvals = number_of_parameters f
    /\ length cerrs = number_of_parameters f.
Proof.
  unfold well_formed. intros H.
  destruct (minimizer f) as [calls|]; [|discriminate H].
  destruct (constrained_parameters f) as [[cvals cerrs]|]; [|discriminate H].
  exists calls, cvals, cerrs.
  repeat (apply andb_prop in H as [H ?]).
  repeat match goal with
         | E : (_ =? _)%nat = true |- _ => apply Nat.eqb_eq in E
         end.
  repeat split; assumption.
Qed.

Lemma resolves_slot (f : Fit) (l : lookup) :
  well_formed f = true ->
  resolves f l = true ->
  exists par_id k,
    _find_parameter f l = Ok (Some par_id)
    /\ norm_index (number_of_parameters f) par_id = Some k.
Proof.
  intros Hwf Hres.
  destruct (well_formed_inv f Hwf)
    as (calls & cvals & cerrs & _ & _ & Hn & Hv & _).
  unfold resolves in Hres. destruct l as [i|name]; simpl in *.
  - unfold getitem in Hres.
    destruct (norm_index (length (current_parameter_values f)) i) as [k|] eqn:E;
      [|discriminate Hres].
    exists i, k. split.
    + destruct (getitem_ok _ _ _ E) as [x [Hx _]]. rewrite Hx. reflexivity.
    + rewrite <- Hv. exact E.
  - destruct (index (parameter_names f) name) as [k|e] eqn:E.
    + exists k, (Z.to_nat k). split; [reflexivity|].
      apply index_bound in E. rewrite <- Hn.
      rewrite <- (Z2Nat.id k) at 1 by lia. apply norm_index_nonneg. lia.
    + destruct e; discriminate Hres.
Qed.

Lemma find_parameter_same (f f' : Fit) (l : lookup) :
  same_parameters f f' -> _find_parameter f' l = _find_parameter f l.
Proof.
  intros (_ & _ & Hn & Hv). unfold _find_parameter. rewrite Hn, Hv. reflexivity.
Qed.

Lemma resolves_same (f f' : Fit) (l : lookup) :
  same_parameters f f' -> resolves f' l = resolves f l.
Proof.
  intros H. unfold resolves. rewrite (find_parameter_same f f' l H). reflexivity.
Qed.

Lemma same_parameters_refl (f : Fit) : same_parameters f f.
Proof. repeat split. Qed.

Lemma same_parameters_trans (f g h : Fit) :
  same_parameters f g -> same_parameters g h -> same_parameters f h.
Proof.
  intros (A1 & A2 & A3 & A4) (B1 & B2 & B3 & B4).
  repeat split; congruence.
Qed.

Lemma ndf_same (f f' : Fit) :
  same_parameters f f' ->
  ndf f' = (ndf f
            + (number_of_fixed_parameters f' - number_of_fixed_parameters f)
            + (number_of_constrained_parameters f'
               - number_of_constrained_parameters f))%Z.
Proof.
  intros (Hd & Hn & _ & _). unfold ndf. rewrite Hd, Hn. lia.
Qed.

(** ** One argument of [fix_parameters], [release_parameters],
    [constrain_parameters] *)

Lemma fix_parameters_step (f : Fit) (l : lookup) (rest : list lookup) :
  well_formed f = true ->
  resolves f l = true ->
  exists par_id k name,
    _find_parameter f l = Ok (Some par_id)
    /\ norm_index (number_of_parameters f) par_id = Some k
    /\ parameter_names f !! k = Some name
    /\ fix_parameters (l :: rest) f
       = fix_parameters rest (fixed_state par_id k name f).
Proof.
  intros Hwf Hres.
  destruct (resolves_slot f l Hwf Hres) as (par_id & k & Hfind & Hk).
  destruct (well_formed_inv f Hwf)
    as (calls & cvals & cerrs & Hm & _ & Hn & _ & _ & Hfx & _).
  destruct (getitem_ok (parameter_names f) par_id k) as [name [Hname Hlk]].
  { rewrite Hn. exact Hk. }
  exists par_id, k, name. repeat split; try assumption.
  simpl. rewrite Hfind. simpl. unfold call_minuit. rewrite Hm. simpl.
  rewrite (setitem_ok _ par_id k) by (rewrite Hfx; exact Hk). simpl.
  rewrite Hname. simpl. unfold fixed_state. rewrite Hm. reflexivity.
Qed.

Lemma release_each_step (f : Fit) (l : lookup) (rest : list lookup) :
  well_formed f = true ->
  resolves f l = true ->
  exists par_id k name,
    _find_parameter f l = Ok (Some par_id)
    /\ norm_index (number_of_parameters f) par_id = Some k
    /\ parameter_names f !! k = Some name
    /\ release_each (l :: rest) f
       = release_each rest (released_state par_id k name f).
Proof.
  intros Hwf Hres.
  destruct (resolves_slot f l Hwf Hres) as (par_id & k & Hfind & Hk).
  destruct (well_formed_inv f Hwf)
    as (calls & cvals & cerrs & Hm & _ & Hn & _ & _ & Hfx & _).
  destruct (getitem_ok (parameter_names f) par_id k) as [name [Hname Hlk]].
  { rewrite Hn. exact Hk. }
  exists par_id, k, name. repeat split; try assumption.
  simpl. rewrite Hfind. simpl. unfold call_minuit. rewrite Hm. simpl.
  rewrite (setitem_ok _ par_id k) by (rewrite Hfx; exact Hk). simpl.
  rewrite Hname. simpl. unfold released_state. rewrite Hm. reflexivity.
Qed.

Lemma constrain_from_step (f : Fit) (i : nat) (l : lookup)
    (rest : list lookup) (parvals parerrs : list Q) :
  well_formed f = true ->
  resolves f l = true ->
  (i < length parvals)%nat -> (i < length parerrs)%nat ->
  exists par_id k name,
    _find_parameter f l = Ok (Some par_id)
    /\ norm_index (number_of_parameters f) par_id = Some k
    /\ parameter_names f !! k = Some name
    /\ constrain_from i (l :: rest) parvals parerrs f
       = constrain_from (S i) rest parvals parerrs
           (constrained_state par_id k name (nth i parvals 0) (nth i parerrs 0) f).
Proof.
  intros Hwf Hres Hv He.
  destruct (resolves_slot f l Hwf Hres) as (par_id & k & Hfind & Hk).
  destruct (well_formed_inv f Hwf)
    as (calls & cvals & cerrs & Hm & Hcp & Hn & _ & _ & _ & Hcf & Hcv & Hce).
  destruct (getitem_ok (parameter_names f) par_id k) as [name [Hname Hlk]].
  { rewrite Hn. exact Hk. }
  exists par_id, k, name. repeat split; try assumption.
  simpl. rewrite Hfind. simpl.
  rewrite (getitem_nth parvals i Hv). simpl. rewrite Hcp.
  rewrite (setitem_ok cvals par_id k) by (rewrite Hcv; exact Hk). simpl.
  rewrite (getitem_nth parerrs i He). simpl.
  rewrite (setitem_ok cerrs par_id k) by (rewrite Hce; exact Hk). simpl.
  rewrite (setitem_ok _ par_id k) by (rewrite Hcf; exact Hk). simpl.
  rewrite Hname. simpl. unfold constrained_state. rewrite Hcp. reflexivity.
Qed.

(** *** What one argument changes *)

Lemma fixed_state_facts (par_id : Z) (k : nat) (name : string) (f : Fit) :
  well_formed f = true ->
  well_formed (fixed_state par_id k name f) = true
  /\ same_parameters f (fixed_state par_id k name f)
  /\ number_of_fixed_parameters (fixed_state par_id k name f)
     = (number_of_fixed_parameters f + 1)%Z
  /\ number_of_constrained_parameters (fixed_state par_id k name f)
     = number_of_constrained_parameters f
  /\ _fixed_parameters (fixed_state par_id k name f)
     = <[k:=true]> (_fixed_parameters f).
Proof.
  intros Hwf. split; [|repeat split].
  destruct (well_formed_inv f Hwf)
    as (calls & cvals & cerrs & Hm & Hcp & H1 & H2 & H3 & H4 & H5 & H6 & H7).
  unfold well_formed, fixed_state. simpl. rewrite Hm, Hcp. simpl.
  rewrite length_insert, H1, H2, H3, H4, H5, H6, H7, Nat.eqb_refl.
  reflexivity.
Qed.

Lemma released_state_facts (par_id : Z) (k : nat) (name : string) (f : Fit) :
  well_formed f = true ->
  well_formed (released_state par_id k name f) = true
  /\ same_parameters f (released_state par_id k name f)
  /\ number_of_fixed_parameters (released_state par_id k name f)
     = (number_of_fixed_parameters f - 1)%Z
  /\ _fixed_parameters (released_state par_id k name f)
     = <[k:=false]> (_fixed_parameters f).
Proof.
  intros Hwf. split; [|repeat split].
  destruct (well_formed_inv f Hwf)
    as (calls & cvals & cerrs & Hm & Hcp & H1 & H2 & H3 & H4 & H5 & H6 & H7).
  unfold well_formed, released_state. simpl. rewrite Hm, Hcp. simpl.
  rewrite length_insert, H1, H2, H3, H4, H5, H6, H7, Nat.eqb_refl.
  reflexivity.
Qed.

Lemma constrained_state_facts (par_id : Z) (k : nat) (name : string)
    (val err : Q) (f : Fit) :
  well_formed f = true ->
  well_formed (constrained_state par_id k name val err f) = true
  /\ same_parameters f (constrained_state par_id k name val err f)
  /\ number_of_constrained_parameters (constrained_state par_id k name val err f)
     = (number_of_constrained_parameters f + 1)%Z
  /\ number_of_fixed_parameters (constrained_state par_id k name val err f)
     = number_of_fixed_parameters f
  /\ _constrained_parameters (constrained_state par_id k name val err f)
     = <[k:=true]> (_constrained_parameters f).
Proof.
  intros Hwf. split; [|repeat split].
  destruct (well_formed_inv f Hwf)
    as (calls & cvals & cerrs & Hm & Hcp & H1 & H2 & H3 & H4 & H5 & H6 & H7).
  unfold well_formed, constrained_state. simpl. rewrite Hm, Hcp. simpl.
  rewrite !length_insert, H1, H2, H3, H4, H5, H6, H7, Nat.eqb_refl.
  reflexivity.
Qed.

(** ** Every argument is processed, and counted *)

Lemma forallb_resolves_same (f f' : Fit) (ps : list lookup) :
  same_parameters f f' ->
  forallb (resolves f) ps = true -> forallb (resolves f') ps = true.
Proof.
  intros Hs H. rewrite forallb_forall in *. intros l Hl.
  rewrite (resolves_same f f' l Hs). apply H. exact Hl.
Qed.

Lemma fix_parameters_total (ps : list lookup) (f : Fit) :
  well_formed f = true ->
  forallb (resolves f) ps = true ->
  exists f',
    fix_parameters ps f = Ok f'
    /\ well_formed f' = true
    /\ same_parameters f f'
    /\ number_of_fixed_parameters f'
       = (number_of_fixed_parameters f + Z.of_nat (length ps))%Z
    /\ number_of_constrained_parameters f'
       = number_of_constrained_parameters f.
Proof.
  revert f. induction ps as [|l ps IH]; intros f Hwf Hall.
  - exists f. simpl. repeat split; try assumption; lia.
  - simpl in Hall. apply andb_prop in Hall as [Hl Hps].
    destruct (fix_parameters_step f l ps Hwf Hl)
      as (par_id & k & name & _ & _ & _ & Hstep).
    destruct (fixed_state_facts par_id k name f Hwf)
      as (Hwf' & Hsame & Hfix & Hcon & _).
    destruct (IH (fixed_state par_id k name f) Hwf'
                 (forallb_resolves_same _ _ _ Hsame Hps))
      as (f' & Hrun & Hwf'' & Hsame' & Hfix' & Hcon').
    exists f'. rewrite Hstep. split; [exact Hrun|]. split; [exact Hwf''|].
    split; [exact (same_parameters_trans _ _ _ Hsame Hsame')|].
    split; [rewrite Hfix', Hfix; change (length (l :: ps)) with (S (length ps)); lia
          |congruence].
Qed.

Lemma constrain_from_total (ps : list lookup) (i : nat)
    (parvals parerrs : list Q) (f : Fit) :
  well_formed f = true ->
  forallb (resolves f) ps = true ->
  (i + length ps <= length parvals)%nat ->
  (i + length ps <= length parerrs)%nat ->
  exists f',
    constrain_from i ps parvals parerrs f = Ok f'
    /\ well_formed f' = true
    /\ same_parameters f f'
    /\ number_of_constrained_parameters f'
       = (number_of_constrained_parameters f + Z.of_nat (length ps))%Z
    /\ number_of_fixed_parameters f' = number_of_fixed_parameters f.
Proof.
  revert i f. induction ps as [|l ps IH]; intros i f Hwf Hall Hv He.
  - exists f. simpl. repeat split; try assumption; lia.
  - simpl in Hall. apply andb_prop in Hall as [Hl Hps]. simpl in Hv, He.
    destruct (constrain_from_step f i l ps parvals parerrs Hwf Hl)
      as (par_id & k & name & _ & _ & _ & Hstep); [lia|lia|].
    set (g := constrained_state par_id k name (nth i parvals 0)
                                (nth i parerrs 0) f) in *.
    destruct (constrained_state_facts par_id k name (nth i parvals 0)
                (nth i parerrs 0) f Hwf) as (Hwf' & Hsame & Hcon & Hfix & _).
    fold g in Hwf', Hsame, Hcon, Hfix.
    destruct (IH (S i) g Hwf' (forallb_resolves_same _ _ _ Hsame Hps))
      as (f' & Hrun & Hwf'' & Hsame' & Hcon' & Hfix'); [lia|lia|].
    exists f'. rewrite Hstep. split; [exact Hrun|]. split; [exact Hwf''|].
    split; [exact (same_parameters_trans _ _ _ Hsame Hsame')|].
    split; [rewrite Hcon', Hcon; change (length (l :: ps)) with (S (length ps)); lia
          |congruence].
Qed.

(** *** Flags that are already set *)

Lemma count_flags_insert_true (flags : list bool) (k : nat) :
  (count_flags flags <= count_flags (<[k:=true]> flags) <= count_flags flags + 1)%Z.
Proof.
  unfold count_flags. revert k.
  induction flags as [|b flags IH]; intros k; simpl.
  - lia.
  - destruct k as [|k]; simpl.
    + rewrite !filter_cons. destruct b; simpl; repeat case_decide;
        simpl; try congruence; lia.
    + specialize (IH k). rewrite !filter_cons.
      destruct (decide (b = true)); simpl; lia.
Qed.

Lemma count_flags_set_twice (flags : list bool) (k : nat) :
  count_flags (<[k:=true]> (<[k:=true]> flags))
  = count_flags (<[k:=true]> flags).
Proof. rewrite list_insert_insert_eq. reflexivity. Qed.

(** Fixing the same parameter again: one more in the count, the same
    parameters flagged. *)
Lemma fix_parameters_twice (f : Fit) (l : lookup) :
  well_formed f = true ->
  resolves f l = true ->
  exists f1 f2,
    fix_parameters [l] f = Ok f1
    /\ fix_parameters [l] f1 = Ok f2
    /\ number_of_fixed_parameters f2 = (number_of_fixed_parameters f + 2)%Z
    /\ _fixed_parameters f2 = _fixed_parameters f1
    /\ (count_flags (_fixed_parameters f2)
        <= count_flags (_fixed_parameters f) + 1)%Z
    /\ ((count_flags (_fixed_parameters f) <= number_of_fixed_parameters f)%Z ->
        (count_flags (_fixed_parameters f2) < number_of_fixed_parameters f2)%Z)
    /\ ndf f2 = (ndf f + 2)%Z.
Proof.
  intros Hwf Hl.
  destruct (fix_parameters_step f l [] Hwf Hl)
    as (par_id & k & name & Hfind & Hk & Hname & Hstep).
  destruct (fixed_state_facts par_id k name f Hwf)
    as (Hwf1 & Hsame1 & Hfix1 & Hcon1 & Hflags1).
  set (f1 := fixed_state par_id k name f) in *.
  assert (Hl1 : resolves f1 l = true)
    by (rewrite (resolves_same f f1 l Hsame1); exact Hl).
  destruct (fix_parameters_step f1 l [] Hwf1 Hl1)
    as (par_id' & k' & name' & Hfind' & Hk' & Hname' & Hstep').
  rewrite (find_parameter_same f f1 l Hsame1), Hfind in Hfind'.
  inversion Hfind'; subst par_id'.
  destruct Hsame1 as (Hd & Hn & Hnames & Hvals).
  rewrite Hn, Hk in Hk'. inversion Hk'; subst k'.
  destruct (fixed_state_facts par_id k name' f1 Hwf1)
    as (Hwf2 & Hsame2 & Hfix2 & Hcon2 & Hflags2).
  exists f1, (fixed_state par_id k name' f1).
  split; [exact Hstep|]. split; [exact Hstep'|].
  split; [rewrite Hfix2, Hfix1; lia|].
  split; [rewrite Hflags2, Hflags1; apply list_insert_insert_eq|].
  assert (Hle : (count_flags (_fixed_parameters (fixed_state par_id k name' f1))
                 <= count_flags (_fixed_parameters f) + 1)%Z).
  { rewrite Hflags2, Hflags1, list_insert_insert_eq.
    apply count_flags_insert_true. }
  split; [exact Hle|]. split; [intros Hinv; rewrite Hfix2, Hfix1; lia|].
  rewrite (ndf_same f1 _ Hsame2), Hfix2, Hcon2.
  rewrite (ndf_same f f1 (conj Hd (conj Hn (conj Hnames Hvals)))).
  rewrite Hfix1, Hcon1. lia.
Qed.

Lemma constrain_parameters_twice (f : Fit) (l : lookup) (c s c' s' : Q) :
  well_formed f = true ->
  resolves f l = true ->
  exists f1 f2,
    constrain_parameters [l] [c] [s] f = Ok f1
    /\ constrain_parameters [l] [c'] [s'] f1 = Ok f2
    /\ number_of_constrained_parameters f2
       = (number_of_constrained_parameters f + 2)%Z
    /\ _constrained_parameters f2 = _constrained_parameters f1
    /\ (count_flags (_constrained_parameters f2)
        <= count_flags (_constrained_parameters f) + 1)%Z
    /\ ((count_flags (_constrained_parameters f)
         <= number_of_constrained_parameters f)%Z ->
        (count_flags (_constrained_parameters f2)
         < number_of_constrained_parameters f2)%Z)
    /\ ndf f2 = (ndf f + 2)%Z.
Proof.
  intros Hwf Hl. unfold constrain_parameters.
  destruct (constrain_from_step f 0 l [] [c] [s] Hwf Hl)
    as (par_id & k & name & Hfind & Hk & Hname & Hstep); [simpl; lia..|].
  simpl nth in Hstep.
  destruct (constrained_state_facts par_id k name c s f Hwf)
    as (Hwf1 & Hsame1 & Hcon1 & Hfix1 & Hflags1).
  set (f1 := constrained_state par_id k name c s f) in *.
  assert (Hl1 : resolves f1 l = true)
    by (rewrite (resolves_same f f1 l Hsame1); exact Hl).
  destruct (constrain_from_step f1 0 l [] [c'] [s'] Hwf1 Hl1)
    as (par_id' & k' & name' & Hfind' & Hk' & Hname' & Hstep'); [simpl; lia..|].
  simpl nth in Hstep'.
  rewrite (find_parameter_same f f1 l Hsame1), Hfind in Hfind'.
  inversion Hfind'; subst par_id'.
  destruct Hsame1 as (Hd & Hn & Hnames & Hvals).
  rewrite Hn, Hk in Hk'. inversion Hk'; subst k'.
  destruct (constrained_state_facts par_id k name' c' s' f1 Hwf1)
    as (Hwf2 & Hsame2 & Hcon2 & Hfix2 & Hflags2).
  exists f1, (constrained_state par_id k name' c' s' f1).
  split; [exact Hstep|]. split; [exact Hstep'|].
  split; [rewrite Hcon2, Hcon1; lia|].
  split; [rewrite Hflags2, Hflags1; apply list_insert_insert_eq|].
  assert (Hle : (count_flags (_constrained_parameters
                                (constrained_state par_id k name' c' s' f1))
                 <= count_flags (_constrained_parameters f) + 1)%Z).
  { rewrite Hflags2, Hflags1, list_insert_insert_eq.
    apply count_flags_insert_true. }
  split; [exact Hle|]. split; [intros Hinv; rewrite Hcon2, Hcon1; lia|].
  rewrite (ndf_same f1 _ Hsame2), Hfix2, Hcon2.
  rewrite (ndf_same f f1 (conj Hd (conj Hn (conj Hnames Hvals)))).
  rewrite Hfix1, Hcon1. lia.
Qed.

(** C9.  In a fit as [__init__] leaves it, for references that name
    parameters: [fix_parameters] adds the number of its arguments to
    [number_of_fixed_parameters], [constrain_parameters] adds the number of
    its parameters to [number_of_constrained_parameters], and the degrees
    of freedom rise by the same number.  A second call on the same
    parameter counts once more although it flags no further parameter, so
    the count exceeds the number of flagged parameters whenever it was not
    below that number before. *)
Theorem counters_count_every_argument (f : Fit) (ps : list lookup)
    (parvals parerrs : list Q) (l : lookup) (c s c' s' : Q) :
  well_formed f = true ->
  forallb (resolves f) ps = true ->
  length parvals = length ps ->
  length parerrs = length ps ->
  resolves f l = true ->
  (exists f1,
     fix_parameters ps f = Ok f1
     /\ number_of_fixed_parameters f1
        = (number_of_fixed_parameters f + Z.of_nat (length ps))%Z
     /\ ndf f1 = (ndf f + Z.of_nat (length ps))%Z)
  /\ (exists f1,
        constrain_parameters ps parvals parerrs f = Ok f1
        /\ number_of_constrained_parameters f1
           = (number_of_constrained_parameters f + Z.of_nat (length ps))%Z
        /\ ndf f1 = (ndf f + Z.of_nat (length ps))%Z)
  /\ (exists f1 f2,
        fix_parameters [l] f = Ok f1
        /\ fix_parameters [l] f1 = Ok f2
        /\ number_of_fixed_parameters f2 = (number_of_fixed_parameters f + 2)%Z
        /\ _fixed_parameters f2 = _fixed_parameters f1
        /\ (count_flags (_fixed_parameters f2)
            <= count_flags (_fixed_parameters f) + 1)%Z
        /\ ((count_flags (_fixed_parameters f)
             <= number_of_fixed_parameters f)%Z ->
            (count_flags (_fixed_parameters f2)
             < number_of_fixed_parameters f2)%Z)
        /\ ndf f2 = (ndf f + 2)%Z)
  /\ (exists f1 f2,
        constrain_parameters [l] [c] [s] f = Ok f1
        /\ constrain_parameters [l] [c'] [s'] f1 = Ok f2
        /\ number_of_constrained_parameters f2
           = (number_of_constrained_parameters f + 2)%Z
        /\ _constrained_parameters f2 = _constrained_parameters f1
        /\ (count_flags (_constrained_parameters f2)
            <= count_flags (_constrained_parameters f) + 1)%Z
        /\ ((count_flags (_constrained_parameters f)
             <= number_of_constrained_parameters f)%Z ->
            (count_flags (_constrained_parameters f2)
             < number_of_constrained_parameters f2)%Z)
        /\ ndf f2 = (ndf f + 2)%Z).
Proof.
  intros Hwf Hps Hv He Hl. repeat split.
  - destruct (fix_parameters_total ps f Hwf Hps)
      as (f1 & Hrun & _ & Hsame & Hfix & Hcon).
    exists f1. split; [exact Hrun|]. split; [exact Hfix|].
    rewrite (ndf_same f f1 Hsame), Hfix, Hcon. lia.
  - destruct (constrain_from_total ps 0 parvals parerrs f Hwf Hps)
      as (f1 & Hrun & _ & Hsame & Hcon & Hfix); [simpl; lia..|].
    exists f1. split; [exact Hrun|]. split; [exact Hcon|].
    rewrite (ndf_same f f1 Hsame), Hfix, Hcon. lia.
  - apply fix_parameters_twice; assumption.
  - apply constrain_parameters_twice; assumption.
Qed.

Lemma counters_count_every_argument_witness :
  (exists f1,
     fix_parameters [by_id 0; by_name "slope"] sample_fit = Ok f1
     /\ number_of_fixed_parameters f1
        = (number_of_fixed_parameters sample_fit + 2)%Z
     /\ ndf f1 = (ndf sample_fit + 2)%Z)
  /\ (exists f1,
        constrain_parameters [by_id 0; by_name "slope"] [1; 2] [0.1; 0.2]
                             sample_fit = Ok f1
        /\ number_of_constrained_parameters f1
           = (number_of_constrained_parameters sample_fit + 2)%Z
        /\ ndf f1 = (ndf sample_fit + 2)%Z)
  /\ (exists f1 f2,
        fix_parameters [by_id 1] sample_fit = Ok f1
        /\ fix_parameters [by_id 1] f1 = Ok f2
        /\ number_of_fixed_parameters f2
           = (number_of_fixed_parameters sample_fit + 2)%Z
        /\ _fixed_parameters f2 = _fixed_parameters f1
        /\ (count_flags (_fixed_parameters f2)
            <= count_flags (_fixed_parameters sample_fit) + 1)%Z
        /\ ((count_flags (_fixed_parameters sample_fit)
             <= number_of_fixed_parameters sample_fit)%Z ->
            (count_flags (_fixed_parameters f2)
             < number_of_fixed_parameters f2)%Z)
        /\ ndf f2 = (ndf sample_fit + 2)%Z)
  /\ (exists f1 f2,
        constrain_parameters [by_id 1] [1] [0.5] sample_fit = Ok f1
        /\ constrain_parameters [by_id 1] [2] [0.25] f1 = Ok f2
        /\ number_of_constrained_parameters f2
           = (number_of_constrained_parameters sample_fit + 2)%Z
        /\ _constrained_parameters f2 = _constrained_parameters f1
        /\ (count_flags (_constrained_parameters f2)
            <= count_flags (_constrained_parameters sample_fit) + 1)%Z
        /\ ((count_flags (_constrained_parameters sample_fit)
             <= number_of_constrained_parameters sample_fit)%Z ->
            (count_flags (_constrained_parameters f2)
             < number_of_constrained_parameters f2)%Z)
        /\ ndf f2 = (ndf sample_fit + 2)%Z).
Proof.
  apply (counters_count_every_argument sample_fit
           [by_id 0; by_name "slope"] [1; 2] [0.1; 0.2] (by_id 1)
           1 0.5 2 0.25); reflexivity.
Defined.

(** ** Negative IDs *)





(** ** The penalty loop of [chi2] *)

(** Entries with sigma zero are passed over. *)
Lemma chi2_constraints_all_zero (i : nat) (cerrs p cvals : list Q) (acc : Q) :
  forallb (fun s => negb (truthy s)) cerrs = true ->
  chi2_constraints i cerrs p cvals acc = Ok acc.
Proof.
  revert i. induction cerrs as [|s cerrs IH]; intros i H; simpl.
  - reflexivity.
  - simpl in H. apply andb_prop in H as [Hs H].
    apply negb_true_iff in Hs. rewrite Hs. apply IH. exact H.
Qed.

(** The loop reads the targets of the active entries only. *)
Lemma chi2_constraints_frame (cerrs : list Q) (i : nat) (p cvals cvals' : list Q)
    (acc : Q) :
  (forall j, (j < length cerrs)%nat -> truthy (nth j cerrs 0) = true ->
     getitem cvals (Z.of_nat (i + j)) = getitem cvals' (Z.of_nat (i + j))) ->
  chi2_constraints i cerrs p cvals acc = chi2_constraints i cerrs p cvals' acc.
Proof.
  revert i acc. induction cerrs as [|s cerrs IH]; intros i acc H; simpl.
  - reflexivity.
  - destruct (truthy s) eqn:Hs.
    + pose proof (H 0%nat ltac:(simpl; lia) Hs) as H0.
      rewrite Nat.add_0_r in H0. rewrite H0.
      destruct (getitem p (Z.of_nat i)) as [v|e]; simpl; [|reflexivity].
      destruct (getitem cvals' (Z.of_nat i)) as [c|e]; simpl; [|reflexivity].
      apply IH. intros j Hj Hact.
      replace (S i + j)%nat with (i + S j)%nat by lia.
      apply (H (S j)); [simpl; lia|exact Hact].
    + apply IH. intros j Hj Hact.
      replace (S i + j)%nat with (i + S j)%nat by lia.
      apply (H (S j)); [simpl; lia|exact Hact].
Qed.

(** A sigma of zero written over a sigma of zero changes no pass. *)
Lemma chi2_constraints_insert_zero (cerrs : list Q) (k i : nat) (s : Q)
    (p cvals : list Q) (acc : Q) :
  truthy s = false ->
  truthy (nth k cerrs 0) = false ->
  chi2_constraints i (<[k:=s]> cerrs) p cvals acc
  = chi2_constraints i cerrs p cvals acc.
Proof.
  revert k i acc. induction cerrs as [|e cerrs IH]; intros k i acc Hs Hk.
  - reflexivity.
  - destruct k as [|k]; simpl in *.
    + rewrite Hs, Hk. reflexivity.
    + destruct (truthy e).
      * destruct (getitem p (Z.of_nat i)) as [v|x]; simpl; [|reflexivity].
        destruct (getitem cvals (Z.of_nat i)) as [c|x]; simpl; [|reflexivity].
        apply IH; assumption.
      * apply IH; assumption.
Qed.

Lemma getitem_insert_ne {A} (l : list A) (k j : nat) (x : A) :
  k <> j -> getitem (<[k:=x]> l) (Z.of_nat j) = getitem l (Z.of_nat j).
Proof.
  intros Hne. unfold getitem. rewrite length_insert.
  destruct (norm_index (length l) (Z.of_nat j)) as [n|] eqn:E; [|reflexivity].
  assert (n = j).
  { destruct (Nat.lt_ge_cases j (length l)) as [Hlt|Hge].
    - rewrite (norm_index_nonneg _ _ Hlt) in E. congruence.
    - unfold norm_index in E.
      replace ((0 <=? Z.of_nat j) && (Z.of_nat j <? Z.of_nat (length l)))%Z
        with false in E by (symmetry; apply andb_false_intro2; lia).
      replace ((- Z.of_nat (length l) <=? Z.of_nat j) && (Z.of_nat j <? 0))%Z
        with false in E by (symmetry; apply andb_false_intro2; lia).
      discriminate E. }
  subst n. rewrite list_lookup_insert_ne by exact Hne. reflexivity.
Qed.

Lemma truthy_zero (s : Q) : s == 0 -> truthy s = false.
Proof.
  intros H. unfold truthy. apply negb_false_iff. apply Qeq_bool_iff. exact H.
Qed.

(** C4.  In a fit as [__init__] leaves it, constraining a parameter
    with sigma zero succeeds, and for every vector of parameter values the
    objective [call_external_fcn] is afterwards what it was before when
    the sigma of that parameter was zero already, and is the value of
    [chi2] without constraints when no constraint of the fit was active. *)
Theorem zero_sigma_constraint_changes_nothing
    (mat_inv : matrix -> result matrix) (f : Fit) (l : lookup) (c s : Q) :
  well_formed f = true ->
  resolves f l = true ->
  s == 0 ->
  exists f' par_id k,
    constrain_parameters [l] [c] [s] f = Ok f'
    /\ _find_parameter f l = Ok (Some par_id)
    /\ norm_index (number_of_parameters f) par_id = Some k
    /\ forall p : list Q,
         (sigma_is_zero f k = true ->
          call_external_fcn mat_inv f' p = call_external_fcn mat_inv f p)
         /\ (no_active_constraint (constrained_parameters f) = true ->
             call_external_fcn mat_inv f' p
             = chi2 mat_inv (func (fit_function f))
                    (get_data_x (dataset f)) (get_data_y (dataset f))
                    (current_cov_mat f) p None).
Proof.
  intros Hwf Hres Hs.
  destruct (constrain_from_step f 0 l [] [c] [s] Hwf Hres)
    as (par_id & k & name & Hfind & Hk & _ & Hstep); [simpl; lia..|].
  destruct (well_formed_inv f Hwf)
    as (calls & cvals & cerrs & _ & Hcp & _ & _ & _ & _ & _ & Hcv & Hce).
  exists (constrained_state par_id k name c s f), par_id, k.
  split; [exact Hstep|]. split; [exact Hfind|]. split; [exact Hk|].
  apply truthy_zero in Hs.
  assert (Hkn : (k < length cerrs)%nat)
    by (rewrite Hce; eapply norm_index_lt; exact Hk).
  assert (Hzero : truthy (nth k cerrs 0) = false ->
          forall acc p,
            chi2_constraints 0 (<[k:=s]> cerrs) p (<[k:=c]> cvals) acc
            = chi2_constraints 0 cerrs p cvals acc).
  { intros Hz acc p.
    rewrite chi2_constraints_insert_zero by assumption.
    apply chi2_constraints_frame. intros j Hj Hact. simpl.
    apply getitem_insert_ne. intros ->. congruence. }
  intros p. unfold call_external_fcn, chi2, constrained_state.
  simpl. rewrite Hcp. simpl.
  destruct (np_sub _ _) as [residual|e]; simpl; [|split; reflexivity].
  destruct (mat_inv _) as [cov_inv|e]; simpl; [|split; reflexivity].
  destruct (quadratic_form _ _) as [chi2val|e]; simpl; [|split; reflexivity].
  split.
  - unfold sigma_is_zero. rewrite Hcp. intros Hz.
    apply negb_true_iff in Hz. apply Hzero. exact Hz.
  - intros Hall. simpl in Hall.
    assert (Hz : truthy (nth k cerrs 0) = false).
    { rewrite forallb_forall in Hall. apply negb_true_iff. apply Hall.
      apply nth_In. exact Hkn. }
    rewrite Hzero by exact Hz.
    apply chi2_constraints_all_zero. exact Hall.
Qed.

Lemma zero_sigma_constraint_changes_nothing_witness :
  exists f' par_id k,
    constrain_parameters [by_name "y_intercept"] [3] [0] sample_fit = Ok f'
    /\ _find_parameter sample_fit (by_name "y_intercept") = Ok (Some par_id)
    /\ norm_index (number_of_parameters sample_fit) par_id = Some k
    /\ forall p : list Q,
         (sigma_is_zero sample_fit k = true ->
          call_external_fcn mat_inv_gauss f' p
          = call_external_fcn mat_inv_gauss sample_fit p)
         /\ (no_active_constraint (constrained_parameters sample_fit) = true ->
             call_external_fcn mat_inv_gauss f' p
             = chi2 mat_inv_gauss (func (fit_function sample_fit))
                    (get_data_x (dataset sample_fit))
                    (get_data_y (dataset sample_fit))
                    (current_cov_mat sample_fit) p None).
Proof.
  apply (zero_sigma_constraint_changes_nothing mat_inv_gauss sample_fit
           (by_name "y_intercept") 3 0); reflexivity.
Defined.

(** ** Sums of rationals *)

Lemma Qsum_ext {A} (f g : A -> Q) (l : list A) :
  (forall a, In a l -> f a == g a) -> Qsum (map f l) == Qsum (map g l).
Proof.
  induction l as [|a l IH]; intros H; simpl.
  - reflexivity.
  - rewrite (H a) by (left; reflexivity).
    rewrite IH by (intros b Hb; apply H; right; exact Hb). reflexivity.
Qed.

Lemma Qsum_zero {A} (f : A -> Q) (l : list A) :
  (forall a, In a l -> f a == 0) -> Qsum (map f l) == 0.
Proof.
  induction l as [|a l IH]; intros H; simpl.
  - reflexivity.
  - rewrite (H a) by (left; reflexivity).
    rewrite IH by (intros b Hb; apply H; right; exact Hb). ring.
Qed.

Lemma Qsum_scale {A} (c : Q) (f : A -> Q) (l : list A) :
  Qsum (map (fun a => c * f a) l) == c * Qsum (map f l).
Proof.
  induction l as [|a l IH]; simpl.
  - ring.
  - rewrite IH. ring.
Qed.

Lemma Qsum_seq_S (f : nat -> Q) (n : nat) :
  Qsum (map f (seq 0 (S n))) == f 0%nat + Qsum (map (fun i => f (S i)) (seq 0 n)).
Proof.
  simpl. rewrite <- seq_shift, map_map. reflexivity.
Qed.

(** ** The quadratic form *)

Lemma vec_dot_nil_r (a : vector) : vec_dot a [] = 0.
Proof. destruct a; reflexivity. Qed.

Lemma vec_dot_cons (x y : Q) (a b : vector) :
  vec_dot (x :: a) (y :: b) = x * y + vec_dot a b.
Proof. reflexivity. Qed.

Lemma vec_dot_scale (c : Q) (a w : vector) :
  vec_dot (vec_scale c a) w == c * vec_dot a w.
Proof.
  revert w. induction a as [|x a IH]; intros w.
  - simpl. unfold vec_dot. simpl. ring.
  - destruct w as [|y w].
    + simpl. rewrite !vec_dot_nil_r. ring.
    + simpl. rewrite !vec_dot_cons, IH. ring.
Qed.

Lemma vec_dot_add (a b w : vector) :
  length a = length w -> length b = length w ->
  vec_dot (vec_add a b) w == vec_dot a w + vec_dot b w.
Proof.
  revert b w. induction a as [|x a IH]; intros b w Ha Hb.
  - destruct w; [|discriminate Ha]. destruct b; [|discriminate Hb].
    unfold vec_dot. simpl. ring.
  - destruct w as [|z w]; [discriminate Ha|].
    destruct b as [|y b]; [discriminate Hb|].
    simpl in *. rewrite !vec_dot_cons.
    rewrite IH by lia. ring.
Qed.

Lemma vec_dot_repeat_zero (n : nat) (w : vector) :
  vec_dot (repeat 0 n) w == 0.
Proof.
  revert w. induction n as [|n IH]; intros w.
  - reflexivity.
  - destruct w as [|y w].
    + rewrite vec_dot_nil_r. reflexivity.
    + simpl. rewrite vec_dot_cons, IH. ring.
Qed.

Lemma vec_dot_nth (a b : vector) (n : nat) :
  length a = n -> length b = n ->
  vec_dot a b == Qsum (map (fun j => nth j a 0 * nth j b 0) (seq 0 n)).
Proof.
  revert b n. induction a as [|x a IH]; intros b n Ha Hb.
  - subst n. reflexivity.
  - destruct n as [|n]; [discriminate Ha|].
    destruct b as [|y b]; [discriminate Hb|].
    rewrite Qsum_seq_S, vec_dot_cons. simpl in *.
    rewrite (IH b n) by lia. reflexivity.
Qed.

Lemma vec_mat_length (n : nat) (r : vector) (M : matrix) :
  Forall (fun row => length row = n) M -> length (vec_mat n r M) = n.
Proof.
  revert M. induction r as [|ri r IH]; intros M HM.
  - simpl. apply repeat_length.
  - destruct M as [|row M].
    + simpl. apply repeat_length.
    + inversion HM; subst. simpl. unfold vec_add, vec_scale.
      rewrite length_zip_with, length_map, IH by assumption. lia.
Qed.

(** [(r M) . w = sum_i sum_j r_i M_ij w_j]. *)
Lemma vec_mat_dot (n : nat) (r : vector) (M : matrix) (w : vector) :
  length M = length r ->
  Forall (fun row => length row = n) M ->
  length w = n ->
  vec_dot (vec_mat n r M) w
  == Qsum (map (fun i =>
       Qsum (map (fun j => nth i r 0 * entry M i j * nth j w 0) (seq 0 n)))
       (seq 0 (length r))).
Proof.
  revert M. induction r as [|ri r IH]; intros M HM Hrows Hw.
  - simpl. apply vec_dot_repeat_zero.
  - destruct M as [|row M]; [discriminate HM|].
    inversion Hrows as [|? ? Hrow Hrows']; subst.
    change (length (ri :: r)) with (S (length r)).
    rewrite Qsum_seq_S. simpl vec_mat.
    rewrite vec_dot_add.
    + rewrite vec_dot_scale.
      rewrite (vec_dot_nth row w (length w)) by auto.
      rewrite (IH M) by (simpl in HM; auto; lia).
      rewrite <- Qsum_scale.
      apply Qplus_comp.
      * apply Qsum_ext. intros j _. unfold entry. simpl. ring.
      * apply Qsum_ext. intros i _. apply Qsum_ext. intros j _.
        unfold entry. simpl. reflexivity.
    + unfold vec_scale. rewrite length_map. congruence.
    + rewrite vec_mat_length by assumption. congruence.
Qed.

Lemma is_square_inv (n : nat) (M : matrix) :
  is_square n M = true ->
  length M = n /\ Forall (fun row => length row = n) M.
Proof.
  unfold is_square. intros H. apply andb_prop in H as [H1 H2].
  apply Nat.eqb_eq in H1. split; [exact H1|].
  apply Forall_forall. intros row Hrow.
  rewrite forallb_forall in H2. apply Nat.eqb_eq. apply H2.
  apply list_elem_of_In. exact Hrow.
Qed.

Lemma quadratic_form_sum (r : vector) (M : matrix) :
  is_square (length r) M = true ->
  exists v,
    quadratic_form r M = Ok v
    /\ v == quadratic_form_spec (length r) (fun i => nth i r 0) M.
Proof.
  intros H. unfold quadratic_form. rewrite H.
  eexists. split; [reflexivity|].
  apply is_square_inv in H as [HM Hrows].
  apply vec_mat_dot; auto.
Qed.

(** ** The residuals *)

Lemma np_sub_same_length (a b : vector) :
  length a = length b -> np_sub a b = Ok (zip_with Qminus a b).
Proof. intros H. unfold np_sub. rewrite H, Nat.eqb_refl. reflexivity. Qed.

Lemma nth_residual (fn : Q -> list Q -> Q) (x y : vector) (p : list Q) (i : nat) :
  length x = length y -> (i < length y)%nat ->
  nth i (zip_with Qminus y (map (fun xi => fn xi p) x)) 0
  = residual_spec fn x y p i.
Proof.
  unfold residual_spec. revert y i.
  induction x as [|a x IH]; intros y i Hlen Hi.
  - destruct y; simpl in *; [lia|discriminate Hlen].
  - destruct y as [|b y]; [discriminate Hlen|].
    destruct i as [|i]; simpl.
    + reflexivity.
    + apply IH; simpl in *; lia.
Qed.

(** ** The penalty *)

Lemma chi2_constraints_sum (cerrs : list Q) (i : nat) (p cvals : list Q)
    (acc : Q) :
  (i + length cerrs <= length p)%nat ->
  (i + length cerrs <= length cvals)%nat ->
  exists v,
    chi2_constraints i cerrs p cvals acc = Ok v
    /\ v == acc + Qsum (map (fun j =>
              if Qeq_bool (nth j cerrs 0) 0 then 0
              else ((nth (i + j) p 0 - nth (i + j) cvals 0) / nth j cerrs 0) ^ 2)
            (seq 0 (length cerrs))).
Proof.
  revert i acc. induction cerrs as [|s cerrs IH]; intros i acc Hp Hc.
  - simpl. exists acc. split; [reflexivity|ring].
  - change (length (s :: cerrs)) with (S (length cerrs)) in *.
    simpl chi2_constraints. unfold truthy.
    destruct (Qeq_bool s 0) eqn:Hs; simpl negb; cbv iota.
    + destruct (IH (S i) acc) as (v & Hv & Hsum); [lia|lia|].
      exists v. split; [exact Hv|]. rewrite Hsum, Qsum_seq_S.
      simpl nth. rewrite Hs.
      rewrite Qplus_0_l.
      apply Qplus_comp; [reflexivity|].
      apply Qsum_ext. intros j _.
      rewrite ?Nat.add_succ_r, ?Nat.add_succ_l. reflexivity.
    + rewrite (getitem_nth p i) by lia. cbn [Py.bind].
      rewrite (getitem_nth cvals i) by lia. cbn [Py.bind].
      destruct (IH (S i) (acc + (nth i p 0 - nth i cvals 0) / s
                                * ((nth i p 0 - nth i cvals 0) / s)))
        as (v & Hv & Hsum); [lia|lia|].
      exists v. split; [exact Hv|]. rewrite Hsum, Qsum_seq_S.
      simpl nth. rewrite Hs. rewrite Nat.add_0_r.
      rewrite <- Qplus_assoc. apply Qplus_comp; [reflexivity|].
      apply Qplus_comp; [simpl; ring|].
      apply Qsum_ext. intros j _.
      rewrite ?Nat.add_succ_r, ?Nat.add_succ_l. reflexivity.
Qed.

Lemma penalty_spec_inactive (p : list Q) (cp : option (list Q * list Q)) :
  no_active_constraint cp = true -> penalty_spec p cp == 0.
Proof.
  destruct cp as [[cvals cerrs]|]; simpl; intros H; [|reflexivity].
  apply Qsum_zero. intros i Hi. unfold penalty_term.
  apply in_seq in Hi. rewrite forallb_forall in H.
  assert (Hs : negb (truthy (nth i cerrs 0)) = true)
    by (apply H, nth_In; lia).
  unfold truthy in Hs. rewrite negb_involutive in Hs. rewrite Hs. reflexivity.
Qed.

Lemma quadratic_form_spec_ext (n : nat) (r r' : nat -> Q) (M : matrix) :
  (forall i, (i < n)%nat -> r i == r' i) ->
  quadratic_form_spec n r M == quadratic_form_spec n r' M.
Proof.
  intros H. unfold quadratic_form_spec.
  apply Qsum_ext. intros i Hi. apply Qsum_ext. intros j Hj.
  apply in_seq in Hi. apply in_seq in Hj.
  rewrite (H i), (H j) by lia. reflexivity.
Qed.

Lemma quadratic_form_spec_zero (n : nat) (r : nat -> Q) (M : matrix) :
  (forall i, (i < n)%nat -> r i == 0) -> quadratic_form_spec n r M == 0.
Proof.
  intros H. unfold quadratic_form_spec.
  apply Qsum_zero. intros i Hi. apply Qsum_zero. intros j Hj.
  apply in_seq in Hi. rewrite (H i) by lia. ring.
Qed.

(** C3.  For data [x], [y] of one length, a covariance matrix [C] that
    numpy inverts to the [n x n] matrix [Ci] and constraint arrays with
    one entry per parameter, [chi2] returns a value, and that value is
    [sum_i sum_j r_i Ci_ij r_j] for the residuals [r_i = y_i - f(x_i; p)]
    plus [((p_i - target_i)/sigma_i)^2] for every parameter whose sigma is
    not zero.  When [f] reproduces [y], with [C] the identity and no
    active constraint, the value is zero. *)
Theorem chi2_is_weighted_residual_sum
    (mat_inv : matrix -> result matrix) (fn : Q -> list Q -> Q)
    (x y : vector) (C Ci : matrix) (p : list Q)
    (cp : option (list Q * list Q)) :
  length x = length y ->
  mat_inv C = Ok Ci ->
  is_square (length y) Ci = true ->
  constraint_shape p cp = true ->
  exists v,
    chi2 mat_inv fn x y C p cp = Ok v
    /\ v == quadratic_form_spec (length y) (residual_spec fn x y p) Ci
            + penalty_spec p cp
    /\ ((forall i, (i < length y)%nat -> nth i y 0 == fn (nth i x 0) p) ->
        C = identity (length y) ->
        no_active_constraint cp = true ->
        v == 0).
Proof.
  intros Hlen Hinv Hsq Hshape.
  set (r := zip_with Qminus y (map (fun xi => fn xi p) x)).
  assert (Hr : length r = length y).
  { unfold r. rewrite length_zip_with, length_map. lia. }
  destruct (quadratic_form_sum r Ci) as (v0 & Hq & Hv0).
  { rewrite Hr. exact Hsq. }
  assert (Hv0' : v0 == quadratic_form_spec (length y) (residual_spec fn x y p) Ci).
  { rewrite Hv0, Hr. apply quadratic_form_spec_ext. intros i Hi.
    unfold r. rewrite nth_residual by assumption. reflexivity. }
  assert (Hchi : exists v, chi2 mat_inv fn x y C p cp = Ok v
                           /\ v == v0 + penalty_spec p cp).
  { unfold chi2. rewrite np_sub_same_length by (rewrite length_map; lia).
    cbn [Py.bind]. rewrite Hinv. cbn [Py.bind]. fold r. rewrite Hq.
    cbn [Py.bind]. destruct cp as [[cvals cerrs]|].
    - simpl in Hshape. apply andb_prop in Hshape as [H1 H2].
      apply Nat.eqb_eq in H1. apply Nat.eqb_eq in H2.
      destruct (chi2_constraints_sum cerrs 0 p cvals v0) as (v & Hv & Hsum);
        [simpl; lia..|].
      exists v. split; [exact Hv|]. rewrite Hsum. reflexivity.
    - exists v0. split; [reflexivity|]. simpl. ring. }
  destruct Hchi as (v & Hv & Hsum).
  exists v. split; [exact Hv|]. split.
  - rewrite Hsum, Hv0'. reflexivity.
  - intros Hfit _ Hnone. rewrite Hsum, Hv0'.
    rewrite penalty_spec_inactive by exact Hnone.
    rewrite quadratic_form_spec_zero; [ring|].
    intros i Hi. unfold residual_spec. rewrite (Hfit i Hi). ring.
Qed.

Lemma chi2_is_weighted_residual_sum_witness :
  (exists v,
     chi2 mat_inv_gauss (func linear_2par) [1; 2; 4] [4; 4; 10]
          [[2; 1; 0]; [1; 3; 0]; [0; 0; 1]] [2; 1]
          (Some ([0; 3], [0; 0.5])) = Ok v
     /\ v == quadratic_form_spec 3
               (residual_spec (func linear_2par) [1; 2; 4] [4; 4; 10] [2; 1])
               [[3 # 5; -1 # 5; 0]; [-1 # 5; 2 # 5; 0]; [0; 0; 1]]
             + penalty_spec [2; 1] (Some ([0; 3], [0; 0.5]))
     /\ v == 92 # 5)
  /\ (exists v,
        chi2 mat_inv_gauss (func linear_2par) [1; 2; 4] [3; 5; 9]
             (identity 3) [2; 1] (Some ([7; 3], [0; 0])) = Ok v
        /\ v == 0).
Proof.
  split.
  - destruct (chi2_is_weighted_residual_sum mat_inv_gauss (func linear_2par)
                [1; 2; 4] [4; 4; 10] [[2; 1; 0]; [1; 3; 0]; [0; 0; 1]]
                [[3 # 5; -1 # 5; 0]; [-1 # 5; 2 # 5; 0]; [0; 0; 1]]
                [2; 1] (Some ([0; 3], [0; 0.5])))
      as (v & Hv & Hsum & _); try reflexivity.
    exists v. split; [exact Hv|]. split; [exact Hsum|].
    rewrite Hsum. reflexivity.
  - destruct (chi2_is_weighted_residual_sum mat_inv_gauss (func linear_2par)
                [1; 2; 4] [3; 5; 9] (identity 3) (identity 3)
                [2; 1] (Some ([7; 3], [0; 0])))
      as (v & Hv & _ & Hzero); try reflexivity.
    exists v. split; [exact Hv|]. apply Hzero.
    + intros [|[|[|i]]] Hi; simpl in *; try reflexivity; lia.
    + reflexivity.
    + reflexivity.
Defined.

(** ** Rounding *)

Lemma ten_pos (k : Z) : 0 < 10 ^ k.
Proof. apply Qpower_0_lt. reflexivity. Qed.

Lemma round_half_away_close (q : Q) :
  Qabs (inject_Z (round_half_away q) - q) <= 1 # 2.
Proof.
  unfold round_half_away. apply Qabs_Qle_condition.
  destruct (Qle_bool 0 q).
  - pose proof (Qfloor_le (q + (1 # 2))) as H1.
    pose proof (Qlt_floor (q + (1 # 2))) as H2.
    rewrite inject_Z_plus in H2. change (inject_Z 1) with 1 in H2.
    split; lra.
  - pose proof (Qfloor_le (- q + (1 # 2))) as H1.
    pose proof (Qlt_floor (- q + (1 # 2))) as H2.
    rewrite inject_Z_plus in H2. change (inject_Z 1) with 1 in H2.
    rewrite inject_Z_opp. split; lra.
Qed.



Lemma py_round_multiple (x : Q) (n : Z) :
  py_round x n == inject_Z (round_half_away (x * 10 ^ n)) * 10 ^ (- n).
Proof. unfold py_round. rewrite Qpower_opp. reflexivity. Qed.

Lemma py_round_close (x : Q) (n : Z) :
  Qabs (py_round x n - x) <= (1 # 2) * 10 ^ (- n).
Proof.
  pose proof (ten_pos n) as Hn. pose proof (ten_pos (- n)) as Hm.
  assert (Hinv : 10 ^ n * 10 ^ (- n) == 1).
  { rewrite Qpower_opp. field. intros H. rewrite H in Hn. lra. }
  assert (E : py_round x n - x
              == (inject_Z (round_half_away (x * 10 ^ n)) - x * 10 ^ n)
                 * 10 ^ (- n)).
  { rewrite py_round_multiple.
    assert (Ex : x == x * (10 ^ n * 10 ^ (- n))) by (rewrite Hinv; ring).
    rewrite Ex at 2. ring. }
  rewrite E, Qabs_Qmult. rewrite (Qabs_pos (10 ^ (- n))) by lra.
  apply Qmult_le_compat_r; [apply round_half_away_close|lra].
Qed.
(** ** [round_to_significance] *)

Lemma truthy_positive (e : Q) : 0 < e -> truthy e = true.
Proof.
  intros H. unfold truthy. apply negb_true_iff.
  destruct (Qeq_bool e 0) eqn:E; [|reflexivity].
  apply Qeq_bool_iff in E. lra.
Qed.



Section RoundingProperties.

Variable math_log : Q -> Q.
Variable float_div : Q -> Q -> Q.

(** With a positive error both numbers are rounded to
    [-d + significance - 1] decimals, [d] being the decade as computed. *)
Lemma round_to_significance_positive (value error : Q) (N : Z) :
  0 < error -> ~ math_log 10 == 0 ->
  round_to_significance math_log float_div value error N
  = Ok (py_round value (- computed_decade math_log float_div error + N - 1),
        py_round error (- computed_decade math_log float_div error + N - 1)).
Proof.
  intros Hpos H10. unfold round_to_significance, py_log, py_truediv.
  rewrite (truthy_positive error Hpos).
  assert (E0 : Qle_bool error 0 = false).
  { destruct (Qle_bool error 0) eqn:E; [|reflexivity].
    apply Qle_bool_iff in E. lra. }
  rewrite E0. cbn [Py.bind].
  change (Qle_bool 10 0) with false. cbn [Py.bind].
  assert (E10 : Qeq_bool (math_log 10) 0 = false).
  { destruct (Qeq_bool (math_log 10) 0) eqn:E; [|reflexivity].
    apply Qeq_bool_iff in E. contradiction. }
  rewrite E10. reflexivity.
Qed.


End RoundingProperties.



(** The sample of the witness, evaluated: the decade computed for
    [0.0236] is [-2], and [1234.5678 +- 0.0236] to two significant digits
    of the error is [1234.568 +- 0.024]. *)
Example round_to_significance_sample :
  computed_decade log_table div_table 0.0236 = (-2)%Z
  /\ round_to_significance log_table div_table 1234.5678 0.0236 2
     = Ok (1234.568, 0.024).
Proof. split; reflexivity. Qed.

(** At a power of ten the quotient of the logarithms can fall short of
    the decade: [log(1000.0)/log(10)] is [2.9999999999999996], the decade
    computed is [2], and [round_to_significance(1234.0, 1000.0, 1)] keeps
    the hundreds of the value. *)
Example round_to_significance_power_of_ten :
  computed_decade log_table div_table 1000 = 2%Z
  /\ round_to_significance log_table div_table 1234 1000 1 = Ok (1200, 1000).
Proof. split; reflexivity. Qed.

(** ** Matrices entry by entry *)

Lemma nth_zip_with {A B C} (g : A -> B -> C) (a : list A) (b : list B)
    (i : nat) (da : A) (db : B) (dc : C) :
  (i < length a)%nat -> (i < length b)%nat ->
  nth i (zip_with g a b) dc = g (nth i a da) (nth i b db).
Proof.
  revert b i. induction a as [|x a IH]; intros b i Ha Hb.
  - simpl in Ha. lia.
  - destruct b as [|y b]; [simpl in Hb; lia|].
    destruct i as [|i]; simpl.
    + reflexivity.
    + apply IH; simpl in *; lia.
Qed.

Lemma is_square_row (n : nat) (M : matrix) (i : nat) :
  is_square n M = true -> (i < n)%nat -> length (nth i M []) = n.
Proof.
  intros H Hi. apply is_square_inv in H as [HM Hrows].
  rewrite Forall_forall in Hrows. apply Hrows.
  apply list_elem_of_In. apply nth_In. lia.
Qed.

Lemma is_square_intro (n : nat) (M : matrix) :
  length M = n -> Forall (fun row => length row = n) M -> is_square n M = true.
Proof.
  intros HM Hrows. unfold is_square. apply andb_true_intro. split.
  - apply Nat.eqb_eq. exact HM.
  - apply forallb_forall. intros row Hrow. apply Nat.eqb_eq.
    rewrite Forall_forall in Hrows. apply Hrows.
    apply list_elem_of_In. exact Hrow.
Qed.

Lemma same_shape_square (n : nat) (A B : matrix) :
  is_square n A = true -> is_square n B = true -> same_shape A B = true.
Proof.
  intros HA HB.
  apply is_square_inv in HA as [HA1 HA2]. apply is_square_inv in HB as [HB1 HB2].
  unfold same_shape. apply andb_true_intro. split.
  - apply Nat.eqb_eq. congruence.
  - apply forallb_forall. intros [a b] Hab. simpl.
    apply list_elem_of_In in Hab. apply elem_of_zip_l in Hab as Ha.
    apply elem_of_zip_r in Hab as Hb. simpl in Ha, Hb.
    rewrite Forall_forall in HA2, HB2.
    apply Nat.eqb_eq. rewrite (HA2 a Ha), (HB2 b Hb). reflexivity.
Qed.

Lemma np_elementwise_square (op : Q -> Q -> Q) (n : nat) (A B : matrix) :
  is_square n A = true -> is_square n B = true ->
  exists M,
    np_elementwise op A B = Ok M
    /\ is_square n M = true
    /\ forall i j, (i < n)%nat -> (j < n)%nat ->
         entry M i j = op (entry A i j) (entry B i j).
Proof.
  intros HA HB. unfold np_elementwise.
  rewrite (same_shape_square n A B HA HB).
  eexists. split; [reflexivity|].
  pose proof (is_square_inv n A HA) as [HA1 HA2].
  pose proof (is_square_inv n B HB) as [HB1 HB2].
  split.
  - apply is_square_intro.
    + rewrite length_zip_with. lia.
    + apply Forall_forall. intros row Hrow.
      apply elem_of_lookup_zip_with in Hrow as (i & a & b & -> & Ha & Hb).
      rewrite length_zip_with.
      rewrite Forall_forall in HA2, HB2.
      rewrite (HA2 a), (HB2 b); [lia| |];
        apply list_elem_of_lookup; eexists; eassumption.
  - intros i j Hi Hj. unfold entry.
    rewrite (nth_zip_with _ A B i [] [] []) by lia.
    apply nth_zip_with; rewrite (is_square_row n) by assumption; exact Hj.
Qed.

Lemma outer_product_square (v : vector) :
  is_square (length v) (outer_product v) = true
  /\ forall i j, (i < length v)%nat -> (j < length v)%nat ->
       entry (outer_product v) i j = nth i v 0 * nth j v 0.
Proof.
  unfold outer_product. split.
  - apply is_square_intro.
    + apply length_map.
    + apply Forall_forall. intros row Hrow.
      apply list_elem_of_fmap in Hrow as (a & -> & _). apply length_map.
  - intros i j Hi Hj. unfold entry.
    rewrite (nth_indep _ [] (map (fun b => 0 * b) v))
      by (rewrite length_map; exact Hi).
    rewrite (map_nth (fun a => map (fun b => a * b) v) v 0 i).
    rewrite (nth_indep _ 0 (nth i v 0 * 0)) by (rewrite length_map; exact Hj).
    apply (map_nth (fun b => nth i v 0 * b) v 0 j).
Qed.

Lemma diag_from_spec (M : matrix) (i n : nat) :
  Forall (fun row => length row = n) M ->
  (i + length M <= n)%nat ->
  length (diag_from i M) = length M
  /\ forall j, (j < length M)%nat ->
       nth j (diag_from i M) 0 = nth (i + j) (nth j M []) 0.
Proof.
  revert i. induction M as [|row M IH]; intros i Hrows Hn.
  - split; [reflexivity|]. intros j Hj. simpl in Hj. lia.
  - inversion Hrows as [|? ? Hrow Hrows']; subst. simpl in Hn.
    simpl diag_from.
    destruct (row !! i) as [d|] eqn:E.
    + destruct (IH (S i) Hrows') as [Hlen Hnth]; [lia|].
      split; [simpl; rewrite Hlen; reflexivity|].
      intros [|j] Hj; simpl.
      * rewrite Nat.add_0_r. symmetry.
        apply nth_lookup_Some with (d := 0) in E. exact E.
      * rewrite Hnth by (simpl in Hj; lia).
        replace (S i + j)%nat with (i + S j)%nat by lia. reflexivity.
    + apply lookup_ge_None in E. lia.
Qed.

Lemma np_diag_square (n : nat) (M : matrix) :
  is_square n M = true ->
  length (np_diag M) = n
  /\ forall i, (i < n)%nat -> nth i (np_diag M) 0 = entry M i i.
Proof.
  intros H. apply is_square_inv in H as [HM Hrows].
  destruct (diag_from_spec M 0 n Hrows) as [Hlen Hnth]; [lia|].
  unfold np_diag. split; [congruence|].
  intros i Hi. rewrite Hnth by lia. reflexivity.
Qed.

(** ** The projection of the x errors *)

Lemma nth_map_in_range {A B} (g : A -> B) (l : list A) (i : nat) (d : A) (d' : B) :
  (i < length l)%nat -> nth i (map g l) d' = g (nth i l d).
Proof.
  intros Hi. rewrite (nth_indep _ d' (g d)) by (rewrite length_map; exact Hi).
  apply map_nth.
Qed.

Lemma py_min_nonempty (l : list Q) :
  (0 < length l)%nat -> exists m, py_min l = Ok m.
Proof.
  destruct l as [|x l]; simpl; intros H; [lia|]. eexists. reflexivity.
Qed.

Lemma ready_inv (n : nat) (f : Fit) :
  ready n f = true ->
  (exists calls, minimizer f = Some calls)
  /\ (0 < n)%nat
  /\ length (get_data_x (dataset f)) = n
  /\ is_square n (get_cov_mat_x (dataset f)) = true
  /\ is_square n (get_cov_mat_y (dataset f)) = true
  /\ is_square n (current_cov_mat f) = true.
Proof.
  unfold ready. intros H.
  destruct (minimizer f) as [calls|]; [|discriminate H].
  apply andb_prop in H as [H H5]. apply andb_prop in H as [H H4].
  apply andb_prop in H as [H H3]. apply andb_prop in H as [H1 H2].
  apply Nat.ltb_lt in H1. apply Nat.eqb_eq in H2.
  split; [exists calls; reflexivity|]. repeat split; assumption.
Qed.

Lemma ready_intro (n : nat) (f : Fit) (calls : list minuit_call) :
  minimizer f = Some calls ->
  (0 < n)%nat ->
  length (get_data_x (dataset f)) = n ->
  is_square n (get_cov_mat_x (dataset f)) = true ->
  is_square n (get_cov_mat_y (dataset f)) = true ->
  is_square n (current_cov_mat f) = true ->
  ready n f = true.
Proof.
  intros Hm H1 H2 H3 H4 H5. unfold ready. rewrite Hm, H3, H4, H5.
  apply Nat.ltb_lt in H1. apply Nat.eqb_eq in H2. rewrite H1, H2. reflexivity.
Qed.

Section WorkflowProperties.

Variable minuit_result : Fit -> list Q * list Q.
Variable np_sqrt : Q -> Q.
Variable derive_by_x : FitFunction -> vector -> vector -> list Q -> vector.

(** [derive_by_x] answers with one derivative per point. *)
Hypothesis derive_by_x_length :
  forall ff x_0 precision_list parameter_list,
    length precision_list = length x_0 ->
    length (derive_by_x ff x_0 precision_list parameter_list) = length x_0.

Lemma initial_precision_list_spec (f : Fit) (n : nat) :
  is_square n (current_cov_mat f) = true ->
  length (initial_precision_list np_sqrt f) = n
  /\ forall i, (i < n)%nat ->
       nth i (initial_precision_list np_sqrt f) 0
       = 0.01 * np_sqrt (entry (current_cov_mat f) i i).
Proof.
  intros Hsq. destruct (np_diag_square n _ Hsq) as [Hlen Hnth].
  unfold initial_precision_list. split.
  - rewrite length_map. exact Hlen.
  - intros i Hi. rewrite (nth_map_in_range _ _ i 0) by lia.
    rewrite Hnth by exact Hi. reflexivity.
Qed.

Lemma precision_steps_spec (f : Fit) (n : nat) :
  (0 < n)%nat ->
  is_square n (current_cov_mat f) = true ->
  exists smallest steps,
    py_min (initial_precision_list np_sqrt f) = Ok smallest
    /\ precision_steps np_sqrt f = Ok (steps, Qeq_bool smallest 0)
    /\ length steps = n
    /\ forall i, (i < n)%nat ->
         nth i steps 0
         = let h := 0.01 * np_sqrt (entry (current_cov_mat f) i i) in
           if Qeq_bool smallest 0 && Qeq_bool h 0 then 1e-7 else h.
Proof.
  intros Hn Hsq.
  destruct (initial_precision_list_spec f n Hsq) as [Hlen Hnth].
  destruct (py_min_nonempty (initial_precision_list np_sqrt f)) as [m Hm];
    [lia|].
  unfold precision_steps. rewrite Hm. cbn [Py.bind].
  exists m. destruct (Qeq_bool m 0) eqn:E.
  - eexists. split; [reflexivity|]. split; [reflexivity|].
    split; [rewrite length_map; exact Hlen|].
    intros i Hi. rewrite (nth_map_in_range _ _ i 0) by lia.
    rewrite Hnth by exact Hi. cbn zeta. unfold truthy.
    destruct (Qeq_bool (0.01 * np_sqrt (entry (current_cov_mat f) i i)) 0);
      reflexivity.
  - eexists. split; [reflexivity|]. split; [reflexivity|].
    split; [exact Hlen|].
    intros i Hi. rewrite Hnth by exact Hi. reflexivity.
Qed.

Lemma project_x_covariance_matrix_ok (f : Fit) (n : nat) :
  ready n f = true ->
  exists smallest steps f',
    py_min (initial_precision_list np_sqrt f) = Ok smallest
    /\ precision_steps np_sqrt f = Ok (steps, Qeq_bool smallest 0)
    /\ (forall i, (i < n)%nat ->
          nth i steps 0
          = let h := 0.01 * np_sqrt (entry (current_cov_mat f) i i) in
            if Qeq_bool smallest 0 && Qeq_bool h 0 then 1e-7 else h)
    /\ project_x_covariance_matrix np_sqrt derive_by_x f = Ok f'
    /\ (let d := derive_by_x (fit_function f) (get_data_x (dataset f)) steps
                             (current_parameter_values f) in
        forall i j, (i < n)%nat -> (j < n)%nat ->
          entry (current_cov_mat f') i j
          = entry (get_cov_mat_y (dataset f)) i j
            + entry (get_cov_mat_x (dataset f)) i j * (nth i d 0 * nth j d 0))
    /\ logger f'
       = logger f ++ debug_projecting
           :: (if Qeq_bool smallest 0 then [warn_zero_input_error] else [])
    /\ ready n f' = true
    /\ dataset f' = dataset f
    /\ fit_function f' = fit_function f
    /\ current_parameter_values f' = current_parameter_values f
    /\ minimizer f' = minimizer f.
Proof.
  intros Hready.
  destruct (ready_inv n f Hready) as ([calls Hm] & Hn & Hx & HCx & HCy & HC).
  destruct (precision_steps_spec f n) as (m & steps & Hmin & Hsteps & Hlen & Hnth);
    [assumption..|].
  set (d := derive_by_x (fit_function f) (get_data_x (dataset f)) steps
                        (current_parameter_values f)).
  assert (Hd : length d = n).
  { unfold d. rewrite derive_by_x_length; congruence. }
  destruct (outer_product_square d) as [Hosq Hoent]. rewrite Hd in Hosq, Hoent.
  destruct (np_elementwise_square Qmult n (get_cov_mat_x (dataset f))
              (outer_product d)) as (P & HP & HPsq & HPent); [assumption..|].
  destruct (np_elementwise_square Qplus n (get_cov_mat_y (dataset f)) P)
    as (T & HT & HTsq & HTent); [assumption..|].
  exists m, steps.
  assert (Hrun : project_x_covariance_matrix np_sqrt derive_by_x f
                 = Ok (with_cov_mat T
                         (if Qeq_bool m 0
                          then log warn_zero_input_error (log debug_projecting f)
                          else log debug_projecting f))).
  { unfold project_x_covariance_matrix.
    assert (Hs : precision_steps np_sqrt (log debug_projecting f)
                 = Ok (steps, Qeq_bool m 0)) by exact Hsteps.
    rewrite Hs. cbn [Py.bind fst snd].
    destruct (Qeq_bool m 0); cbn [dataset fit_function current_parameter_values
                                   log with_cov_mat];
      fold d; rewrite HP; cbn [Py.bind]; rewrite HT; reflexivity. }
  eexists. split; [exact Hmin|]. split; [exact Hsteps|]. split; [exact Hnth|].
  split; [exact Hrun|].
  split.
  { cbn zeta. intros i j Hi Hj. fold d.
    replace (current_cov_mat _) with T by (destruct (Qeq_bool m 0); reflexivity).
    rewrite HTent, HPent, Hoent by assumption. reflexivity. }
  split.
  { destruct (Qeq_bool m 0); simpl; rewrite <- ?app_assoc; reflexivity. }
  split.
  { destruct (Qeq_bool m 0); apply (ready_intro n _ calls); assumption. }
  destruct (Qeq_bool m 0); simpl; repeat split; try reflexivity; assumption.
Qed.


(** ** The loop over the x errors *)

Lemma call_minimizer_ok (final_fit verbose : bool) (f : Fit)
    (calls : list minuit_call) :
  minimizer f = Some calls ->
  exists f',
    call_minimizer minuit_result final_fit verbose f = Ok f'
    /\ dataset f' = dataset f
    /\ current_cov_mat f' = current_cov_mat f
    /\ logger f' = logger f ++ [debug_calling_minimizer; debug_retrieving]
    /\ exists level,
         minimizer f' = Some (calls ++ [minimize final_fit level]).
Proof.
  intros Hm. unfold call_minimizer, call_minuit. simpl. rewrite Hm. simpl.
  eexists. split; [reflexivity|]. simpl.
  repeat split; [rewrite <- app_assoc; reflexivity|].
  eexists. reflexivity.
Qed.

Lemma forallb_zip_nth {A B} (g : A * B -> bool) (a : list A) (b : list B)
    (n : nat) (da : A) (db : B) :
  length a = n -> length b = n ->
  (forallb g (zip a b) = true
   <-> forall i, (i < n)%nat -> g (nth i a da, nth i b db) = true).
Proof.
  revert b n. induction a as [|x a IH]; intros b n Ha Hb.
  - subst n. destruct b; [|discriminate Hb]. simpl.
    split; [intros _ i Hi; lia|reflexivity].
  - destruct b as [|y b]; [subst n; discriminate Hb|].
    destruct n as [|n]; [discriminate Ha|]. simpl in Ha, Hb.
    simpl. rewrite andb_true_iff, (IH b n) by lia. split.
    + intros [H0 Hrest] [|i] Hi; [exact H0|]. apply Hrest. lia.
    + intros H. split; [apply (H 0%nat); lia|].
      intros i Hi. apply (H (S i)). lia.
Qed.

Lemma isclose_spec (a b : Q) :
  isclose 1e-4 0 a b = true <-> Qabs (a - b) <= 1e-4 * Qabs b.
Proof.
  unfold isclose. rewrite Qle_bool_iff, Qplus_0_l. reflexivity.
Qed.

Lemma np_allclose_square (n : nat) (A B : matrix) :
  is_square n A = true -> is_square n B = true ->
  exists met,
    np_allclose A B 1e-4 0 = Ok met
    /\ (met = true <-> within_tolerance n A B).
Proof.
  intros HA HB. unfold np_allclose.
  rewrite (same_shape_square n A B HA HB).
  eexists. split; [reflexivity|].
  pose proof (is_square_inv n A HA) as [HA1 _].
  pose proof (is_square_inv n B HB) as [HB1 _].
  rewrite (forallb_zip_nth _ A B n [] []) by assumption.
  unfold within_tolerance. split.
  - intros H i j Hi Hj. specialize (H i Hi). simpl in H.
    rewrite (forallb_zip_nth _ _ _ n 0 0) in H
      by (apply is_square_row; assumption).
    specialize (H j Hj). simpl in H. apply isclose_spec in H. exact H.
  - intros H i Hi. simpl.
    apply (forallb_zip_nth _ _ _ n 0 0); try (apply is_square_row; assumption).
    intros j Hj. simpl. apply isclose_spec. apply H; assumption.
Qed.

Lemma x_iterations_logged_app (f f' : Fit) (records : list log_record) :
  logger f' = logger f ++ records ->
  x_iterations_logged f'
  = (x_iterations_logged f
     + length (filter (fun r => is_x_iteration r = true) records))%nat.
Proof.
  intros H. unfold x_iterations_logged. rewrite H, filter_app, length_app.
  reflexivity.
Qed.

(** One pass of the loop body in a state that is ready for it. *)
Lemma x_iteration_ok (verbose : bool) (iter_nr : Z) (f : Fit) (n : nat) :
  ready n f = true ->
  exists f' met,
    x_iteration minuit_result np_sqrt derive_by_x verbose iter_nr f
    = Ok (f', met)
    /\ (met = true
        <-> within_tolerance n (current_cov_mat f) (current_cov_mat f'))
    /\ ready n f' = true
    /\ x_iterations_logged f' = S (x_iterations_logged f).
Proof.
  intros Hready.
  destruct (ready_inv n f Hready) as (_ & _ & _ & _ & _ & HC).
  destruct (project_x_covariance_matrix_ok f n Hready)
    as (m & steps & f1 & _ & _ & _ & Hproj & _ & Hlog1 & Hready1 & Hd1 & _ & _ & Hm1).
  destruct (ready_inv n f1 Hready1) as ([calls Hcalls] & Hn & Hx & HCx & HCy & HC1).
  set (f2 := log (debug_x_iteration iter_nr) f1).
  destruct (call_minimizer_ok (negb (iter_nr =? 0)%Z) verbose f2 calls)
    as (f3 & Hcall & Hd3 & Hcov3 & Hlog3 & level & Hm3); [exact Hcalls|].
  assert (HC3 : is_square n (current_cov_mat f3) = true)
    by (rewrite Hcov3; exact HC1).
  destruct (np_allclose_square n (current_cov_mat f) (current_cov_mat f3) HC HC3)
    as (met & Hclose & Hmet).
  exists f3, met. split.
  { unfold x_iteration. rewrite Hproj. cbn [Py.bind]. fold f2.
    replace (if (iter_nr =? 0)%Z
             then call_minimizer minuit_result false verbose f2
             else call_minimizer minuit_result true verbose f2)
      with (call_minimizer minuit_result (negb (iter_nr =? 0)%Z) verbose f2)
      by (destruct (iter_nr =? 0)%Z; reflexivity).
    rewrite Hcall. cbn [Py.bind]. rewrite Hclose. reflexivity. }
  split; [exact Hmet|]. split.
  { apply (ready_intro n f3 _ Hm3); try assumption;
      rewrite Hd3; simpl; assumption. }
  rewrite (x_iterations_logged_app f f3
             (debug_projecting
                :: (if Qeq_bool m 0 then [warn_zero_input_error] else [])
                ++ [debug_x_iteration iter_nr; debug_calling_minimizer;
                    debug_retrieving])).
  - destruct (Qeq_bool m 0); simpl; lia.
  - rewrite Hlog3. unfold f2. simpl. rewrite Hlog1.
    destruct (Qeq_bool m 0); simpl; rewrite <- !app_assoc; reflexivity.
Qed.

Lemma x_loop_run (verbose : bool) (n : nat) (m : nat) :
  forall (i : nat) (f : Fit) (fuel : nat),
    ready n f = true ->
    (i + S m = 10)%nat ->
    (S m < fuel)%nat ->
    exists k f_last met,
      (k <= m)%nat
      /\ x_run minuit_result np_sqrt derive_by_x verbose n i k f f_last met
      /\ (met = false -> k = m)
      /\ x_loop minuit_result np_sqrt derive_by_x fuel verbose (Z.of_nat i) f
         = Some (Ok (if met then log debug_converged f_last else f_last))
      /\ x_iterations_logged f_last = (x_iterations_logged f + S k)%nat.
Proof.
  induction m as [|m IH]; intros i f fuel Hready Hi Hfuel.
  - destruct fuel as [|[|fuel]]; [lia|lia|].
    destruct (x_iteration_ok verbose (Z.of_nat i) f n Hready)
      as (f1 & met & Hit & Hmet & _ & Hlog).
    exists 0%nat, f1, met. split; [lia|]. split; [split; assumption|].
    split; [reflexivity|]. split; [|lia].
    cbn [x_loop].
    replace (Z.of_nat i <? max_x_iterations)%Z with true
      by (symmetry; apply Z.ltb_lt; unfold max_x_iterations; lia).
    rewrite Hit. destruct met; [reflexivity|].
    replace (Z.of_nat i + 1 <? max_x_iterations)%Z with false
      by (symmetry; apply Z.ltb_ge; unfold max_x_iterations; lia).
    reflexivity.
  - destruct fuel as [|fuel]; [lia|].
    destruct (x_iteration_ok verbose (Z.of_nat i) f n Hready)
      as (f1 & met & Hit & Hmet & Hready1 & Hlog).
    destruct met.
    + exists 0%nat, f1, true. split; [lia|]. split; [split; assumption|].
      split; [discriminate|]. split; [|lia].
      cbn [x_loop].
      replace (Z.of_nat i <? max_x_iterations)%Z with true
        by (symmetry; apply Z.ltb_lt; unfold max_x_iterations; lia).
      rewrite Hit. reflexivity.
    + destruct (IH (S i) f1 fuel Hready1) as (k & f_last & met & Hk & Hrun & Hcap & Hloop & Hcount);
        [lia|lia|].
      exists (S k), f_last, met. split; [lia|]. split.
      { simpl. exists f1. split; [exact Hit|]. split; [|exact Hrun].
        intros Hin. apply Hmet in Hin. discriminate Hin. }
      split; [intros Hm; rewrite (Hcap Hm); reflexivity|].
      split; [|lia].
      cbn [x_loop].
      replace (Z.of_nat i <? max_x_iterations)%Z with true
        by (symmetry; apply Z.ltb_lt; unfold max_x_iterations; lia).
      rewrite Hit.
      replace (Z.of_nat i + 1)%Z with (Z.of_nat (S i)) by lia.
      exact Hloop.
Qed.

(** C1.  In a fit over [n] points whose dataset has x errors, with
    more fuel than the cap of ten passes: the loop of [do_fit] returns, it
    makes [k + 1 <= 10] passes, every pass before the last changes the
    covariance matrix by more than the tolerance [|old - new| <= 1e-4 *
    |new|] in some entry, and the last pass either meets the tolerance in
    every entry, which ends the loop, or is the tenth, after which the loop
    ends with the state of that pass and without an exception.  [do_fit]
    itself returns normally with between one and ten passes logged. *)
Theorem x_loop_stops_within_ten_iterations (verbose : bool) (fuel n : nat)
    (f : Fit) :
  ready n f = true ->
  has_errors_x (dataset f) = true ->
  (10 < fuel)%nat ->
  (exists k f_last met,
     (k < 10)%nat
     /\ x_run minuit_result np_sqrt derive_by_x verbose n 0 k f f_last met
     /\ (met = false -> k = 9%nat)
     /\ x_loop minuit_result np_sqrt derive_by_x fuel verbose 0 f
        = Some (Ok (if met then log debug_converged f_last else f_last))
     /\ x_iterations_logged f_last = (x_iterations_logged f + S k)%nat)
  /\ (exists f',
        do_fit minuit_result np_sqrt derive_by_x fuel true verbose f
        = Some (Ok f')
        /\ (x_iterations_logged f + 1 <= x_iterations_logged f'
            <= x_iterations_logged f + 10)%nat).
Proof.
  intros Hready Hx Hfuel. split.
  - destruct (x_loop_run verbose n 9 0 f fuel Hready) as (k & f_last & met & H);
      [lia|lia|].
    exists k, f_last, met. destruct H as (Hk & Hrun & Hcap & Hloop & Hcount).
    split; [lia|]. repeat split; assumption.
  - destruct (ready_inv n f Hready) as ([calls Hm] & Hn & Hlen & HCx & HCy & HC).
    unfold do_fit. cbn [print number_of_constrained_parameters].
    set (f0 := log debug_calling_minuit _).
    assert (Hd0 : dataset f0 = dataset f)
      by (unfold f0; destruct (_ =? _)%Z; reflexivity).
    assert (Hc0 : current_cov_mat f0 = current_cov_mat f)
      by (unfold f0; destruct (_ =? _)%Z; reflexivity).
    assert (Hm0 : minimizer f0 = Some calls)
      by (unfold f0; destruct (_ =? _)%Z; exact Hm).
    assert (Hl0 : x_iterations_logged f0 = x_iterations_logged f).
    { rewrite (x_iterations_logged_app f f0 [debug_calling_minuit]).
      - simpl. lia.
      - unfold f0; destruct (_ =? _)%Z; reflexivity. }
    rewrite Hd0, Hx. cbn [negb].
    destruct (call_minimizer_ok false verbose f0 calls Hm0)
      as (f1 & Hcall & Hd1 & Hc1 & Hl1 & level & Hm1).
    rewrite Hcall. rewrite Hd1, Hd0, Hx.
    set (f2 := log debug_iterating_x f1).
    assert (Hready2 : ready n f2 = true).
    { apply (ready_intro n f2 _ Hm1); unfold f2; simpl;
        rewrite ?Hd1, ?Hd0, ?Hc1, ?Hc0; assumption. }
    destruct (x_loop_run verbose n 9 0 f2 fuel Hready2)
      as (k & f_last & met & Hk & _ & _ & Hloop & Hcount); [lia|lia|].
    change (Z.of_nat 0) with 0%Z in Hloop. rewrite Hloop.
    eexists. split; [reflexivity|].
    assert (Hl2 : x_iterations_logged f2 = x_iterations_logged f).
    { rewrite (x_iterations_logged_app f0 f2
                 [debug_calling_minimizer; debug_retrieving; debug_iterating_x]).
      - simpl. lia.
      - unfold f2. simpl. rewrite Hl1, <- app_assoc. reflexivity. }
    assert (Hres : x_iterations_logged
                     (if met then log debug_converged f_last else f_last)
                   = x_iterations_logged f_last).
    { destruct met; [|reflexivity].
      rewrite (x_iterations_logged_app f_last _ [debug_converged]);
        [simpl; lia|reflexivity]. }
    rewrite Hres, Hcount, Hl2. lia.
Qed.

End WorkflowProperties.

(** ** The workflow on the sample fit *)

Lemma central_difference_length (ff : FitFunction)
    (x_0 precision_list parameter_list : vector) :
  length precision_list = length x_0 ->
  length (central_difference ff x_0 precision_list parameter_list)
  = length x_0.
Proof.
  intros H. unfold central_difference. rewrite length_zip_with. lia.
Qed.



(** A diagonal entry of zero: its step becomes [1e-7], the other step
    stays, and the warning is logged. *)
Example projection_replaces_zero_step :
  precision_steps sqrt_exact sample_fit_exact_first = Ok ([1e-7; 0.02], true)
  /\ match project_x_covariance_matrix sqrt_exact central_difference
             sample_fit_exact_first with
     | Ok f' => logger f' = [debug_projecting; warn_zero_input_error]
     | Raise _ => False
     end.
Proof. split; reflexivity. Qed.

Lemma x_loop_stops_within_ten_iterations_witness :
  (exists k f_last met,
     (k < 10)%nat
     /\ x_run minuit_double sqrt_exact central_difference false 2 0 k
              sample_fit f_last met
     /\ (met = false -> k = 9%nat)
     /\ x_loop minuit_double sqrt_exact central_difference 11 false 0 sample_fit
        = Some (Ok (if met then log debug_converged f_last else f_last))
     /\ x_iterations_logged f_last
        = (x_iterations_logged sample_fit + S k)%nat)
  /\ (exists f',
        do_fit minuit_double sqrt_exact central_difference 11 true false
               sample_fit = Some (Ok f')
        /\ (x_iterations_logged sample_fit + 1 <= x_iterations_logged f'
            <= x_iterations_logged sample_fit + 10)%nat).
Proof.
  apply (x_loop_stops_within_ten_iterations minuit_double sqrt_exact
           central_difference central_difference_length false 11 2 sample_fit).
  - reflexivity.
  - reflexivity.
  - lia.
Defined.

(** A straight line: the slope does not depend on the parameters, and
    the second pass finds the matrix unchanged. *)
Example x_loop_line_converges_in_two :
  match x_loop minuit_keep sqrt_exact central_difference 11 false 0 sample_fit with
  | Some (Ok f') =>
      x_iterations_logged f' = 2%nat /\ last (logger f') = Some debug_converged
  | _ => False
  end.
Proof. vm_compute. split; reflexivity. Qed.

(** A minimizer that never settles: ten passes, no convergence, no
    exception. *)
Example x_loop_ends_at_the_cap :
  match x_loop minuit_double sqrt_exact central_difference 11 false 0 sample_fit with
  | Some (Ok f') =>
      x_iterations_logged f' = 10%nat /\ last (logger f') = Some debug_retrieving
  | _ => False
  end.
Proof. vm_compute. split; reflexivity. Qed.

(** * Further properties *)

(** ** Looking a parameter up *)

Lemma index_first `{EqDecision A} (l : list A) (x : A) (i : nat) :
  l !! i = Some x ->
  (forall j, (j < i)%nat -> l !! j <> Some x) ->
  index l x = Ok (Z.of_nat i).
Proof.
  revert i. induction l as [|y l IH]; intros i Hi Hfirst.
  - discriminate Hi.
  - simpl. destruct (decide (y = x)) as [->|Hne].
    + destruct i as [|i]; [reflexivity|].
      exfalso. apply (Hfirst 0%nat); [lia|reflexivity].
    + destruct i as [|i]; [simpl in Hi; congruence|].
      rewrite (IH i).
      * simpl. f_equal. lia.
      * exact Hi.
      * intros j Hj. apply (Hfirst (S j)). lia.
Qed.

Lemma index_absent (l : list string) (x : string) :
  existsb (String.eqb x) l = false -> index l x = Raise ValueError.
Proof.
  induction l as [|y l IH]; intros H; simpl in *.
  - reflexivity.
  - apply orb_false_elim in H as [Hxy Hrest].
    destruct (decide (y = x)) as [->|Hne].
    + rewrite String.eqb_refl in Hxy. discriminate Hxy.
    + rewrite (IH Hrest). reflexivity.
Qed.

(** X1.  The names of a fit being distinct, looking up the name of
    parameter [i] answers [i]. *)
Theorem find_parameter_by_name (f : Fit) (i : nat) (name : string) :
  NoDup (parameter_names f) ->
  parameter_names f !! i = Some name ->
  _find_parameter f (by_name name) = Ok (Some (Z.of_nat i)).
Proof.
  intros Hnodup Hi. unfold _find_parameter.
  rewrite (index_first (parameter_names f) name i Hi); [reflexivity|].
  intros j Hj Hjname.
  pose proof (NoDup_lookup _ _ _ _ Hnodup Hi Hjname). lia.
Qed.

Lemma find_parameter_by_name_witness :
  _find_parameter sample_fit (by_name "y_intercept") = Ok (Some (Z.of_nat 1)).
Proof.
  apply (find_parameter_by_name sample_fit 1 "y_intercept").
  - apply (bool_decide_unpack _). vm_compute. exact I.
  - reflexivity.
Defined.

Lemma find_parameter_unknown_name (f : Fit) (name : string) :
  known_name f name = false -> _find_parameter f (by_name name) = Ok None.
Proof.
  intros H. unfold _find_parameter.
  rewrite (index_absent _ _ H). reflexivity.
Qed.

Lemma norm_index_out_of_range (len : nat) (i : Z) :
  (Z.of_nat len <= i \/ i < - Z.of_nat len)%Z -> norm_index len i = None.
Proof.
  intros H. unfold norm_index.
  replace ((0 <=? i) && (i <? Z.of_nat len))%Z with false
    by (symmetry; apply andb_false_iff; lia).
  replace ((- Z.of_nat len <=? i) && (i <? 0))%Z with false
    by (symmetry; apply andb_false_iff; lia).
  reflexivity.
Qed.

Lemma find_parameter_out_of_range (f : Fit) (i : Z) :
  (Z.of_nat (length (current_parameter_values f)) <= i
   \/ i < - Z.of_nat (length (current_parameter_values f)))%Z ->
  _find_parameter f (by_id i) = Raise IndexError.
Proof.
  intros H. unfold _find_parameter, getitem.
  rewrite (norm_index_out_of_range _ _ H). reflexivity.
Qed.

(** X2.  A name that is not a parameter name is refused with
    [ValueError] by [fix_parameters], [release_parameters] and
    [constrain_parameters], whatever follows it in the argument list and
    whatever the state of the fit; nothing is silently skipped. *)
Theorem unknown_name_raises_value_error (f : Fit) (name : string)
    (rest : list lookup) (parvals parerrs : list Q) :
  known_name f name = false ->
  fix_parameters (by_name name :: rest) f = Raise ValueError
  /\ release_parameters (by_name name :: rest) f = Raise ValueError
  /\ constrain_parameters (by_name name :: rest) parvals parerrs f
     = Raise ValueError.
Proof.
  intros H. pose proof (find_parameter_unknown_name f name H) as Hfind.
  unfold release_parameters, constrain_parameters.
  cbn [fix_parameters release_each constrain_from].
  rewrite Hfind. repeat split; reflexivity.
Qed.

Lemma unknown_name_raises_value_error_witness :
  fix_parameters [by_name "offset"; by_id 0] sample_fit = Raise ValueError
  /\ release_parameters [by_name "offset"; by_id 0] sample_fit
     = Raise ValueError
  /\ constrain_parameters [by_name "offset"; by_id 0] [1; 2] [0.1; 0.1]
                          sample_fit = Raise ValueError.
Proof.
  apply (unknown_name_raises_value_error sample_fit "offset" [by_id 0]
           [1; 2] [0.1; 0.1]).
  reflexivity.
Defined.

(** X3.  An integer ID outside [-len .. len-1], [len] being the
    number of current parameter values, is not reported as an invalid
    reference: the probe in [_find_parameter] raises [IndexError], which
    leaves [fix_parameters], [release_parameters] and
    [constrain_parameters] as it is. *)
Theorem out_of_range_id_raises_index_error (f : Fit) (i : Z)
    (rest : list lookup) (parvals parerrs : list Q) :
  (Z.of_nat (length (current_parameter_values f)) <= i
   \/ i < - Z.of_nat (length (current_parameter_values f)))%Z ->
  _find_parameter f (by_id i) = Raise IndexError
  /\ fix_parameters (by_id i :: rest) f = Raise IndexError
  /\ release_parameters (by_id i :: rest) f = Raise IndexError
  /\ constrain_parameters (by_id i :: rest) parvals parerrs f
     = Raise IndexError.
Proof.
  intros H. pose proof (find_parameter_out_of_range f i H) as Hfind.
  unfold release_parameters, constrain_parameters.
  cbn [fix_parameters release_each constrain_from].
  rewrite Hfind. repeat split; reflexivity.
Qed.

Lemma out_of_range_id_raises_index_error_witness :
  _find_parameter sample_fit (by_id 2) = Raise IndexError
  /\ fix_parameters [by_id 2] sample_fit = Raise IndexError
  /\ release_parameters [by_id 2] sample_fit = Raise IndexError
  /\ constrain_parameters [by_id 2] [1] [0.1] sample_fit = Raise IndexError.
Proof.
  apply (out_of_range_id_raises_index_error sample_fit 2 [] [1] [0.1]).
  left. vm_compute. discriminate.
Defined.

(** ** Setting parameters *)

(** X4.  A value list whose length is not the number of parameters is
    refused with an exception, with or without an error list and whatever
    the keywords; so are more than two positional arguments. *)
Theorem set_parameters_rejects_wrong_value_count (f : Fit) (values : list Q)
    (errors a0 a1 a2 : option (list Q)) (more : list (option (list Q)))
    (kwargs : list (string * param_spec)) (no_warning : bool) :
  length values <> number_of_parameters f ->
  set_parameters [Some values] kwargs no_warning f
  = Raise (Exception "Cannot set parameters.")
  /\ set_parameters [Some values; errors] kwargs no_warning f
     = Raise (Exception "Cannot set parameters.")
  /\ set_parameters (a0 :: a1 :: a2 :: more) kwargs no_warning f
     = Raise (Exception "Error setting parameters.").
Proof.
  intros H. apply Nat.eqb_neq in H.
  unfold set_parameters, set_positional. rewrite H. repeat split.
Qed.

Lemma set_parameters_rejects_wrong_value_count_witness :
  set_parameters [Some [1; 2; 3]] [] false sample_fit
  = Raise (Exception "Cannot set parameters.")
  /\ set_parameters [Some [1; 2; 3]; Some [0.1; 0.1]] [] false sample_fit
     = Raise (Exception "Cannot set parameters.")
  /\ set_parameters [Some [1; 2]; None; None] [] false sample_fit
     = Raise (Exception "Error setting parameters.").
Proof.
  apply (set_parameters_rejects_wrong_value_count sample_fit [1; 2; 3]
           (Some [0.1; 0.1]) (Some [1; 2]) None None [] [] false).
  vm_compute. discriminate.
Defined.

Lemma known_name_index (f : Fit) (name : string) :
  known_name f name = true ->
  exists id, index (parameter_names f) name = Ok id.
Proof.
  unfold known_name. induction (parameter_names f) as [|y l IH]; simpl.
  - discriminate.
  - intros H. destruct (decide (y = name)) as [->|Hne].
    + eexists. reflexivity.
    + apply orb_prop in H as [H|H].
      * apply String.eqb_eq in H. congruence.
      * destruct (IH H) as [id Hid]. rewrite Hid. eexists. reflexivity.
Qed.

(** X5.  In the keyword form of [set_parameters], a name that is not a
    parameter name raises [ValueError], and so does a known name given
    with a sequence that is not a pair of value and error. *)
Theorem set_parameters_keyword_errors (f : Fit) (name : string)
    (spec : param_spec) (l : list Q) (rest : list (string * param_spec))
    (no_warning : bool) :
  (known_name f name = false ->
   set_parameters [] ((name, spec) :: rest) no_warning f = Raise ValueError)
  /\ (known_name f name = true -> length l <> 2%nat ->
      set_parameters [] ((name, spec_seq l) :: rest) no_warning f
      = Raise ValueError).
Proof.
  split.
  - intros H. unfold set_parameters. cbn [set_keywords].
    rewrite (find_parameter_unknown_name f name H). reflexivity.
  - intros H Hl. destruct (known_name_index f name H) as [id Hid].
    unfold set_parameters. cbn [set_keywords]. unfold _find_parameter.
    rewrite Hid. cbn [Py.bind].
    destruct l as [|a [|b [|c l]]]; try reflexivity.
    simpl in Hl. congruence.
Qed.

Lemma set_parameters_keyword_errors_witness :
  set_parameters [] [("offset", spec_float 1)] false sample_fit
  = Raise ValueError
  /\ set_parameters [] [("slope", spec_seq [1; 2; 3])] false sample_fit
     = Raise ValueError.
Proof.
  split.
  - apply (proj1 (set_parameters_keyword_errors sample_fit "offset"
                    (spec_float 1) [] [] false)). reflexivity.
  - apply (proj2 (set_parameters_keyword_errors sample_fit "slope"
                    (spec_float 1) [1; 2; 3] [] false)); [reflexivity|].
    simpl. lia.
Defined.

Lemma same_bookkeeping_refl (f : Fit) : same_bookkeeping f f.
Proof. repeat split. Qed.

Lemma same_bookkeeping_trans (f g h : Fit) :
  same_bookkeeping f g -> same_bookkeeping g h -> same_bookkeeping f h.
Proof.
  unfold same_bookkeeping. intros A B.
  decompose [and] A. decompose [and] B. repeat split; congruence.
Qed.

(** X6.  In a fit as [__init__] leaves it, with distinct names, the
    keyword [name=(value, error)] for the name of parameter [k] sets value
    and error of parameter [k] and of no other, logs no warning, and hands
    the new lists to the minimizer. *)
Theorem set_parameters_keyword_pair (f : Fit) (name : string) (k : nat)
    (v e : Q) (no_warning : bool) :
  well_formed f = true ->
  NoDup (parameter_names f) ->
  parameter_names f !! k = Some name ->
  exists f',
    set_parameters [] [(name, spec_seq [v; e])] no_warning f = Ok f'
    /\ current_parameter_values f' = <[k:=v]> (current_parameter_values f)
    /\ current_parameter_errors f' = <[k:=e]> (current_parameter_errors f)
    /\ logger f' = logger f
    /\ minimizer f'
       = option_map
           (fun calls =>
              calls ++ [set_parameter_values (<[k:=v]> (current_parameter_values f));
                        set_parameter_errors
                          (Some (<[k:=e]> (current_parameter_errors f)))])
           (minimizer f)
    /\ same_bookkeeping f f'.
Proof.
  intros Hwf Hnodup Hk.
  destruct (well_formed_inv f Hwf)
    as (calls & cvals & cerrs & Hm & _ & Hn & Hv & He & _).
  pose proof (lookup_lt_Some _ _ _ Hk) as Hlt.
  unfold set_parameters. cbn [set_keywords].
  unfold _find_parameter.
  rewrite (index_first (parameter_names f) name k Hk)
    by (intros j Hj Hjname;
        pose proof (NoDup_lookup _ _ _ _ Hnodup Hk Hjname); lia).
  cbn [Py.bind].
  rewrite (setitem_ok _ (Z.of_nat k) k)
    by (apply norm_index_nonneg; lia).
  cbn [Py.bind current_parameter_errors with_values].
  rewrite (setitem_ok _ (Z.of_nat k) k)
    by (apply norm_index_nonneg; lia).
  cbn [Py.bind]. unfold update_minimizer, call_minuit. simpl. rewrite Hm. simpl.
  eexists. split; [reflexivity|]. simpl. rewrite <- app_assoc.
  repeat split.
Qed.

Lemma set_parameters_keyword_pair_witness :
  exists f',
    set_parameters [] [("y_intercept", spec_seq [3; 0.5])] false sample_fit
    = Ok f'
    /\ current_parameter_values f' = [1; 3]
    /\ current_parameter_errors f' = [0.1; 0.5]
    /\ logger f' = logger sample_fit
    /\ minimizer f'
       = Some [set_parameter_values [1; 0]; set_parameter_errors None;
               set_parameter_values [1; 3];
               set_parameter_errors (Some [0.1; 0.5])]
    /\ same_bookkeeping sample_fit f'.
Proof.
  apply (set_parameters_keyword_pair sample_fit "y_intercept" 1 3 0.5 false).
  - reflexivity.
  - apply (bool_decide_unpack _). vm_compute. exact I.
  - reflexivity.
Defined.

(** X7.  Values and errors given by position reach the minimizer when
    there is one: it is handed first the values, then the errors.  While
    the fit has no minimizer yet, the call still succeeds and the values
    are kept in the fit; a warning is logged unless [no_warning] is set. *)
Theorem set_parameters_reaches_minimizer (f : Fit) (values errors : list Q)
    (kwargs : list (string * param_spec)) (no_warning : bool) :
  length values = number_of_parameters f ->
  exists f',
    set_parameters [Some values; Some errors] kwargs no_warning f = Ok f'
    /\ current_parameter_values f' = values
    /\ current_parameter_errors f' = errors
    /\ same_bookkeeping f f'
    /\ match minimizer f with
       | Some calls =>
           minimizer f'
           = Some (calls ++ [set_parameter_values values;
                             set_parameter_errors (Some errors)])
           /\ logger f' = logger f
       | None =>
           minimizer f' = None
           /\ logger f'
              = logger f ++ (if no_warning then [] else [warn_minimizer_not_set])
       end.
Proof.
  intros Hlen. apply Nat.eqb_eq in Hlen.
  unfold set_parameters, set_positional. rewrite Hlen. simpl. rewrite Hlen.
  cbn [Py.bind]. unfold update_minimizer, call_minuit. simpl.
  destruct (minimizer f) as [calls|] eqn:Hm; simpl.
  - eexists. split; [reflexivity|]. simpl. rewrite <- app_assoc.
    repeat split.
  - eexists. split; [reflexivity|].
    destruct no_warning; simpl; rewrite ?app_nil_r; repeat split; assumption.
Qed.

Lemma set_parameters_reaches_minimizer_witness :
  (exists f',
     set_parameters [Some [2; 1]; Some [0.2; 0.1]] [] false sample_fit = Ok f'
     /\ current_parameter_values f' = [2; 1]
     /\ current_parameter_errors f' = [0.2; 0.1]
     /\ same_bookkeeping sample_fit f'
     /\ minimizer f'
        = Some ([set_parameter_values [1; 0]; set_parameter_errors None]
                ++ [set_parameter_values [2; 1];
                    set_parameter_errors (Some [0.2; 0.1])])
     /\ logger f' = logger sample_fit)
  /\ (exists f',
        set_parameters [Some [2; 1]; Some [0.2; 0.1]] [] false
                       (blank two_points linear_2par) = Ok f'
        /\ current_parameter_values f' = [2; 1]
        /\ current_parameter_errors f' = [0.2; 0.1]
        /\ same_bookkeeping (blank two_points linear_2par) f'
        /\ minimizer f' = None
        /\ logger f' = [warn_minimizer_not_set]).
Proof.
  split.
  - apply (set_parameters_reaches_minimizer sample_fit [2; 1] [0.2; 0.1]
             [] false). reflexivity.
  - apply (set_parameters_reaches_minimizer (blank two_points linear_2par)
             [2; 1] [0.2; 0.1] [] false). reflexivity.
Defined.

(** ** The constructor *)

Lemma count_flags_repeat_false (n : nat) : count_flags (repeat false n) = 0%Z.
Proof.
  unfold count_flags. induction n as [|n IH]; [reflexivity|].
  simpl. rewrite filter_cons_False by discriminate. exact IH.
Qed.

Lemma no_active_constraint_zeros (n : nat) :
  no_active_constraint (Some (repeat 0 n, repeat 0 n)) = true.
Proof.
  simpl. induction n as [|n IH]; [reflexivity|]. simpl. exact IH.
Qed.

(** What [__init__] builds from a fit function whose defaults are as many
    as its parameters. *)
Lemma init_state (ds : Dataset) (fit_function : fit_function_arg) :
  let ff := as_FitFunction fit_function in
  length (parameter_defaults ff) = ff_number_of_parameters ff ->
  __init__ ds fit_function
  = Ok {| dataset := ds; fit_function := ff;
          number_of_parameters := ff_number_of_parameters ff;
          parameter_names := ff_parameter_names ff;
          current_parameter_values := parameter_defaults ff;
          current_parameter_errors := map default_error (parameter_defaults ff);
          _fixed_parameters := repeat false (ff_number_of_parameters ff);
          number_of_fixed_parameters := 0;
          _constrained_parameters := repeat false (ff_number_of_parameters ff);
          constrained_parameters :=
            Some (repeat 0 (ff_number_of_parameters ff),
                  repeat 0 (ff_number_of_parameters ff));
          number_of_constrained_parameters := 0;
          current_cov_mat :=
            if has_errors_y ds then get_cov_mat_y ds
            else identity (get_size ds);
          minimizer :=
            Some [set_parameter_values (parameter_defaults ff);
                  set_parameter_errors None];
          logger :=
            (if isinstance_FitFunction fit_function then []
             else [info_silent_cast])
            ++ (if has_errors_y ds then [] else [info_no_y_errors]);
          out_stream := [] |}.
Proof.
  intros ff Hlen. apply Nat.eqb_eq in Hlen.
  unfold __init__, set_parameters, set_positional. fold ff.
  destruct (isinstance_FitFunction fit_function); simpl; rewrite Hlen;
    reflexivity.
Qed.

(** X8.  For a fit function whose defaults and names are as many as
    its parameters, [__init__] returns a fit in which every array has one
    entry per parameter: it starts at the defaults, with errors of a tenth
    of each default or [0.1] for a default of zero, nothing fixed and
    nothing constrained, the y covariance matrix of the dataset or the
    identity when the dataset has no y errors.  The minimizer is handed
    the defaults and then told to set its errors without being handed any.
    The silent cast is reported exactly when the fit function was not a
    [FitFunction], the missing y errors exactly when the dataset has none,
    and neither warning of [set_parameters] is logged. *)
Theorem init_gives_well_formed_fit (ds : Dataset)
    (fit_function : fit_function_arg) :
  let ff := as_FitFunction fit_function in
  length (parameter_defaults ff) = ff_number_of_parameters ff ->
  length (ff_parameter_names ff) = ff_number_of_parameters ff ->
  exists f,
    __init__ ds fit_function = Ok f
    /\ well_formed f = true
    /\ current_parameter_values f = parameter_defaults ff
    /\ current_parameter_errors f = map default_error (parameter_defaults ff)
    /\ number_of_fixed_parameters f = 0%Z
    /\ count_flags (_fixed_parameters f) = 0%Z
    /\ number_of_constrained_parameters f = 0%Z
    /\ count_flags (_constrained_parameters f) = 0%Z
    /\ no_active_constraint (constrained_parameters f) = true
    /\ ndf f = (Z.of_nat (get_size ds) - Z.of_nat (ff_number_of_parameters ff))%Z
    /\ current_cov_mat f
       = (if has_errors_y ds then get_cov_mat_y ds else identity (get_size ds))
    /\ (In info_silent_cast (logger f)
        <-> isinstance_FitFunction fit_function = false)
    /\ (In info_no_y_errors (logger f) <-> has_errors_y ds = false)
    /\ ~ In warn_starting_errors_not_given (logger f)
    /\ ~ In warn_minimizer_not_set (logger f)
    /\ minimizer f = Some [set_parameter_values (parameter_defaults ff);
                           set_parameter_errors None].
Proof.
  intros ff Hd Hn. rewrite (init_state ds fit_function Hd). fold ff.
  eexists. split; [reflexivity|]. cbn -[well_formed no_active_constraint In].
  split.
  { unfold well_formed. simpl.
    rewrite Hn, Hd, length_map, Hd, !repeat_length, Nat.eqb_refl. reflexivity. }
  split; [reflexivity|]. split; [reflexivity|]. split; [reflexivity|].
  split; [apply count_flags_repeat_false|]. split; [reflexivity|].
  split; [apply count_flags_repeat_false|].
  split; [apply no_active_constraint_zeros|].
  split; [unfold ndf; simpl; lia|]. split; [reflexivity|].
  destruct (isinstance_FitFunction fit_function), (has_errors_y ds); simpl;
    repeat split; try tauto; try discriminate;
    intros H; repeat destruct H as [H|H]; try discriminate H; try tauto.
Qed.

Lemma init_gives_well_formed_fit_witness :
  exists f,
    __init__ two_points (undecorated linear_2par) = Ok f
    /\ well_formed f = true
    /\ current_parameter_values f = [1; 0]
    /\ current_parameter_errors f = map default_error [1; 0]
    /\ number_of_fixed_parameters f = 0%Z
    /\ count_flags (_fixed_parameters f) = 0%Z
    /\ number_of_constrained_parameters f = 0%Z
    /\ count_flags (_constrained_parameters f) = 0%Z
    /\ no_active_constraint (constrained_parameters f) = true
    /\ ndf f = (Z.of_nat 2 - Z.of_nat 2)%Z
    /\ current_cov_mat f = [[1; 0]; [0; 4]]
    /\ (In info_silent_cast (logger f) <-> false = false)
    /\ (In info_no_y_errors (logger f) <-> true = false)
    /\ ~ In warn_starting_errors_not_given (logger f)
    /\ ~ In warn_minimizer_not_set (logger f)
    /\ minimizer f = Some [set_parameter_values [1; 0];
                           set_parameter_errors None].
Proof.
  apply (init_gives_well_formed_fit two_points (undecorated linear_2par));
    reflexivity.
Defined.

(** The records the constructor logs for a plain function and for a
    [FitFunction], on datasets with y errors. *)
Example init_log_records :
  match __init__ two_points_y_only (undecorated linear_2par),
        __init__ two_points linear_2par with
  | Ok f, Ok g => logger f = [info_silent_cast] /\ logger g = []
  | _, _ => False
  end.
Proof. split; reflexivity. Qed.



(** ** What [fix_parameters], [release_parameters] and
    [constrain_parameters] leave alone *)

Ltac bind_inv H :=
  match type of H with
  | Py.bind ?c _ = Ok _ =>
      let x := fresh "x" in
      let E := fresh "E" in
      destruct c as [x|] eqn:E; cbn [Py.bind] in H; [|discriminate H]
  end.

Lemma call_minuit_inv (c : minuit_call) (f f' : Fit) :
  call_minuit c f = Ok f' ->
  exists calls,
    minimizer f = Some calls
    /\ f' = with_minimizer (Some (calls ++ [c])) f.
Proof.
  unfold call_minuit. destruct (minimizer f) as [calls|]; intros H;
    [|discriminate H].
  inversion H. exists calls. split; reflexivity.
Qed.

(** The minimizer calls and log records of the arguments that resolve to
    [ids]. *)
Lemma fix_parameters_inv (ps : list lookup) (f f' : Fit) :
  fix_parameters ps f = Ok f' ->
  exists ids,
    length ids = length ps
    /\ minimizer f'
       = option_map (fun calls => calls ++ map fix_parameter ids) (minimizer f)
    /\ current_parameter_values f' = current_parameter_values f
    /\ current_parameter_errors f' = current_parameter_errors f
    /\ current_cov_mat f' = current_cov_mat f
    /\ constrained_parameters f' = constrained_parameters f
    /\ number_of_constrained_parameters f' = number_of_constrained_parameters f
    /\ out_stream f' = out_stream f.
Proof.
  revert f. induction ps as [|l ps IH]; intros f H.
  - inversion H; subst. exists []. simpl.
    destruct (minimizer f'); simpl; rewrite ?app_nil_r; repeat split.
  - cbn [fix_parameters] in H. bind_inv H.
    destruct x as [par_id|]; [|discriminate H].
    bind_inv H. apply call_minuit_inv in E0 as (calls & Hm & ->).
    bind_inv H. bind_inv H.
    apply IH in H as (ids & Hlen & Hmin & Hv & He & Hc & Hcp & Hn & Ho).
    exists (par_id :: ids). simpl in *. rewrite Hm. simpl.
    split; [lia|]. rewrite Hmin, <- app_assoc. repeat split; assumption.
Qed.


(** ** [build_fit] *)





(** ** Fixing and releasing *)

Lemma lookup_insert_true (flags : list bool) (k j : nat) :
  flags !! j = Some true -> <[k:=true]> flags !! j = Some true.
Proof.
  intros H. destruct (decide (k = j)) as [->|Hne].
  - apply list_lookup_insert_eq. eapply lookup_lt_Some. exact H.
  - rewrite list_lookup_insert_ne by exact Hne. exact H.
Qed.

Lemma getitem_lookup {A} (l : list A) (i : Z) (k : nat) (x : A) :
  norm_index (length l) i = Some k -> l !! k = Some x -> getitem l i = Ok x.
Proof. intros Hk Hx. unfold getitem. rewrite Hk, Hx. reflexivity. Qed.

(** X11.  In a fit as [__init__] leaves it, [fix_parameters] with
    references that name parameters succeeds; the minimizer is told to fix
    each resolved ID once, in the order of the arguments; afterwards every
    argument's parameter is flagged as fixed and no flag that was set is
    cleared; values, errors, covariance matrix and constraints are as
    before. *)
Theorem fix_parameters_fixes_every_argument (ps : list lookup) (f : Fit) :
  well_formed f = true ->
  forallb (resolves f) ps = true ->
  exists f' ids,
    fix_parameters ps f = Ok f'
    /\ Forall2 (fun l id => _find_parameter f l = Ok (Some id)) ps ids
    /\ minimizer f'
       = option_map (fun calls => calls ++ map fix_parameter ids) (minimizer f)
    /\ (forall id, In id ids -> getitem (_fixed_parameters f') id = Ok true)
    /\ (forall j, _fixed_parameters f !! j = Some true ->
                  _fixed_parameters f' !! j = Some true)
    /\ length (_fixed_parameters f') = length (_fixed_parameters f)
    /\ current_parameter_values f' = current_parameter_values f
    /\ current_parameter_errors f' = current_parameter_errors f
    /\ current_cov_mat f' = current_cov_mat f
    /\ constrained_parameters f' = constrained_parameters f.
Proof.
  revert f. induction ps as [|l ps IH]; intros f Hwf Hall.
  - exists f, []. simpl. split; [reflexivity|]. split; [constructor|].
    split; [destruct (minimizer f); simpl; rewrite ?app_nil_r; reflexivity|].
    split; [intros id []|]. repeat split; auto.
  - simpl in Hall. apply andb_prop in Hall as [Hl Hps].
    destruct (fix_parameters_step f l ps Hwf Hl)
      as (par_id & k & name & Hfind & Hk & _ & Hstep).
    destruct (fixed_state_facts par_id k name f Hwf)
      as (Hwf1 & Hsame & _ & _ & Hflags).
    set (f1 := fixed_state par_id k name f) in *.
    destruct (IH f1 Hwf1 (forallb_resolves_same _ _ _ Hsame Hps))
      as (f' & ids & Hrun & Hids & Hmin & Hset & Hmono & Hlen & Hv & He & Hc & Hcp).
    destruct (well_formed_inv f Hwf)
      as (calls & cvals & cerrs & Hm & _ & _ & _ & _ & Hfx & _).
    exists f', (par_id :: ids). rewrite Hstep. split; [exact Hrun|].
    split.
    { constructor; [exact Hfind|].
      eapply Forall2_impl; [exact Hids|]. intros l' id' H'.
      rewrite <- (find_parameter_same f f1 l' Hsame). exact H'. }
    split.
    { rewrite Hmin. unfold f1, fixed_state. simpl. rewrite Hm. simpl.
      rewrite <- app_assoc. reflexivity. }
    split.
    { intros id [<-|Hin]; [|apply Hset; exact Hin].
      apply (getitem_lookup _ _ k).
      - rewrite Hlen, Hflags, length_insert, Hfx. exact Hk.
      - apply Hmono. rewrite Hflags. apply list_lookup_insert_eq.
        rewrite Hfx. eapply norm_index_lt. exact Hk. }
    split.
    { intros j Hj. apply Hmono. rewrite Hflags.
      apply lookup_insert_true. exact Hj. }
    split; [rewrite Hlen, Hflags; apply length_insert|].
    repeat split; assumption.
Qed.

Lemma fix_parameters_fixes_every_argument_witness :
  exists f' ids,
    fix_parameters [by_name "y_intercept"; by_id 0; by_id (-1)] sample_fit
    = Ok f'
    /\ Forall2 (fun l id => _find_parameter sample_fit l = Ok (Some id))
               [by_name "y_intercept"; by_id 0; by_id (-1)] ids
    /\ minimizer f'
       = option_map (fun calls => calls ++ map fix_parameter ids)
                    (minimizer sample_fit)
    /\ (forall id, In id ids -> getitem (_fixed_parameters f') id = Ok true)
    /\ (forall j, _fixed_parameters sample_fit !! j = Some true ->
                  _fixed_parameters f' !! j = Some true)
    /\ length (_fixed_parameters f') = length (_fixed_parameters sample_fit)
    /\ current_parameter_values f' = current_parameter_values sample_fit
    /\ current_parameter_errors f' = current_parameter_errors sample_fit
    /\ current_cov_mat f' = current_cov_mat sample_fit
    /\ constrained_parameters f' = constrained_parameters sample_fit.
Proof.
  apply (fix_parameters_fixes_every_argument
           [by_name "y_intercept"; by_id 0; by_id (-1)] sample_fit);
    reflexivity.
Defined.

Lemma release_each_total (ps : list lookup) (f : Fit) :
  well_formed f = true ->
  forallb (resolves f) ps = true ->
  exists f',
    release_each ps f = Ok f'
    /\ well_formed f' = true
    /\ same_parameters f f'
    /\ number_of_fixed_parameters f'
       = (number_of_fixed_parameters f - Z.of_nat (length ps))%Z
    /\ number_of_constrained_parameters f'
       = number_of_constrained_parameters f.
Proof.
  revert f. induction ps as [|l ps IH]; intros f Hwf Hall.
  - exists f. simpl. repeat split; try assumption; lia.
  - simpl in Hall. apply andb_prop in Hall as [Hl Hps].
    destruct (release_each_step f l ps Hwf Hl)
      as (par_id & k & name & _ & _ & _ & Hstep).
    destruct (released_state_facts par_id k name f Hwf)
      as (Hwf' & Hsame & Hfix & _).
    destruct (IH (released_state par_id k name f) Hwf'
                 (forallb_resolves_same _ _ _ Hsame Hps))
      as (f' & Hrun & Hwf'' & Hsame' & Hfix' & Hcon').
    exists f'. rewrite Hstep. split; [exact Hrun|]. split; [exact Hwf''|].
    split; [exact (same_parameters_trans _ _ _ Hsame Hsame')|].
    split; [rewrite Hfix', Hfix; change (length (l :: ps)) with (S (length ps)); lia|].
    rewrite Hcon'. reflexivity.
Qed.

(** X12.  [release_parameters] with arguments does not ask whether a
    parameter is fixed: for references that name parameters it succeeds
    and lowers [number_of_fixed_parameters], and with it the degrees of
    freedom, by the number of its arguments, also below the count of the
    flags that are set. *)
Theorem release_parameters_counts_down (l : lookup) (ps : list lookup)
    (f : Fit) :
  well_formed f = true ->
  forallb (resolves f) (l :: ps) = true ->
  exists f',
    release_parameters (l :: ps) f = Ok f'
    /\ number_of_fixed_parameters f'
       = (number_of_fixed_parameters f - Z.of_nat (length (l :: ps)))%Z
    /\ ndf f' = (ndf f - Z.of_nat (length (l :: ps)))%Z
    /\ (number_of_fixed_parameters f = 0%Z ->
        (number_of_fixed_parameters f' < 0)%Z).
Proof.
  intros Hwf Hall.
  destruct (release_each_total (l :: ps) f Hwf Hall)
    as (f' & Hrun & _ & Hsame & Hfix & Hcon).
  exists f'. split; [exact Hrun|]. split; [exact Hfix|].
  split.
  - rewrite (ndf_same f f' Hsame), Hfix, Hcon. lia.
  - intros H0. rewrite Hfix, H0. simpl length. lia.
Qed.

Lemma release_parameters_counts_down_witness :
  exists f',
    release_parameters [by_id 0; by_name "slope"] sample_fit = Ok f'
    /\ number_of_fixed_parameters f'
       = (number_of_fixed_parameters sample_fit - Z.of_nat 2)%Z
    /\ ndf f' = (ndf sample_fit - Z.of_nat 2)%Z
    /\ (number_of_fixed_parameters sample_fit = 0%Z ->
        (number_of_fixed_parameters f' < 0)%Z).
Proof.
  apply (release_parameters_counts_down (by_id 0) [by_name "slope"] sample_fit);
    reflexivity.
Defined.

(** X13.  Fixing a parameter and releasing it by name or ID brings
    the count of fixed parameters and the degrees of freedom back; the
    parameter ends released, the flags are as before when that parameter
    was not fixed before, and the minimizer has been told to fix and then
    to release that ID. *)
Theorem fix_then_release_restores (f : Fit) (l : lookup) :
  well_formed f = true ->
  resolves f l = true ->
  exists f1 f2 par_id k,
    fix_parameters [l] f = Ok f1
    /\ release_parameters [l] f1 = Ok f2
    /\ _find_parameter f l = Ok (Some par_id)
    /\ norm_index (number_of_parameters f) par_id = Some k
    /\ number_of_fixed_parameters f2 = number_of_fixed_parameters f
    /\ ndf f2 = ndf f
    /\ _fixed_parameters f2 !! k = Some false
    /\ (_fixed_parameters f !! k = Some false ->
        _fixed_parameters f2 = _fixed_parameters f)
    /\ minimizer f2
       = option_map
           (fun calls => calls ++ [fix_parameter par_id; release_parameter par_id])
           (minimizer f).
Proof.
  intros Hwf Hl.
  destruct (fix_parameters_step f l [] Hwf Hl)
    as (par_id & k & name & Hfind & Hk & _ & Hstep).
  destruct (fixed_state_facts par_id k name f Hwf)
    as (Hwf1 & Hsame1 & Hfix1 & Hcon1 & Hflags1).
  set (f1 := fixed_state par_id k name f) in *.
  assert (Hl1 : resolves f1 l = true)
    by (rewrite (resolves_same f f1 l Hsame1); exact Hl).
  destruct (release_each_step f1 l [] Hwf1 Hl1)
    as (par_id' & k' & name' & Hfind' & Hk' & _ & Hstep').
  rewrite (find_parameter_same f f1 l Hsame1), Hfind in Hfind'.
  inversion Hfind'; subst par_id'.
  pose proof Hsame1 as (Hd & Hn & Hnames & Hvals).
  rewrite Hn, Hk in Hk'. inversion Hk'; subst k'.
  destruct (released_state_facts par_id k name' f1 Hwf1)
    as (Hwf2 & Hsame2 & Hfix2 & Hflags2).
  destruct (well_formed_inv f Hwf)
    as (calls & cvals & cerrs & Hm & _ & _ & _ & _ & Hfx & _).
  exists f1, (released_state par_id k name' f1), par_id, k.
  split; [exact Hstep|]. split; [exact Hstep'|].
  split; [exact Hfind|]. split; [exact Hk|].
  split; [rewrite Hfix2, Hfix1; lia|].
  split.
  { rewrite (ndf_same f1 _ Hsame2), Hfix2.
    rewrite (ndf_same f f1 Hsame1), Hfix1, Hcon1.
    unfold released_state. simpl. lia. }
  split.
  { rewrite Hflags2, Hflags1, list_insert_insert_eq.
    apply list_lookup_insert_eq. rewrite Hfx. eapply norm_index_lt. exact Hk. }
  split.
  { intros Hfalse. rewrite Hflags2, Hflags1, list_insert_insert_eq.
    apply list_insert_id. exact Hfalse. }
  unfold released_state, f1, fixed_state. simpl. rewrite Hm. simpl.
  rewrite <- app_assoc. reflexivity.
Qed.

Lemma fix_then_release_restores_witness :
  exists f1 f2 par_id k,
    fix_parameters [by_name "slope"] sample_fit = Ok f1
    /\ release_parameters [by_name "slope"] f1 = Ok f2
    /\ _find_parameter sample_fit (by_name "slope") = Ok (Some par_id)
    /\ norm_index (number_of_parameters sample_fit) par_id = Some k
    /\ number_of_fixed_parameters f2 = number_of_fixed_parameters sample_fit
    /\ ndf f2 = ndf sample_fit
    /\ _fixed_parameters f2 !! k = Some false
    /\ (_fixed_parameters sample_fit !! k = Some false ->
        _fixed_parameters f2 = _fixed_parameters sample_fit)
    /\ minimizer f2
       = option_map
           (fun calls => calls ++ [fix_parameter par_id; release_parameter par_id])
           (minimizer sample_fit).
Proof.
  apply (fix_then_release_restores sample_fit (by_name "slope")); reflexivity.
Defined.

(** ** Releasing every parameter *)

Lemma release_all_trace (ids : list nat) (f : Fit) (calls : list minuit_call) :
  minimizer f = Some calls ->
  release_all ids f
  = Ok (with_minimizer
          (Some (calls ++ map (fun i => release_parameter (Z.of_nat i)) ids)) f).
Proof.
  revert f calls. induction ids as [|i ids IH]; intros f calls Hm; simpl.
  - rewrite app_nil_r, <- Hm. destruct f; reflexivity.
  - unfold call_minuit. rewrite Hm. cbn [Py.bind].
    rewrite (IH _ (calls ++ [release_parameter (Z.of_nat i)])) by reflexivity.
    rewrite <- app_assoc. destruct f; reflexivity.
Qed.

(** X14.  [release_parameters()] without arguments asks the minimizer
    to release the IDs [0 .. number_of_parameters - 1], in this order,
    logs one message and changes nothing else of the fit; in a fit without
    minimizer that has a parameter it raises [AttributeError]. *)
Theorem release_parameters_no_args_releases_all_ids (f : Fit) :
  match minimizer f with
  | Some calls =>
      exists f',
        release_parameters [] f = Ok f'
        /\ minimizer f'
           = Some (calls ++ map (fun i => release_parameter (Z.of_nat i))
                                (seq 0 (number_of_parameters f)))
        /\ logger f' = logger f ++ [info_released_all]
        /\ same_bookkeeping f f'
        /\ current_parameter_values f' = current_parameter_values f
        /\ current_parameter_errors f' = current_parameter_errors f
        /\ current_cov_mat f' = current_cov_mat f
  | None =>
      number_of_parameters f <> 0%nat ->
      release_parameters [] f = Raise AttributeError
  end.
Proof.
  destruct (minimizer f) as [calls|] eqn:Hm.
  - eexists. unfold release_parameters.
    rewrite (release_all_trace _ f calls Hm). cbn [Py.bind].
    split; [reflexivity|]. split; [reflexivity|]. split; [reflexivity|].
    split; [repeat split|]. repeat split.
  - intros Hn. unfold release_parameters.
    destruct (number_of_parameters f) as [|n]; [contradiction|].
    simpl. unfold call_minuit. rewrite Hm. reflexivity.
Qed.

Lemma release_parameters_no_args_releases_all_ids_witness :
  exists f',
    release_parameters [] sample_fit = Ok f'
    /\ minimizer f'
       = Some ([set_parameter_values [1; 0]; set_parameter_errors None]
               ++ map (fun i => release_parameter (Z.of_nat i))
                      (seq 0 (number_of_parameters sample_fit)))
    /\ logger f' = logger sample_fit ++ [info_released_all]
    /\ same_bookkeeping sample_fit f'
    /\ current_parameter_values f' = current_parameter_values sample_fit
    /\ current_parameter_errors f' = current_parameter_errors sample_fit
    /\ current_cov_mat f' = current_cov_mat sample_fit.
Proof.
  exact (release_parameters_no_args_releases_all_ids sample_fit).
Defined.

(** ** Constraints and the objective *)

Lemma Qsum_single_update (g h : nat -> Q) (l : list nat) (k : nat) (d : Q) :
  NoDup l -> In k l ->
  g k == h k + d ->
  (forall j, In j l -> j <> k -> g j == h j) ->
  Qsum (map g l) == Qsum (map h l) + d.
Proof.
  induction l as [|a l IH]; intros Hnd Hin Hk Hrest; [destruct Hin|].
  apply NoDup_cons in Hnd as [Ha Hnd].
  change (g a + Qsum (map g l) == h a + Qsum (map h l) + d).
  destruct (decide (a = k)) as [->|Hne].
  - rewrite Hk.
    assert (E : Qsum (map g l) == Qsum (map h l)).
    { apply Qsum_ext. intros j Hj. apply Hrest; [right; exact Hj|].
      intros ->. apply Ha. apply list_elem_of_In. exact Hj. }
    rewrite E. ring.
  - destruct Hin as [Hin|Hin]; [contradiction|].
    assert (Ea : g a == h a) by (apply Hrest; [left; reflexivity|exact Hne]).
    assert (El : Qsum (map g l) == Qsum (map h l) + d).
    { apply IH; try assumption. intros j Hj. apply Hrest. right. exact Hj. }
    rewrite Ea, El. ring.
Qed.

Lemma nth_insert_eq (l : list Q) (k : nat) (x : Q) :
  (k < length l)%nat -> nth k (<[k:=x]> l) 0 = x.
Proof.
  intros Hk. apply nth_lookup_Some. apply list_lookup_insert_eq. exact Hk.
Qed.

Lemma nth_insert_ne (l : list Q) (k j : nat) (x : Q) :
  k <> j -> nth j (<[k:=x]> l) 0 = nth j l 0.
Proof.
  intros Hne. rewrite !nth_lookup. rewrite list_lookup_insert_ne by exact Hne.
  reflexivity.
Qed.

Lemma chi2_constraints_lower_bound (cerrs : list Q) (i : nat)
    (p cvals : list Q) (acc v : Q) :
  chi2_constraints i cerrs p cvals acc = Ok v -> acc <= v.
Proof.
  revert i acc. induction cerrs as [|s cerrs IH]; intros i acc H; simpl in H.
  - inversion H; subst. apply Qle_refl.
  - destruct (truthy s).
    + destruct (getitem p (Z.of_nat i)) as [x|e]; [|discriminate H].
      destruct (getitem cvals (Z.of_nat i)) as [c|e]; [|discriminate H].
      cbn [Py.bind] in H. apply IH in H.
      eapply Qle_trans; [|exact H].
      rewrite <- (Qplus_0_r acc) at 1. apply Qplus_le_r.
      remember ((x - c) / s) as t eqn:Ht. clear Ht.
      destruct (Qlt_le_dec t 0) as [Hneg|Hpos].
      * assert (E : t * t == (- t) * (- t)) by ring.
        rewrite E. apply Qmult_le_0_compat; lra.
      * apply Qmult_le_0_compat; exact Hpos.
    + apply IH in H. exact H.
Qed.

(** X15.  The penalties of the constraints are squares: whenever
    [chi2] with constraints returns, [chi2] without constraints returns
    for the same data and parameter values, and its value is not above
    the constrained one. *)
Theorem constraints_never_lower_chi2 (mat_inv : matrix -> result matrix)
    (fn : Q -> list Q -> Q) (xdata ydata : vector) (cov_mat : matrix)
    (p cvals cerrs : list Q) (v : Q) :
  chi2 mat_inv fn xdata ydata cov_mat p (Some (cvals, cerrs)) = Ok v ->
  exists v0,
    chi2 mat_inv fn xdata ydata cov_mat p None = Ok v0 /\ v0 <= v.
Proof.
  unfold chi2. intros H.
  destruct (np_sub ydata (map (fun x => fn x p) xdata)) as [r|e];
    [|discriminate H].
  cbn [Py.bind] in *.
  destruct (mat_inv cov_mat) as [Ci|e]; [|discriminate H].
  cbn [Py.bind] in *.
  destruct (quadratic_form r Ci) as [q|e]; [|discriminate H].
  cbn [Py.bind] in *.
  exists q. split; [reflexivity|].
  eapply chi2_constraints_lower_bound. exact H.
Qed.

Lemma constraints_never_lower_chi2_witness :
  exists v0,
    chi2 mat_inv_gauss (func linear_2par) [1; 2] [3; 5] (identity 2) [1; 1]
         None = Ok v0
    /\ v0 <= 6.
Proof.
  apply (constraints_never_lower_chi2 mat_inv_gauss (func linear_2par)
           [1; 2] [3; 5] (identity 2) [1; 1] [2; 0] [1; 0] 6).
  vm_compute. reflexivity.
Defined.

(** X16.  In a fit as [__init__] leaves it, constraining one
    parameter to [c] with sigma [s], both numbers that single precision
    holds exactly, replaces the penalty of that parameter in the objective
    and nothing else: for parameter values [p], one per parameter, on which
    [call_external_fcn] returned [v] before, it returns afterwards [v] less
    the old penalty of that parameter plus [((p_k - c) / s)^2], or plus
    nothing when [s] is zero.  (The arrays of targets and sigmas are of
    [np.float32]: other numbers are rounded when they are stored, and the
    penalty is that of the rounded numbers.) *)
Theorem constrain_replaces_penalty (mat_inv : matrix -> result matrix)
    (f : Fit) (l : lookup) (c s : Q) (p : list Q) (v : Q) :
  well_formed f = true ->
  resolves f l = true ->
  float32_exact c ->
  float32_exact s ->
  length p = number_of_parameters f ->
  call_external_fcn mat_inv f p = Ok v ->
  exists f' par_id k cvals cerrs v',
    constrain_parameters [l] [c] [s] f = Ok f'
    /\ _find_parameter f l = Ok (Some par_id)
    /\ norm_index (number_of_parameters f) par_id = Some k
    /\ constrained_parameters f = Some (cvals, cerrs)
    /\ call_external_fcn mat_inv f' p = Ok v'
    /\ v' == v - penalty_term p cvals cerrs k
             + (if Qeq_bool s 0 then 0 else ((nth k p 0 - c) / s) ^ 2).
Proof.
  intros Hwf Hl _ _ Hp Hv. unfold constrain_parameters.
  destruct (constrain_from_step f 0 l [] [c] [s] Hwf Hl)
    as (par_id & k & name & Hfind & Hk & _ & Hstep); [simpl; lia..|].
  simpl nth in Hstep.
  destruct (well_formed_inv f Hwf)
    as (calls & cvals & cerrs & _ & Hcp & _ & _ & _ & _ & _ & Hcv & Hce).
  pose proof (norm_index_lt _ _ _ Hk) as Hlt.
  unfold call_external_fcn, chi2 in Hv. rewrite Hcp in Hv.
  destruct (np_sub (get_data_y (dataset f))
              (map (fun x => func (fit_function f) x p)
                   (get_data_x (dataset f)))) as [r|e] eqn:Hr;
    [|discriminate Hv].
  cbn [Py.bind] in Hv.
  destruct (mat_inv (current_cov_mat f)) as [Ci|e] eqn:HCi; [|discriminate Hv].
  cbn [Py.bind] in Hv.
  destruct (quadratic_form r Ci) as [q|e] eqn:Hq; [|discriminate Hv].
  cbn [Py.bind] in Hv.
  destruct (chi2_constraints_sum cerrs 0 p cvals q) as (w & Hw & Hwsum);
    [simpl; lia..|].
  rewrite Hw in Hv. inversion Hv; subst w. clear Hv.
  destruct (chi2_constraints_sum (<[k:=s]> cerrs) 0 p (<[k:=c]> cvals) q)
    as (v' & Hv' & Hv'sum); [rewrite !length_insert; simpl; lia..|].
  exists (constrained_state par_id k name c s f), par_id, k, cvals, cerrs, v'.
  split; [exact Hstep|]. split; [exact Hfind|]. split; [exact Hk|].
  split; [exact Hcp|].
  split.
  { unfold call_external_fcn, chi2, constrained_state.
    cbn [dataset fit_function current_cov_mat constrained_parameters
         log with_constrained].
    rewrite Hr. cbn [Py.bind]. rewrite HCi. cbn [Py.bind].
    rewrite Hq. cbn [Py.bind]. rewrite Hcp. exact Hv'. }
  rewrite Hv'sum, Hwsum, length_insert.
  rewrite (Qsum_single_update _
             (fun j => if Qeq_bool (nth j cerrs 0) 0 then 0
                       else ((nth (0 + j) p 0 - nth (0 + j) cvals 0)
                             / nth j cerrs 0) ^ 2)
             (seq 0 (length cerrs)) k
             (- penalty_term p cvals cerrs k
              + (if Qeq_bool s 0 then 0 else ((nth k p 0 - c) / s) ^ 2))).
  - ring.
  - apply NoDup_ListNoDup, seq_NoDup.
  - apply in_seq. lia.
  - cbn beta. rewrite !nth_insert_eq by lia. unfold penalty_term.
    change (0 + k)%nat with k. ring.
  - intros j _ Hne. cbn beta.
    rewrite !nth_insert_ne by (intros E; apply Hne; symmetry; exact E).
    reflexivity.
Qed.

Lemma constrain_replaces_penalty_witness :
  exists f' par_id k cvals cerrs v',
    constrain_parameters [by_name "slope"] [2] [1 # 2] sample_fit = Ok f'
    /\ _find_parameter sample_fit (by_name "slope") = Ok (Some par_id)
    /\ norm_index (number_of_parameters sample_fit) par_id = Some k
    /\ constrained_parameters sample_fit = Some (cvals, cerrs)
    /\ call_external_fcn mat_inv_gauss f' [3; 1] = Ok v'
    /\ v' == (match call_external_fcn mat_inv_gauss sample_fit [3; 1] with
              | Ok v => v
              | Raise _ => 0
              end)
             - penalty_term [3; 1] cvals cerrs k
             + (if Qeq_bool (1 # 2) 0 then 0
                else ((nth k [3; 1] 0 - 2) / (1 # 2)) ^ 2).
Proof.
  apply (constrain_replaces_penalty mat_inv_gauss sample_fit (by_name "slope")
           2 (1 # 2) [3; 1]).
  - reflexivity.
  - reflexivity.
  - exists 1%Z, 1%Z. split; [reflexivity|]. split; [lia|reflexivity].
  - exists 1%Z, (-1)%Z. split; [reflexivity|]. split; [lia|reflexivity].
  - reflexivity.
  - vm_compute. reflexivity.
Defined.

(** ** Too few targets or sigmas *)

Lemma getitem_past_end {A} (l : list A) (i : nat) :
  (length l <= i)%nat -> getitem l (Z.of_nat i) = Raise IndexError.
Proof.
  intros H. unfold getitem. rewrite norm_index_out_of_range; [reflexivity|].
  left. lia.
Qed.

Lemma constrain_from_runs_out (ps : list lookup) (i : nat)
    (parvals parerrs : list Q) (f : Fit) :
  well_formed f = true ->
  forallb (resolves f) ps = true ->
  (i <= length parvals)%nat -> (i <= length parerrs)%nat ->
  (length parvals < i + length ps \/ length parerrs < i + length ps)%nat ->
  constrain_from i ps parvals parerrs f = Raise IndexError.
Proof.
  revert i f. induction ps as [|l ps IH]; intros i f Hwf Hall Hiv Hie Hshort.
  - simpl in Hshort. lia.
  - simpl in Hall. apply andb_prop in Hall as [Hl Hps].
    change (length (l :: ps)) with (S (length ps)) in Hshort.
    destruct (resolves_slot f l Hwf Hl) as (par_id & k & Hfind & Hk).
    destruct (well_formed_inv f Hwf)
      as (calls & cvals & cerrs & _ & Hcp & _ & _ & _ & _ & _ & Hcv & Hce).
    destruct (Nat.lt_ge_cases i (length parvals)) as [Hv|Hv].
    + destruct (Nat.lt_ge_cases i (length parerrs)) as [He|He].
      * destruct (constrain_from_step f i l ps parvals parerrs Hwf Hl Hv He)
          as (par_id' & k' & name & _ & _ & _ & Hstep).
        rewrite Hstep.
        destruct (constrained_state_facts par_id' k' name (nth i parvals 0)
                    (nth i parerrs 0) f Hwf) as (Hwf' & Hsame & _).
        apply IH; [exact Hwf'| |lia..].
        exact (forallb_resolves_same _ _ _ Hsame Hps).
      * simpl. rewrite Hfind. cbn [Py.bind].
        rewrite (getitem_nth parvals i Hv). cbn [Py.bind]. rewrite Hcp.
        rewrite (setitem_ok cvals par_id k) by (rewrite Hcv; exact Hk).
        cbn [Py.bind]. rewrite (getitem_past_end parerrs i He). reflexivity.
    + simpl. rewrite Hfind. cbn [Py.bind].
      rewrite (getitem_past_end parvals i Hv). reflexivity.
Qed.

(** X17.  In a fit as [__init__] leaves it, [constrain_parameters] with
    references that name parameters and with fewer targets or fewer sigmas
    than references raises [IndexError]. *)
Theorem constrain_parameters_needs_a_pair_per_parameter (ps : list lookup)
    (parvals parerrs : list Q) (f : Fit) :
  well_formed f = true ->
  forallb (resolves f) ps = true ->
  (length parvals < length ps \/ length parerrs < length ps)%nat ->
  constrain_parameters ps parvals parerrs f = Raise IndexError.
Proof.
  intros Hwf Hall Hshort. unfold constrain_parameters.
  apply constrain_from_runs_out;
    [exact Hwf|exact Hall|lia|lia|simpl; exact Hshort].
Qed.

Lemma constrain_parameters_needs_a_pair_per_parameter_witness :
  constrain_parameters [by_name "slope"; by_id 0] [1; 2] [1 # 10] sample_fit
  = Raise IndexError.
Proof.
  apply (constrain_parameters_needs_a_pair_per_parameter
           [by_name "slope"; by_id 0] [1; 2] [1 # 10] sample_fit);
    [reflexivity|reflexivity|right; simpl; lia].
Defined.

(** ** Rounded parameters *)

Lemma round_half_away_ge_half (q : Q) :
  1 # 2 <= q -> (1 <= round_half_away q)%Z.
Proof.
  intros H. unfold round_half_away.
  assert (H0 : Qle_bool 0 q = true) by (apply Qle_bool_iff; lra).
  rewrite H0. apply (Qfloor_resp_le 1 (q + (1 # 2))). lra.
Qed.

Section RoundedGetters.

Variable math_log : Q -> Q.
Variable float_div : Q -> Q -> Q.

(** Rounding to the digits of a positive error moves neither number by
    more than half the error that is shown, as long as the decade
    computed is within reach of the error. *)
Lemma round_to_significance_bounds (value error : Q) (N : Z) :
  0 < error -> (1 <= N)%Z -> ~ math_log 10 == 0 ->
  decade_in_reach math_log float_div error ->
  exists value' error',
    round_to_significance math_log float_div value error N
    = Ok (value', error')
    /\ 0 < error'
    /\ Qabs (value' - value) <= (1 # 2) * error'
    /\ Qabs (error' - error) <= (1 # 2) * error'.
Proof.
  intros Hpos HN H10 Hreach. unfold decade_in_reach in Hreach.
  set (d := computed_decade math_log float_div error) in *.
  set (sd := (- d + N - 1)%Z).
  exists (py_round value sd), (py_round error sd).
  split; [apply round_to_significance_positive; assumption|].
  pose proof (ten_pos sd) as Hten. pose proof (ten_pos (- sd)) as Hunit.
  pose proof (ten_pos d) as Hd.
  assert (E1 : 10 ^ d * 10 ^ sd == inject_Z (10 ^ (N - 1))).
  { rewrite <- Qpower_plus by discriminate.
    rewrite Zpower_Qpower by lia.
    replace (d + sd)%Z with (N - 1)%Z by (unfold sd; lia). reflexivity. }
  assert (H1 : (1 <= 10 ^ (N - 1))%Z).
  { pose proof (Z.pow_pos_nonneg 10 (N - 1)). lia. }
  assert (Hone : 1 <= 10 ^ d * 10 ^ sd).
  { rewrite E1. change 1 with (inject_Z 1). rewrite <- Zle_Qle. exact H1. }
  assert (Hhalf : 1 # 2 <= error * 10 ^ sd).
  { assert (Hm : 10 ^ d * 10 ^ sd <= 2 * error * 10 ^ sd)
      by (apply Qmult_le_compat_r; [exact Hreach|lra]).
    remember (10 ^ d * 10 ^ sd) as a eqn:Ha. clear Ha.
    remember (error * 10 ^ sd) as b eqn:Hb.
    assert (Hm' : a <= 2 * b) by (rewrite Hb; lra).
    clear Hb. lra. }
  pose proof (round_half_away_ge_half _ Hhalf) as Hme.
  assert (Hbig : 10 ^ (- sd) <= py_round error sd).
  { rewrite (py_round_multiple error sd).
    rewrite <- (Qmult_1_l (10 ^ (- sd))) at 1.
    apply Qmult_le_compat_r; [|lra].
    change 1 with (inject_Z 1). rewrite <- Zle_Qle. exact Hme. }
  pose proof (py_round_close value sd) as Hv.
  pose proof (py_round_close error sd) as He.
  remember (10 ^ (- sd)) as u eqn:Hu. clear Hu.
  remember (py_round error sd) as e' eqn:He'. clear He'.
  split; [lra|]. split.
  - eapply Qle_trans; [exact Hv|]. lra.
  - eapply Qle_trans; [exact He|]. lra.
Qed.

(** X18.  For parameter triples with no negative error, at least one
    significant place, and a decade computed within reach of each
    positive error, [get_parameter_values] and [get_parameter_errors]
    with [rounding=True] return one number per parameter; a parameter
    with error zero keeps its value as it is, and for a parameter with a
    positive error the error returned is positive and neither the value
    nor the error has moved by more than half the error returned. *)
Theorem rounded_getters_stay_within_half_error (N : Z)
    (parameter_info : list (string * Q * Q)) :
  (1 <= N)%Z ->
  ~ math_log 10 == 0 ->
  Forall (fun info =>
            0 <= snd info
            /\ (0 < snd info -> decade_in_reach math_log float_div (snd info)))
         parameter_info ->
  exists values errors,
    get_parameter_values math_log float_div N parameter_info true = Ok values
    /\ get_parameter_errors math_log float_div N parameter_info true
       = Ok errors
    /\ length values = length parameter_info
    /\ length errors = length parameter_info
    /\ forall i name value error,
         parameter_info !! i = Some (name, value, error) ->
         exists value' error',
           values !! i = Some value'
           /\ errors !! i = Some error'
           /\ (error == 0 -> value' = value /\ error' = error)
           /\ (0 < error ->
               0 < error'
               /\ Qabs (value' - value) <= (1 # 2) * error'
               /\ Qabs (error' - error) <= (1 # 2) * error').
Proof.
  intros HN H10 Hall.
  induction Hall as [|[[name value] error] rest [Herr Hreach] _ IH].
  - exists [], []. repeat split. intros i ? ? ? H. discriminate H.
  - destruct IH as (vs & es & Hvs & Hes & Hlv & Hle & Hrest).
    simpl in Herr, Hreach.
    assert (Hone : exists value' error',
               round_to_significance math_log float_div value error N
               = Ok (value', error')
               /\ (error == 0 -> value' = value /\ error' = error)
               /\ (0 < error ->
                   0 < error'
                   /\ Qabs (value' - value) <= (1 # 2) * error'
                   /\ Qabs (error' - error) <= (1 # 2) * error')).
    { destruct (Qlt_le_dec 0 error) as [Hpos|Hle0].
      - destruct (round_to_significance_bounds value error N Hpos HN H10
                    (Hreach Hpos)) as (v' & e' & Hr & Hb).
        exists v', e'. split; [exact Hr|]. split; [intros E; lra|].
        intros _. exact Hb.
      - assert (E : error == 0) by lra.
        exists value, error. split.
        + unfold round_to_significance. rewrite (truthy_zero error E).
          reflexivity.
        + split; [intros _; split; reflexivity|intros Hpos; lra]. }
    destruct Hone as (v' & e' & Hr & Hzero & Hpos).
    exists (v' :: vs), (e' :: es).
    split; [simpl; rewrite Hr; cbn [Py.bind]; rewrite Hvs; reflexivity|].
    split; [simpl; rewrite Hr; cbn [Py.bind]; rewrite Hes; reflexivity|].
    split; [simpl; congruence|]. split; [simpl; congruence|].
    intros [|i] name0 value0 error0 Hi.
    + inversion Hi; subst. exists v', e'.
      split; [reflexivity|]. split; [reflexivity|]. split; assumption.
    + apply (Hrest i name0 value0 error0 Hi).
Qed.

End RoundedGetters.

Lemma rounded_getters_stay_within_half_error_witness :
  exists values errors,
    get_parameter_values log_table div_table 1
      [("a"%string, 1234.5678, 0.0236); ("b"%string, 1234, 1000);
       ("c"%string, 7, 0)] true = Ok values
    /\ get_parameter_errors log_table div_table 1
         [("a"%string, 1234.5678, 0.0236); ("b"%string, 1234, 1000);
          ("c"%string, 7, 0)] true = Ok errors
    /\ length values = 3%nat
    /\ length errors = 3%nat
    /\ forall i name value error,
         [("a"%string, 1234.5678, 0.0236); ("b"%string, 1234, 1000);
          ("c"%string, 7, 0)] !! i
         = Some (name, value, error) ->
         exists value' error',
           values !! i = Some value'
           /\ errors !! i = Some error'
           /\ (error == 0 -> value' = value /\ error' = error)
           /\ (0 < error ->
               0 < error'
               /\ Qabs (value' - value) <= (1 # 2) * error'
               /\ Qabs (error' - error) <= (1 # 2) * error').
Proof.
  apply (rounded_getters_stay_within_half_error log_table div_table 1
           [("a"%string, 1234.5678, 0.0236); ("b"%string, 1234, 1000);
            ("c"%string, 7, 0)]).
  - lia.
  - intros H. vm_compute in H. discriminate H.
  - repeat constructor;
      try (vm_compute; discriminate);
      intros H; first [vm_compute in H; discriminate H
                      | vm_compute; discriminate].
Defined.

(** The getters on the sample [("b", 1234, 1000)], where the decade
    computed is one short: value and error come back as [1200] and
    [1000]. *)
Example rounded_getters_at_power_of_ten :
  get_parameter_values log_table div_table 1 [("b"%string, 1234, 1000)] true
  = Ok [1200]
  /\ get_parameter_errors log_table div_table 1 [("b"%string, 1234, 1000)] true
     = Ok [1000].
Proof. split; reflexivity. Qed.

(** ** The workflow of [do_fit] *)

Lemma ndf_same_setup (f f' : Fit) : same_setup f f' -> ndf f' = ndf f.
Proof.
  intros (Hd & _ & Hn & _ & _ & Hfx & _ & Hc). unfold ndf.
  rewrite Hd, Hn, Hfx, Hc. reflexivity.
Qed.

Lemma pass_minimize_later (verbose : bool) (i k : nat) :
  map (pass_minimize verbose) (seq (S i) k)
  = repeat (minimize true (log_print_level_of true verbose)) k.
Proof.
  revert i. induction k as [|k IH]; intros i; [reflexivity|].
  simpl. rewrite IH. reflexivity.
Qed.

Lemma active_constraints_total (cerrs : list Q) (i : nat) (f : Fit)
    (cvals : list Q) :
  (i + length cerrs <= length (parameter_names f))%nat ->
  (i + length cerrs <= length cvals)%nat ->
  exists active, active_constraints i cerrs f cvals = Ok active.
Proof.
  revert i. induction cerrs as [|s cerrs IH]; intros i Hn Hc.
  - eexists. reflexivity.
  - change (length (s :: cerrs)) with (S (length cerrs)) in *.
    destruct (IH (S i)) as [more Hmore]; [lia|lia|].
    simpl. destruct (truthy s).
    + destruct (getitem_ok (parameter_names f) (Z.of_nat i) i) as [name [Hname _]];
        [apply norm_index_nonneg; lia|].
      destruct (getitem_ok cvals (Z.of_nat i) i) as [c [Hcv _]];
        [apply norm_index_nonneg; lia|].
      rewrite Hname, Hcv. cbn [Py.bind]. rewrite Hmore. eexists. reflexivity.
    + exists more. exact Hmore.
Qed.

Lemma print_header_ok (f : Fit) :
  well_formed f = true ->
  exists header,
    print_header f
    = Ok (foldl (fun g r => print r g)
                (print out_fit_function (print out_dataset f)) header)
    /\ (number_of_constrained_parameters f = 0%Z -> header = [])
    /\ (length header <= 1)%nat
    /\ (number_of_constrained_parameters f <> 0%Z ->
        exists active, header = [out_constraints active]).
Proof.
  intros Hwf.
  destruct (well_formed_inv f Hwf)
    as (calls & cvals & cerrs & _ & Hcp & Hn & _ & _ & _ & _ & Hcv & Hce).
  unfold print_header. cbv zeta.
  set (g := print out_fit_function (print out_dataset f)).
  change (number_of_constrained_parameters g)
    with (number_of_constrained_parameters f).
  change (constrained_parameters g) with (constrained_parameters f).
  destruct (number_of_constrained_parameters f =? 0)%Z eqn:E.
  - exists []. split; [reflexivity|]. split; [reflexivity|].
    split; [simpl; lia|]. intros Hne. apply Z.eqb_eq in E. contradiction.
  - rewrite Hcp.
    destruct (active_constraints_total cerrs 0 g cvals)
      as [active Hact]; [simpl; lia..|].
    rewrite Hact. cbn [Py.bind].
    exists [out_constraints active]. split; [reflexivity|].
    split; [intros H0; rewrite H0 in E; discriminate E|].
    split; [simpl; lia|]. intros _. exists active. reflexivity.
Qed.

Section WorkflowFrame.

Variable minuit_result : Fit -> list Q * list Q.
Variable np_sqrt : Q -> Q.
Variable derive_by_x : FitFunction -> vector -> vector -> list Q -> vector.

Hypothesis derive_by_x_length :
  forall ff x_0 precision_list parameter_list,
    length precision_list = length x_0 ->
    length (derive_by_x ff x_0 precision_list parameter_list) = length x_0.

Lemma call_minimizer_inv (final_fit verbose : bool) (f f' : Fit) :
  call_minimizer minuit_result final_fit verbose f = Ok f' ->
  exists calls,
    minimizer f = Some calls
    /\ minimizer f'
       = Some (calls ++ [minimize final_fit
                                  (log_print_level_of final_fit verbose)])
    /\ same_bookkeeping f f'
    /\ current_cov_mat f' = current_cov_mat f
    /\ out_stream f' = out_stream f
    /\ logger f' = logger f ++ [debug_calling_minimizer; debug_retrieving].
Proof.
  unfold call_minimizer, call_minuit. cbn [minimizer log].
  destruct (minimizer f) as [calls|]; cbn [Py.bind]; intros H;
    [|discriminate H].
  inversion H; subst. exists calls. split; [reflexivity|]. simpl.
  split; [destruct final_fit, verbose; reflexivity|].
  split; [repeat split|]. split; [reflexivity|]. split; [reflexivity|].
  rewrite <- app_assoc. reflexivity.
Qed.

Lemma project_x_covariance_matrix_inv (f f' : Fit) :
  project_x_covariance_matrix np_sqrt derive_by_x f = Ok f' ->
  same_bookkeeping f f'
  /\ minimizer f' = minimizer f
  /\ out_stream f' = out_stream f.
Proof.
  unfold project_x_covariance_matrix. intros H. cbv zeta in H.
  bind_inv H. bind_inv H. bind_inv H. inversion H; subst.
  destruct (snd x); simpl; repeat split.
Qed.

Lemma x_iteration_inv (verbose : bool) (i : nat) (f f' : Fit) (met : bool) :
  x_iteration minuit_result np_sqrt derive_by_x verbose (Z.of_nat i) f
  = Ok (f', met) ->
  exists calls,
    minimizer f = Some calls
    /\ minimizer f' = Some (calls ++ [pass_minimize verbose i])
    /\ same_bookkeeping f f'
    /\ out_stream f' = out_stream f.
Proof.
  unfold x_iteration. intros H. cbv zeta in H. bind_inv H.
  apply project_x_covariance_matrix_inv in E as (Hsame & Hm & Ho).
  replace (if (Z.of_nat i =? 0)%Z
           then call_minimizer minuit_result false verbose
                  (log (debug_x_iteration (Z.of_nat i)) x)
           else call_minimizer minuit_result true verbose
                  (log (debug_x_iteration (Z.of_nat i)) x))
    with (call_minimizer minuit_result (negb (Z.of_nat i =? 0)%Z) verbose
            (log (debug_x_iteration (Z.of_nat i)) x)) in H
    by (destruct (Z.of_nat i =? 0)%Z; reflexivity).
  bind_inv H.
  apply call_minimizer_inv in E as (calls & Hm1 & Hm2 & Hsame2 & _ & Ho2 & _).
  bind_inv H. inversion H; subst.
  exists calls. simpl in Hm1. rewrite Hm in Hm1.
  split; [exact Hm1|]. split; [exact Hm2|].
  split.
  - apply (same_bookkeeping_trans f x f'); [exact Hsame|].
    exact Hsame2.
  - rewrite Ho2. exact Ho.
Qed.

Lemma x_loop_inv (verbose : bool) (fuel : nat) :
  forall (i : nat) (f f' : Fit) (calls : list minuit_call),
    x_loop minuit_result np_sqrt derive_by_x fuel verbose (Z.of_nat i) f
    = Some (Ok f') ->
    minimizer f = Some calls ->
    exists k,
      ((i < 10)%nat -> (1 <= k)%nat)
      /\ ((i <= 10)%nat -> (i + k <= 10)%nat)
      /\ minimizer f'
         = Some (calls ++ map (pass_minimize verbose) (seq i k))
      /\ same_bookkeeping f f'
      /\ out_stream f' = out_stream f.
Proof.
  induction fuel as [|fuel IH]; intros i f f' calls H Hm; [discriminate H|].
  cbn [x_loop] in H.
  destruct (Z.of_nat i <? max_x_iterations)%Z eqn:Hi.
  - apply Z.ltb_lt in Hi. unfold max_x_iterations in Hi.
    destruct (x_iteration minuit_result np_sqrt derive_by_x verbose
                (Z.of_nat i) f) as [[f1 met]|e] eqn:Hit; [|discriminate H].
    apply x_iteration_inv in Hit as (calls' & Hm' & Hm1 & Hsame1 & Ho1).
    rewrite Hm in Hm'. inversion Hm'; subst calls'.
    destruct met.
    + inversion H; subst. exists 1%nat.
      split; [lia|]. split; [lia|].
      split; [exact Hm1|]. split; [exact Hsame1|exact Ho1].
    + replace (Z.of_nat i + 1)%Z with (Z.of_nat (S i)) in H by lia.
      destruct (IH (S i) f1 f' _ H Hm1) as (k & _ & Hk & Hmk & Hsame & Ho).
      exists (S k). split; [lia|]. split; [lia|].
      split.
      { rewrite Hmk, <- app_assoc. reflexivity. }
      split; [exact (same_bookkeeping_trans _ _ _ Hsame1 Hsame)|].
      rewrite Ho. exact Ho1.
  - apply Z.ltb_ge in Hi. unfold max_x_iterations in Hi.
    inversion H; subst. exists 0%nat.
    split; [lia|]. split; [lia|].
    split; [simpl; rewrite app_nil_r; exact Hm|].
    split; [apply same_bookkeeping_refl|reflexivity].
Qed.

(** The first pass decides whether a final fit is made: the loop ends
    after it exactly when it meets the tolerance, and every further pass
    asks for one final fit. *)
Lemma x_loop_first_pass (verbose : bool) (n fuel : nat) (f : Fit)
    (calls : list minuit_call) :
  ready n f = true ->
  (10 < fuel)%nat ->
  minimizer f = Some calls ->
  exists g1 met1 k f',
    x_iteration minuit_result np_sqrt derive_by_x verbose 0 f = Ok (g1, met1)
    /\ (met1 = true
        <-> within_tolerance n (current_cov_mat f) (current_cov_mat g1))
    /\ x_loop minuit_result np_sqrt derive_by_x fuel verbose 0 f
       = Some (Ok f')
    /\ (k < 10)%nat
    /\ (k = 0%nat <-> met1 = true)
    /\ minimizer f'
       = Some (calls ++
               minimize false (log_print_level_of false verbose)
               :: repeat (minimize true (log_print_level_of true verbose)) k)
    /\ same_bookkeeping f f'
    /\ out_stream f' = out_stream f.
Proof.
  intros Hready Hfuel Hm.
  destruct (x_iteration_ok minuit_result np_sqrt derive_by_x
              derive_by_x_length verbose 0 f n Hready)
    as (g1 & met1 & Hit & Hmet & Hready1 & _).
  pose proof Hit as Hinv. change 0%Z with (Z.of_nat 0) in Hinv.
  apply x_iteration_inv in Hinv as (calls' & Hm' & Hm1 & Hsame1 & Ho1).
  rewrite Hm in Hm'. inversion Hm'; subst calls'. clear Hm'.
  destruct fuel as [|fuel]; [lia|].
  exists g1, met1. destruct met1.
  - exists 0%nat, (log debug_converged g1).
    split; [exact Hit|]. split; [exact Hmet|].
    split; [cbn [x_loop]; change (0 <? max_x_iterations)%Z with true;
            cbv iota; rewrite Hit; reflexivity|].
    split; [lia|]. split; [split; reflexivity|].
    split; [exact Hm1|]. split; [exact Hsame1|exact Ho1].
  - destruct (x_loop_run minuit_result np_sqrt derive_by_x derive_by_x_length
                verbose n 8 1 g1 fuel Hready1)
      as (k0 & f_last & met & _ & _ & _ & Hloop & _); [lia|lia|].
    pose proof Hloop as Hk.
    apply (x_loop_inv verbose fuel 1 g1 _ (calls ++ [pass_minimize verbose 0]))
      in Hk; [|exact Hm1].
    destruct Hk as (k & Hk1 & Hk10 & Hmk & Hbk & Hok).
    exists k, (if met then log debug_converged f_last else f_last).
    split; [exact Hit|]. split; [exact Hmet|].
    split.
    { cbn [x_loop]. change (0 <? max_x_iterations)%Z with true.
      cbv iota. rewrite Hit. exact Hloop. }
    split; [lia|].
    split; [split; [intros E; lia|intros E; discriminate E]|].
    split.
    { rewrite Hmk, pass_minimize_later, <- app_assoc. reflexivity. }
    split; [exact (same_bookkeeping_trans _ _ _ Hsame1 Hbk)|].
    rewrite Hok. exact Ho1.
Qed.

(** *** Symmetric covariance matrices *)

Lemma project_x_covariance_matrix_symmetric (f f' : Fit) (n : nat) :
  ready n f = true ->
  symmetric n (get_cov_mat_x (dataset f)) ->
  symmetric n (get_cov_mat_y (dataset f)) ->
  project_x_covariance_matrix np_sqrt derive_by_x f = Ok f' ->
  symmetric n (current_cov_mat f')
  /\ ready n f' = true
  /\ dataset f' = dataset f.
Proof.
  intros Hready Hsx Hsy H.
  destruct (project_x_covariance_matrix_ok np_sqrt derive_by_x
              derive_by_x_length f n Hready)
    as (m & steps & f1 & _ & _ & _ & Hproj & Hent & _ & Hready1 & Hd1 & _).
  rewrite Hproj in H. inversion H; subst f1.
  split; [|split; assumption].
  cbv zeta in Hent. intros i j Hi Hj.
  rewrite (Hent i j Hi Hj), (Hent j i Hj Hi).
  rewrite (Hsx i j Hi Hj), (Hsy i j Hi Hj). ring.
Qed.

Lemma x_iteration_symmetric (verbose : bool) (iter_nr : Z) (f f' : Fit)
    (met : bool) (n : nat) :
  ready n f = true ->
  symmetric n (get_cov_mat_x (dataset f)) ->
  symmetric n (get_cov_mat_y (dataset f)) ->
  x_iteration minuit_result np_sqrt derive_by_x verbose iter_nr f
  = Ok (f', met) ->
  symmetric n (current_cov_mat f')
  /\ ready n f' = true
  /\ dataset f' = dataset f.
Proof.
  intros Hready Hsx Hsy H.
  destruct (x_iteration_ok minuit_result np_sqrt derive_by_x
              derive_by_x_length verbose iter_nr f n Hready)
    as (g & met' & Hit & _ & Hreadyg & _).
  rewrite Hit in H. inversion H; subst g met'. clear H.
  unfold x_iteration in Hit. cbv zeta in Hit. bind_inv Hit.
  apply (project_x_covariance_matrix_symmetric f x n Hready Hsx Hsy) in E
    as (Hsym & _ & Hd).
  replace (if (iter_nr =? 0)%Z
           then call_minimizer minuit_result false verbose
                  (log (debug_x_iteration iter_nr) x)
           else call_minimizer minuit_result true verbose
                  (log (debug_x_iteration iter_nr) x))
    with (call_minimizer minuit_result (negb (iter_nr =? 0)%Z) verbose
            (log (debug_x_iteration iter_nr) x)) in Hit
    by (destruct (iter_nr =? 0)%Z; reflexivity).
  bind_inv Hit.
  apply call_minimizer_inv in E as (calls & _ & _ & Hsame & Hcov & _).
  bind_inv Hit. inversion Hit; subst.
  destruct Hsame as (Hd' & _).
  split; [rewrite Hcov; exact Hsym|]. split; [exact Hreadyg|].
  rewrite Hd'. exact Hd.
Qed.

Lemma x_loop_symmetric (verbose : bool) (n fuel : nat) :
  forall (iter_nr : Z) (f f' : Fit),
    ready n f = true ->
    symmetric n (get_cov_mat_x (dataset f)) ->
    symmetric n (get_cov_mat_y (dataset f)) ->
    symmetric n (current_cov_mat f) ->
    x_loop minuit_result np_sqrt derive_by_x fuel verbose iter_nr f
    = Some (Ok f') ->
    symmetric n (current_cov_mat f').
Proof.
  induction fuel as [|fuel IH]; intros iter_nr f f' Hready Hsx Hsy Hs H;
    [discriminate H|].
  cbn [x_loop] in H.
  destruct (iter_nr <? max_x_iterations)%Z; [|inversion H; subst; exact Hs].
  destruct (x_iteration minuit_result np_sqrt derive_by_x verbose iter_nr f)
    as [[f1 met]|e] eqn:Hit; [|discriminate H].
  apply (x_iteration_symmetric verbose iter_nr f f1 met n Hready Hsx Hsy) in Hit
    as (Hs1 & Hready1 & Hd1).
  destruct met.
  - inversion H; subst. exact Hs1.
  - apply (IH (iter_nr + 1)%Z f1 f' Hready1); try assumption;
      rewrite Hd1; assumption.
Qed.

Lemma same_bookkeeping_setup (f f' : Fit) :
  same_bookkeeping f f' -> same_setup f f'.
Proof.
  intros (H1 & H2 & H3 & H4 & H5 & H6 & H7 & _ & H9).
  repeat split; assumption.
Qed.

Lemma same_setup_trans (f g h : Fit) :
  same_setup f g -> same_setup g h -> same_setup f h.
Proof.
  intros (A1 & A2 & A3 & A4 & A5 & A6 & A7 & A8)
         (B1 & B2 & B3 & B4 & B5 & B6 & B7 & B8).
  repeat split; congruence.
Qed.

(** One run of [do_fit], from a fit as [__init__] leaves it; when the
    dataset has x errors, over [n] points and with fuel for the ten passes
    of the loop. *)
Lemma do_fit_runs (fuel n : nat) (quiet verbose : bool) (f : Fit) :
  well_formed f = true ->
  (has_errors_x (dataset f) = true -> ready n f = true /\ (10 < fuel)%nat) ->
  exists f' calls k header,
    minimizer f = Some calls
    /\ do_fit minuit_result np_sqrt derive_by_x fuel quiet verbose f
       = Some (Ok f')
    /\ (k < 10)%nat
    /\ minimizer f'
       = Some (calls ++
               if has_errors_x (dataset f)
               then minimize false (log_print_level_of false verbose)
                    :: minimize false (log_print_level_of false verbose)
                    :: repeat (minimize true (log_print_level_of true verbose)) k
               else [minimize true (log_print_level_of true verbose)])
    /\ same_setup f f'
    /\ constrained_parameters f'
       = (if (number_of_constrained_parameters f =? 0)%Z then None
          else constrained_parameters f)
    /\ (has_errors_x (dataset f) = false ->
        current_cov_mat f' = current_cov_mat f)
    /\ out_stream f'
       = out_stream f ++ out_timestamp
           :: (if quiet then []
               else out_dataset :: out_fit_function :: header
                    ++ [out_fit_results; out_rounded_fit_parameters;
                        out_fit_details (ndf f)])
    /\ (number_of_constrained_parameters f = 0%Z -> header = [])
    /\ (number_of_constrained_parameters f <> 0%Z ->
        exists active, header = [out_constraints active])
    /\ (symmetric n (get_cov_mat_x (dataset f)) ->
        symmetric n (get_cov_mat_y (dataset f)) ->
        symmetric n (current_cov_mat f) ->
        symmetric n (current_cov_mat f'))
    /\ (has_errors_x (dataset f) = true ->
        exists f2 g1 met1,
          dataset f2 = dataset f
          /\ current_cov_mat f2 = current_cov_mat f
          /\ minimizer f2
             = Some (calls ++
                     [minimize false (log_print_level_of false verbose)])
          /\ x_iteration minuit_result np_sqrt derive_by_x verbose 0 f2
             = Ok (g1, met1)
          /\ (met1 = true
              <-> within_tolerance n (current_cov_mat f)
                                   (current_cov_mat g1))
          /\ (k = 0%nat <-> met1 = true)).
Proof.
  intros Hwf Hx.
  destruct (well_formed_inv f Hwf) as (calls & cvals & cerrs & Hm & Hcp & _).
  unfold do_fit. cbv zeta.
  set (ft := print out_timestamp f).
  destruct (print_header_ok ft Hwf) as (header & Hh & H0 & Hlen & Hact).
  change (number_of_constrained_parameters ft)
    with (number_of_constrained_parameters f) in H0, Hact.
  set (fh := if quiet then ft
             else foldl (fun g r => print r g)
                        (print out_fit_function (print out_dataset ft)) header).
  assert (Hhead : (if quiet then Ok ft else print_header ft) = Ok fh)
    by (unfold fh; destruct quiet; [reflexivity|exact Hh]).
  rewrite Hhead. clear Hhead Hh.
  assert (Hfh : same_bookkeeping f fh
                /\ minimizer fh = minimizer f
                /\ current_cov_mat fh = current_cov_mat f
                /\ out_stream fh
                   = out_stream f ++ out_timestamp
                       :: (if quiet then []
                           else out_dataset :: out_fit_function :: header)).
  { unfold fh. destruct quiet; [simpl; repeat split|].
    destruct header as [|h [|h' header]]; [| |simpl in Hlen; lia];
      simpl; rewrite <- ?app_assoc; repeat split. }
  clearbody fh. destruct Hfh as (Hbh & Hmh & Hch & Hoh).
  pose proof Hbh as (Hd & Hff & Hn & Hnames & Hfx & Hnfx & Hcf & Hcph & Hnc).
  set (f0 := log debug_calling_minuit _).
  assert (Hf0 : same_setup f f0
                /\ constrained_parameters f0
                   = (if (number_of_constrained_parameters f =? 0)%Z then None
                      else constrained_parameters f)
                /\ minimizer f0 = Some calls
                /\ current_cov_mat f0 = current_cov_mat f
                /\ out_stream f0 = out_stream fh).
  { unfold f0. rewrite Hnc.
    destruct (number_of_constrained_parameters f =? 0)%Z; simpl;
      rewrite ?Hmh, ?Hm; repeat split; assumption. }
  clearbody f0. destruct Hf0 as (Hs0 & Hcp0 & Hm0 & Hc0 & Ho0).
  pose proof Hs0 as (Hd0 & _).
  rewrite Hd0.
  destruct (call_minimizer_ok minuit_result
              (negb (has_errors_x (dataset f))) verbose f0 calls Hm0)
    as (f1 & Hcall & _).
  rewrite Hcall.
  apply call_minimizer_inv in Hcall
    as (calls0 & Hm0' & Hm1 & Hb1 & Hc1 & Ho1 & _).
  rewrite Hm0 in Hm0'. inversion Hm0'; subst calls0. clear Hm0'.
  pose proof Hb1 as (Hd1 & _ & _ & _ & _ & _ & _ & Hcp1 & _).
  rewrite Hd1, Hd0.
  assert (Hfinal : forall g k,
            (k < 10)%nat ->
            same_bookkeeping f1 g ->
            out_stream g = out_stream f1 ->
            minimizer g
            = Some (calls ++
                    if has_errors_x (dataset f)
                    then minimize false (log_print_level_of false verbose)
                         :: minimize false (log_print_level_of false verbose)
                         :: repeat (minimize true
                                      (log_print_level_of true verbose)) k
                    else [minimize true (log_print_level_of true verbose)]) ->
            (has_errors_x (dataset f) = false ->
             current_cov_mat g = current_cov_mat f) ->
            (symmetric n (get_cov_mat_x (dataset f)) ->
             symmetric n (get_cov_mat_y (dataset f)) ->
             symmetric n (current_cov_mat f) ->
             symmetric n (current_cov_mat g)) ->
            (has_errors_x (dataset f) = true ->
             exists f2 g1 met1,
               dataset f2 = dataset f
               /\ current_cov_mat f2 = current_cov_mat f
               /\ minimizer f2
                  = Some (calls ++
                          [minimize false (log_print_level_of false verbose)])
               /\ x_iteration minuit_result np_sqrt derive_by_x verbose 0 f2
                  = Ok (g1, met1)
               /\ (met1 = true
                   <-> within_tolerance n (current_cov_mat f)
                                        (current_cov_mat g1))
               /\ (k = 0%nat <-> met1 = true)) ->
            exists f' calls' k' header',
              minimizer f = Some calls'
              /\ Some (Ok (if quiet then g else print_results g))
                 = Some (Ok f')
              /\ (k' < 10)%nat
              /\ minimizer f'
                 = Some (calls' ++
                         if has_errors_x (dataset f)
                         then minimize false (log_print_level_of false verbose)
                              :: minimize false
                                   (log_print_level_of false verbose)
                              :: repeat (minimize true
                                           (log_print_level_of true verbose)) k'
                         else [minimize true
                                 (log_print_level_of true verbose)])
              /\ same_setup f f'
              /\ constrained_parameters f'
                 = (if (number_of_constrained_parameters f =? 0)%Z then None
                    else constrained_parameters f)
              /\ (has_errors_x (dataset f) = false ->
                  current_cov_mat f' = current_cov_mat f)
              /\ out_stream f'
                 = out_stream f ++ out_timestamp
                     :: (if quiet then []
                         else out_dataset :: out_fit_function :: header'
                              ++ [out_fit_results; out_rounded_fit_parameters;
                                  out_fit_details (ndf f)])
              /\ (number_of_constrained_parameters f = 0%Z -> header' = [])
              /\ (number_of_constrained_parameters f <> 0%Z ->
                  exists active, header' = [out_constraints active])
              /\ (symmetric n (get_cov_mat_x (dataset f)) ->
                  symmetric n (get_cov_mat_y (dataset f)) ->
                  symmetric n (current_cov_mat f) ->
                  symmetric n (current_cov_mat f'))
              /\ (has_errors_x (dataset f) = true ->
                  exists f2 g1 met1,
                    dataset f2 = dataset f
                    /\ current_cov_mat f2 = current_cov_mat f
                    /\ minimizer f2
                       = Some (calls' ++
                               [minimize false
                                  (log_print_level_of false verbose)])
                    /\ x_iteration minuit_result np_sqrt derive_by_x verbose
                                   0 f2
                       = Ok (g1, met1)
                    /\ (met1 = true
                        <-> within_tolerance n (current_cov_mat f)
                                             (current_cov_mat g1))
                    /\ (k' = 0%nat <-> met1 = true))).
  { intros g k Hk Hbg Hog Hmg Hcg Hsymg Hfirst.
    assert (Hsg : same_setup f g).
    { apply (same_setup_trans f f0 g); [exact Hs0|].
      apply same_bookkeeping_setup.
      exact (same_bookkeeping_trans _ _ _ Hb1 Hbg). }
    assert (Hcpg : constrained_parameters g
                   = (if (number_of_constrained_parameters f =? 0)%Z then None
                      else constrained_parameters f)).
    { destruct Hbg as (_ & _ & _ & _ & _ & _ & _ & Hcpg & _).
      rewrite Hcpg, Hcp1. exact Hcp0. }
    exists (if quiet then g else print_results g), calls, k, header.
    split; [exact Hm|]. split; [reflexivity|]. split; [exact Hk|].
    split; [destruct quiet; exact Hmg|].
    split; [destruct quiet; exact Hsg|].
    split; [destruct quiet; exact Hcpg|].
    split; [destruct quiet; exact Hcg|].
    split; [|split; [assumption|split; [assumption
                    |split; [destruct quiet; exact Hsymg|exact Hfirst]]]].
    destruct quiet.
    - rewrite Hog, Ho1, Ho0, Hoh. reflexivity.
    - unfold print_results, print_fit_details. cbn [out_stream print].
      change (ndf (print out_rounded_fit_parameters (print out_fit_results g)))
        with (ndf g).
      rewrite (ndf_same_setup f g Hsg), Hog, Ho1, Ho0, Hoh.
      rewrite <- !app_assoc. reflexivity. }
  destruct (has_errors_x (dataset f)) eqn:Ex.
  - destruct (Hx eq_refl) as [Hready Hfuel].
    destruct (ready_inv n f Hready) as (_ & Hn0 & Hlen0 & HCx & HCy & HC).
    cbn [negb] in Hm1.
    set (f2 := log debug_iterating_x f1).
    assert (Hready2 : ready n f2 = true).
    { apply (ready_intro n f2 _ Hm1); unfold f2; simpl;
        rewrite ?Hd1, ?Hd0, ?Hc1, ?Hc0; assumption. }
    destruct (x_loop_first_pass verbose n fuel f2 _ Hready2 Hfuel Hm1)
      as (g1 & met1 & k & g & Hit & Hmet & Hloop & Hk & Hk0 & Hmk & Hbk & Hok).
    rewrite Hloop.
    apply (Hfinal g k); [exact Hk|exact Hbk|exact Hok| |discriminate| |].
    + rewrite Hmk, <- app_assoc. reflexivity.
    + intros Hsx Hsy Hs.
      apply (x_loop_symmetric verbose n fuel 0%Z f2 _ Hready2);
        [unfold f2; simpl; rewrite Hd1, Hd0; exact Hsx
        |unfold f2; simpl; rewrite Hd1, Hd0; exact Hsy
        |unfold f2; simpl; rewrite Hc1, Hc0; exact Hs
        |exact Hloop].
    + intros _. exists f2, g1, met1.
      split; [unfold f2; simpl; rewrite Hd1; exact Hd0|].
      split; [unfold f2; simpl; rewrite Hc1; exact Hc0|].
      split; [exact Hm1|]. split; [exact Hit|].
      split; [|exact Hk0].
      replace (current_cov_mat f) with (current_cov_mat f2)
        by (unfold f2; simpl; rewrite Hc1; exact Hc0).
      exact Hmet.
  - cbn [negb] in Hm1.
    apply (Hfinal f1 0%nat);
      [lia|apply same_bookkeeping_refl|reflexivity| | | |discriminate].
    + exact Hm1.
    + intros _. rewrite Hc1. exact Hc0.
    + intros _ _ Hs. rewrite Hc1, Hc0. exact Hs.
Qed.

End WorkflowFrame.

Section DoFitProperties.

Variable minuit_result : Fit -> list Q * list Q.
Variable np_sqrt : Q -> Q.
Variable derive_by_x : FitFunction -> vector -> vector -> list Q -> vector.

Hypothesis derive_by_x_length :
  forall ff x_0 precision_list parameter_list,
    length precision_list = length x_0 ->
    length (derive_by_x ff x_0 precision_list parameter_list) = length x_0.


(** X21.  On a dataset without x errors, [do_fit] returns whatever
    the fuel, asks the minimizer for exactly one fit, a final one, and
    leaves the covariance matrix as it was. *)
Theorem do_fit_without_x_errors_fits_once (fuel : nat) (quiet verbose : bool)
    (f : Fit) :
  well_formed f = true ->
  has_errors_x (dataset f) = false ->
  exists f' calls,
    minimizer f = Some calls
    /\ do_fit minuit_result np_sqrt derive_by_x fuel quiet verbose f
       = Some (Ok f')
    /\ minimizer f'
       = Some (calls ++ [minimize true (log_print_level_of true verbose)])
    /\ current_cov_mat f' = current_cov_mat f.
Proof.
  intros Hwf Hx.
  destruct (do_fit_runs minuit_result np_sqrt derive_by_x derive_by_x_length
              fuel 0 quiet verbose f Hwf)
    as (f' & calls & k & header & Hm & Hrun & _ & Hmin & _ & _ & Hcov & _);
    [intros E; rewrite Hx in E; discriminate E|].
  exists f', calls. rewrite Hx in Hmin.
  split; [exact Hm|]. split; [exact Hrun|]. split; [exact Hmin|].
  apply Hcov. exact Hx.
Qed.

(** X22.  [do_fit] changes neither the data nor which parameters
    are fixed or constrained.  When no parameter has been constrained it
    replaces the lists of targets and sigmas by [None], and
    [constrain_parameters] on the fit it leaves raises [TypeError] at its
    first parameter; otherwise it keeps the lists. *)
Theorem do_fit_drops_unused_constraint_lists (fuel n : nat)
    (quiet verbose : bool) (f : Fit) :
  well_formed f = true ->
  (has_errors_x (dataset f) = true -> ready n f = true /\ (10 < fuel)%nat) ->
  exists f',
    do_fit minuit_result np_sqrt derive_by_x fuel quiet verbose f
    = Some (Ok f')
    /\ same_setup f f'
    /\ (number_of_constrained_parameters f = 0%Z ->
        constrained_parameters f' = None
        /\ forall l ps c cs parerrs,
             resolves f' l = true ->
             constrain_parameters (l :: ps) (c :: cs) parerrs f'
             = Raise TypeError)
    /\ (number_of_constrained_parameters f <> 0%Z ->
        constrained_parameters f' = constrained_parameters f).
Proof.
  intros Hwf Hx.
  destruct (do_fit_runs minuit_result np_sqrt derive_by_x derive_by_x_length
              fuel n quiet verbose f Hwf Hx)
    as (f' & calls & k & header & _ & Hrun & _ & _ & Hsame & Hcp & _).
  exists f'. split; [exact Hrun|]. split; [exact Hsame|]. split.
  - intros H0. rewrite H0 in Hcp. simpl in Hcp. split; [exact Hcp|].
    intros l ps c cs parerrs Hl.
    unfold constrain_parameters. cbn [constrain_from].
    unfold resolves in Hl.
    destruct (_find_parameter f' l) as [[par_id|]|e]; try discriminate Hl.
    cbn [Py.bind].
    change (getitem (c :: cs) (Z.of_nat 0)) with (Ok c : result Q).
    cbn [Py.bind]. rewrite Hcp. reflexivity.
  - intros Hne. apply Z.eqb_neq in Hne. rewrite Hne in Hcp. exact Hcp.
Qed.

(** X23.  What [do_fit] writes to the output stream: with
    [quiet=True] the timestamp and nothing else; otherwise the timestamp,
    the dataset, the fit function, the constraints if any parameter has
    been constrained, the results, the rounded parameters and the details
    with the degrees of freedom of the fit as it was handed in. *)
Theorem do_fit_report (fuel n : nat) (quiet verbose : bool) (f : Fit) :
  well_formed f = true ->
  (has_errors_x (dataset f) = true -> ready n f = true /\ (10 < fuel)%nat) ->
  exists f' header,
    do_fit minuit_result np_sqrt derive_by_x fuel quiet verbose f
    = Some (Ok f')
    /\ out_stream f'
       = out_stream f ++ out_timestamp
           :: (if quiet then []
               else out_dataset :: out_fit_function :: header
                    ++ [out_fit_results; out_rounded_fit_parameters;
                        out_fit_details (ndf f)])
    /\ (number_of_constrained_parameters f = 0%Z -> header = [])
    /\ (number_of_constrained_parameters f <> 0%Z ->
        exists active, header = [out_constraints active]).
Proof.
  intros Hwf Hx.
  destruct (do_fit_runs minuit_result np_sqrt derive_by_x derive_by_x_length
              fuel n quiet verbose f Hwf Hx)
    as (f' & calls & k & header & _ & Hrun & _ & _ & _ & _ & _ & Hout & H0 & Hact & _).
  exists f', header. repeat split; assumption.
Qed.

(** X24.  The projection of the x errors keeps the covariance
    matrix symmetric: when the covariance matrices of the dataset are
    symmetric, so is the matrix a projection step computes, and so is the
    matrix [do_fit] leaves when the fit began with a symmetric one. *)
Theorem projection_keeps_covariance_symmetric (fuel n : nat)
    (quiet verbose : bool) (f : Fit) :
  well_formed f = true ->
  ready n f = true ->
  (has_errors_x (dataset f) = true -> (10 < fuel)%nat) ->
  symmetric n (get_cov_mat_x (dataset f)) ->
  symmetric n (get_cov_mat_y (dataset f)) ->
  (exists f1,
     project_x_covariance_matrix np_sqrt derive_by_x f = Ok f1
     /\ symmetric n (current_cov_mat f1))
  /\ (symmetric n (current_cov_mat f) ->
      exists f',
        do_fit minuit_result np_sqrt derive_by_x fuel quiet verbose f
        = Some (Ok f')
        /\ symmetric n (current_cov_mat f')).
Proof.
  intros Hwf Hready Hx Hsx Hsy. split.
  - destruct (project_x_covariance_matrix_ok np_sqrt derive_by_x
                derive_by_x_length f n Hready)
      as (m & steps & f1 & _ & _ & _ & Hproj & _).
    exists f1. split; [exact Hproj|].
    apply (project_x_covariance_matrix_symmetric np_sqrt derive_by_x
             derive_by_x_length f f1 n Hready Hsx Hsy Hproj).
  - intros Hs.
    destruct (do_fit_runs minuit_result np_sqrt derive_by_x derive_by_x_length
                fuel n quiet verbose f Hwf)
      as (f' & calls & k & header & _ & Hrun & _ & _ & _ & _ & _ & _ & _ & _
          & Hsym & _);
      [intros E; split; [exact Hready|exact (Hx E)]|].
    exists f'. split; [exact Hrun|]. apply Hsym; assumption.
Qed.

End DoFitProperties.

Lemma two_points_symmetric :
  symmetric 2 (get_cov_mat_x (dataset sample_fit))
  /\ symmetric 2 (get_cov_mat_y (dataset sample_fit))
  /\ symmetric 2 (current_cov_mat sample_fit).
Proof.
  repeat split; intros [|[|i]] [|[|j]] Hi Hj; try lia; reflexivity.
Defined.


(** Three runs evaluated.  A line that starts level does not move the
    covariance matrix: the first pass meets the tolerance and no final fit
    is made.  With slope one and a minimizer that keeps its values the
    second pass repeats the matrix of the first: one final fit.  With a
    minimizer whose values never settle all ten passes are made: nine
    final fits. *)
Example do_fit_final_fits :
  match do_fit minuit_keep sqrt_exact central_difference 11 true false
               sample_fit_level,
        do_fit minuit_keep sqrt_exact central_difference 11 true false
               sample_fit,
        do_fit minuit_double sqrt_exact central_difference 11 true false
               sample_fit with
  | Some (Ok f0), Some (Ok f1), Some (Ok f9) =>
      minimizer f0
      = Some [set_parameter_values [0; 1]; set_parameter_errors None;
              minimize false 0; minimize false 0]
      /\ minimizer f1
         = Some [set_parameter_values [1; 0]; set_parameter_errors None;
                 minimize false 0; minimize false 0; minimize true 2]
      /\ minimizer f9
         = Some ([set_parameter_values [1; 0]; set_parameter_errors None;
                  minimize false 0; minimize false 0]
                 ++ repeat (minimize true 2) 9)
  | _, _, _ => False
  end.
Proof. vm_compute. repeat split. Qed.

Lemma do_fit_without_x_errors_fits_once_witness :
  exists f' calls,
    minimizer sample_fit_y_only = Some calls
    /\ do_fit minuit_keep sqrt_exact central_difference 0 false true
              sample_fit_y_only
       = Some (Ok f')
    /\ minimizer f'
       = Some (calls ++ [minimize true (log_print_level_of true true)])
    /\ current_cov_mat f' = current_cov_mat sample_fit_y_only.
Proof.
  apply (do_fit_without_x_errors_fits_once minuit_keep sqrt_exact
           central_difference central_difference_length 0 false true
           sample_fit_y_only);
    reflexivity.
Defined.

Lemma do_fit_drops_unused_constraint_lists_witness :
  exists f',
    do_fit minuit_keep sqrt_exact central_difference 11 true false sample_fit
    = Some (Ok f')
    /\ same_setup sample_fit f'
    /\ (number_of_constrained_parameters sample_fit = 0%Z ->
        constrained_parameters f' = None
        /\ forall l ps c cs parerrs,
             resolves f' l = true ->
             constrain_parameters (l :: ps) (c :: cs) parerrs f'
             = Raise TypeError)
    /\ (number_of_constrained_parameters sample_fit <> 0%Z ->
        constrained_parameters f' = constrained_parameters sample_fit).
Proof.
  apply (do_fit_drops_unused_constraint_lists minuit_keep sqrt_exact
           central_difference central_difference_length 11 2 true false
           sample_fit);
    [reflexivity|intros _; split; [reflexivity|lia]].
Defined.

Lemma do_fit_report_witness :
  exists f' header,
    do_fit minuit_keep sqrt_exact central_difference 11 false false sample_fit
    = Some (Ok f')
    /\ out_stream f'
       = out_stream sample_fit ++ out_timestamp
           :: out_dataset :: out_fit_function :: header
              ++ [out_fit_results; out_rounded_fit_parameters;
                  out_fit_details (ndf sample_fit)]
    /\ (number_of_constrained_parameters sample_fit = 0%Z -> header = [])
    /\ (number_of_constrained_parameters sample_fit <> 0%Z ->
        exists active, header = [out_constraints active]).
Proof.
  apply (do_fit_report minuit_keep sqrt_exact central_difference
           central_difference_length 11 2 false false sample_fit);
    [reflexivity|intros _; split; [reflexivity|lia]].
Defined.

Lemma projection_keeps_covariance_symmetric_witness :
  (exists f1,
     project_x_covariance_matrix sqrt_exact central_difference sample_fit
     = Ok f1
     /\ symmetric 2 (current_cov_mat f1))
  /\ (symmetric 2 (current_cov_mat sample_fit) ->
      exists f',
        do_fit minuit_double sqrt_exact central_difference 11 true false
               sample_fit
        = Some (Ok f')
        /\ symmetric 2 (current_cov_mat f')).
Proof.
  apply (projection_keeps_covariance_symmetric minuit_double sqrt_exact
           central_difference central_difference_length 11 2 true false
           sample_fit);
    [reflexivity|reflexivity|intros _; lia
    |exact (proj1 two_points_symmetric)
    |exact (proj1 (proj2 two_points_symmetric))].
Defined.
